(** * GoQuant trade simulator: order-book statistics, cost models, feed client

    A shallow embedding of the C++ sources
      - [src/data/orderbook_processor.cpp]  (rolling statistics),
      - [models/market_impact.cpp]          (Almgren-Chriss impact and schedule),
      - [models/transaction_cost.cpp]       (slippage, fees, maker proportion),
      - [src/models/simulator.cpp]          (orchestration),
      - [src/data/websocket_client.cpp]     (feed client, parser, backoff),
    followed by the properties of each component.

    Numbers.  The C++ code computes on [double].  Every function is written
    once over an arithmetic interface, [Arith], and read at two instances:
      - [binary64]: IEEE 754 double precision, through the executable
        specification [SpecFloat] of the standard library (round to nearest
        even, signed zeros, infinities, NaN); this is what the program
        computes, and what concrete inputs are evaluated in;
      - [reals]: exact real arithmetic, for the algebraic laws that the
        documentation states up to rounding.  A statement at this instance
        is about inputs on which every division the code performs has a
        non-zero divisor, or does not depend on the quotient.
    The functions of <cmath> that IEEE 754 does not fix ([exp], [log], [pow])
    form a second interface, [LibM]; [std::stod] is a third, [StrToD].

    Effects.  Clock readings are arguments.  What the feed client does to
    the outside (callback invocations, lines on the error stream, sleeps) is
    the list of effects its functions return; what the network does to it is
    a list of sessions.  The values the simulator hands to its output callback
    are collected in its state. *)

From Stdlib Require Import String Ascii.
From Stdlib Require Import ZArith List Bool Lia.
From Stdlib Require Import SpecFloat.
From Stdlib Require Import Reals Lra Psatz.
Import ListNotations.

Set Implicit Arguments.

(* ================================================================== *)
(** * The arithmetic of [double] *)

Class Arith (A : Type) : Type := {
  of_Z : Z -> A;           (* static_cast<double> of an int or a size_t *)
  add  : A -> A -> A;
  sub  : A -> A -> A;
  mul  : A -> A -> A;
  div  : A -> A -> A;
  neg  : A -> A;           (* unary minus *)
  fabs : A -> A;           (* std::abs *)
  sqrt : A -> A;           (* std::sqrt *)
  ltb  : A -> A -> bool;   (* operator<  *)
  leb  : A -> A -> bool    (* operator<= *)
}.

Class LibM (A : Type) : Type := {
  exp : A -> A;            (* std::exp *)
  log : A -> A;            (* std::log *)
  pow : A -> A -> A        (* std::pow *)
}.

Declare Scope dbl_scope.
Delimit Scope dbl_scope with D.
Notation "x + y" := (add x y) : dbl_scope.
Notation "x - y" := (sub x y) : dbl_scope.
Notation "x * y" := (mul x y) : dbl_scope.
Notation "x / y" := (div x y) : dbl_scope.
Notation "- x" := (neg x) : dbl_scope.
Notation "x <? y" := (ltb x y) : dbl_scope.
Notation "x <=? y" := (leb x y) : dbl_scope.
Notation "x >? y" := (ltb y x) : dbl_scope.
Notation "x >=? y" := (leb y x) : dbl_scope.

(** The decimal literal [m]e-[k] of the source text, e.g. [0.0002] is
    [dec 2 4].  With [m] and [10^k] below [2^53] the binary64 quotient is the
    correctly rounded literal. *)
Definition dec {A} `{Arith A} (m : Z) (k : nat) : A :=
  (of_Z m / of_Z (10 ^ Z.of_nat k))%D.

(** <algorithm>: [std::max(a, b)] is [(a < b) ? b : a], [std::min(a, b)] is
    [(b < a) ? b : a], [std::clamp(v, lo, hi)] is
    [(v < lo) ? lo : (hi < v) ? hi : v]. *)
Definition std_max {A} `{Arith A} (a b : A) : A := if (a <? b)%D then b else a.
Definition std_min {A} `{Arith A} (a b : A) : A := if (b <? a)%D then b else a.
Definition std_clamp {A} `{Arith A} (v lo hi : A) : A :=
  if (v <? lo)%D then lo else if (hi <? v)%D then hi else v.

(** ** IEEE 754 binary64 *)

Module B64.
Definition prec : Z := 53.
Definition emax : Z := 1024.

Definition nan : spec_float := S754_nan.

Definition of_Z (z : Z) : spec_float := binary_normalize prec emax z 0 false.

Definition is_nan (x : spec_float) : bool :=
  match x with S754_nan => true | _ => false end.
End B64.

#[export] Instance binary64 : Arith spec_float := {
  of_Z := B64.of_Z;
  add  := SFadd B64.prec B64.emax;
  sub  := SFsub B64.prec B64.emax;
  mul  := SFmul B64.prec B64.emax;
  div  := SFdiv B64.prec B64.emax;
  neg  := SFopp;
  fabs := SFabs;
  sqrt := SFsqrt B64.prec B64.emax;
  ltb  := SFltb;
  leb  := SFleb
}.

(** ** Exact reals *)

Definition Rltb (x y : R) : bool := if Rlt_dec x y then true else false.
Definition Rleb (x y : R) : bool := if Rle_dec x y then true else false.

#[export] Instance reals : Arith R := {
  of_Z := IZR;
  add  := Rplus;
  sub  := Rminus;
  mul  := Rmult;
  div  := Rdiv;
  neg  := Ropp;
  fabs := Rabs;
  sqrt := R_sqrt.sqrt;
  ltb  := Rltb;
  leb  := Rleb
}.

Lemma Rltb_true (x y : R) : Rltb x y = true <-> (x < y)%R.
Proof. unfold Rltb; destruct (Rlt_dec x y); split; intros; try easy. Qed.

Lemma Rltb_false (x y : R) : Rltb x y = false <-> (y <= x)%R.
Proof.
  unfold Rltb; destruct (Rlt_dec x y); split; intros; try easy; lra.
Qed.

Lemma Rleb_true (x y : R) : Rleb x y = true <-> (x <= y)%R.
Proof. unfold Rleb; destruct (Rle_dec x y); split; intros; try easy. Qed.

Lemma Rleb_false (x y : R) : Rleb x y = false <-> (y < x)%R.
Proof.
  unfold Rleb; destruct (Rle_dec x y); split; intros; try easy; lra.
Qed.

(* ================================================================== *)
(** * Data model ([data/orderbook_types.h], [models/*.h]) *)

Section Types.
Variable A : Type.

Definition PriceLevel : Type := (A * A)%type.      (* (price, size) *)
Definition PriceLevels : Type := list PriceLevel.

Record OrderbookData : Type := {
  timestamp : string;
  exchange : string;
  symbol : string;
  asks : PriceLevels;
  bids : PriceLevels;
  received_time : Z
}.

Record OrderbookStats : Type := {
  midprice : A;
  spread : A;
  best_ask : A;
  best_bid : A;
  weighted_ask_price : A;
  weighted_bid_price : A;
  total_ask_size : A;
  total_bid_size : A;
  order_imbalance : A;
  price_volatility : A;
  processing_latency : Z                     (* microseconds *)
}.

Record AlmgrenChrissParams : Type := {
  permanentImpactFactor : A;
  temporaryImpactFactor : A;
  volatility : A;
  timeHorizon : A;
  riskAversion : A
}.

Record FeeModel : Type := {
  makerFeeRate : A;
  takerFeeRate : A;
  feeTier : Z
}.
End Types.

Arguments Build_OrderbookData {A}.
Arguments Build_OrderbookStats {A}.
Arguments Build_AlmgrenChrissParams {A}.
Arguments Build_FeeModel {A}.

(** The literal [0.0], and the level read at an index out of range (never
    read: every index below is in range). *)
Definition zero {A} `{Arith A} : A := of_Z 0.
Definition no_level {A} `{Arith A} : PriceLevel A := (zero, zero).

(** Counted loops: [for (i = lo; i < lo + n; ++i) body], threading the
    variables the body assigns. *)
Fixpoint for_range {S : Type} (lo n : nat) (body : nat -> S -> S) (s : S) : S :=
  match n with
  | O => s
  | Datatypes.S n' => for_range (Datatypes.S lo) n' body (body lo s)
  end.

(* ================================================================== *)
(** * OrderbookProcessor ([src/data/orderbook_processor.cpp]) *)

Section OrderbookProcessor.
Context {A : Type} `{Arith A}.
Local Open Scope dbl_scope.

Record OrderbookProcessor : Type := {
  historyWindowSize_ : nat;
  orderbookHistory_ : list (OrderbookData A);   (* std::deque, front first *)
  latestStats_ : OrderbookStats A;
  totalProcessingTime_ : Z;                     (* uint64_t *)
  processedUpdates_ : Z                         (* uint64_t *)
}.

(** Default member initialisers of [OrderbookStats]. *)
Definition default_stats : OrderbookStats A :=
  Build_OrderbookStats zero zero zero zero zero zero zero zero zero zero 0.

(** [OrderbookProcessor(statsCallback, historyWindowSize = 100)]. *)
Definition new_processor (historyWindowSize : nat) : OrderbookProcessor :=
  {| historyWindowSize_ := historyWindowSize;
     orderbookHistory_ := [];
     latestStats_ := default_stats;
     totalProcessingTime_ := 0;
     processedUpdates_ := 0 |}.

Definition default_window : nat := 100.

(** [calculateVWAP(priceLevels, maxLevels)]. *)
Definition calculateVWAP (priceLevels : PriceLevels A) (maxLevels : nat) : A :=
  match priceLevels with
  | [] => zero
  | _ =>
    let levelsToUse :=
      if (0 <? maxLevels)%nat then Nat.min maxLevels (length priceLevels)
      else length priceLevels in
    let '(priceSum, volumeSum) :=
      for_range 0 levelsToUse
        (fun i '(priceSum, volumeSum) =>
           let price := fst (nth i priceLevels no_level) in
           let volume := snd (nth i priceLevels no_level) in
           (priceSum + price * volume, volumeSum + volume))
        (zero, zero) in
    if volumeSum >? zero then priceSum / volumeSum else zero
  end.

(** The mid-price series extracted by the first loop of
    [calculateVolatility]: one entry per snapshot with both sides non-empty. *)
Definition extract_midprices (history : list (OrderbookData A)) : list A :=
  fold_left
    (fun midprices orderbook =>
       match asks orderbook, bids orderbook with
       | _ :: _, _ :: _ =>
         let bestAsk := fst (nth 0 (asks orderbook) no_level) in
         let bestBid := fst (nth 0 (bids orderbook) no_level) in
         let midprice := (bestAsk + bestBid) / of_Z 2 in
         midprices ++ [midprice]
       | _, _ => midprices
       end)
    history [].

(** [calculateVolatility()], reading the history deque. *)
Definition calculateVolatility (history : list (OrderbookData A)) : A :=
  if (length history <? 2)%nat then zero else
  let midprices := extract_midprices history in
  if (length midprices <? 2)%nat then zero else
  let returns :=
    for_range 1 (length midprices - 1)
      (fun i returns =>
         let ret := (nth i midprices zero - nth (i - 1) midprices zero)
                    / nth (i - 1) midprices zero in
         returns ++ [ret])
      [] in
  let mean := fold_left add returns zero / of_Z (Z.of_nat (length returns)) in
  let sqSum :=
    fold_left (fun sum x => let diff := x - mean in sum + diff * diff)
              returns zero in
  let variance := sqSum / of_Z (Z.of_nat (length returns)) in
  sqrt variance.

(** [updateHistory(data)]: the [while] loop pops the front while the deque is
    longer than the window; it recurses on the deque it shortens. *)
Fixpoint evict (window : nat) (history : list (OrderbookData A))
  : list (OrderbookData A) :=
  match history with
  | [] => []
  | _ :: rest =>
    if (window <? length history)%nat then evict window rest else history
  end.

Definition updateHistory (p : OrderbookProcessor) (data : OrderbookData A)
  : OrderbookProcessor :=
  let history := orderbookHistory_ p ++ [data] in
  {| historyWindowSize_ := historyWindowSize_ p;
     orderbookHistory_ := evict (historyWindowSize_ p) history;
     latestStats_ := latestStats_ p;
     totalProcessingTime_ := totalProcessingTime_ p;
     processedUpdates_ := processedUpdates_ p |}.

(** [calculateStats(data)], after [updateHistory]. *)
Definition calculateStats (p : OrderbookProcessor) (data : OrderbookData A)
  : OrderbookStats A :=
  match asks data, bids data with
  | _ :: _, _ :: _ =>
    let best_ask := fst (nth 0 (asks data) no_level) in
    let best_bid := fst (nth 0 (bids data) no_level) in
    let midprice := (best_ask + best_bid) / of_Z 2 in
    let spread := best_ask - best_bid in
    let weighted_ask_price := calculateVWAP (asks data) 10 in
    let weighted_bid_price := calculateVWAP (bids data) 10 in
    let total_ask_size :=
      fold_left (fun sum level => sum + snd level) (asks data) zero in
    let total_bid_size :=
      fold_left (fun sum level => sum + snd level) (bids data) zero in
    let order_imbalance :=
      if total_ask_size >? zero then total_bid_size / total_ask_size
      else zero in
    let price_volatility := calculateVolatility (orderbookHistory_ p) in
    Build_OrderbookStats midprice spread best_ask best_bid
      weighted_ask_price weighted_bid_price total_ask_size total_bid_size
      order_imbalance price_volatility 0
  | _, _ => default_stats
  end.

Definition wrap64 (z : Z) : Z := (z mod 2 ^ 64)%Z.

(** [processOrderbook(data)].  [startTime] and [endTime] are the two readings
    of the steady clock, in microseconds; the result pairs the new state
    with the statistics handed to [statsCallback_]. *)
Definition processOrderbook (startTime endTime : Z)
    (p : OrderbookProcessor) (data : OrderbookData A)
  : OrderbookProcessor * OrderbookStats A :=
  let p := updateHistory p data in
  let stats := calculateStats p data in
  let processingTime := (endTime - startTime)%Z in
  let stats :=
    Build_OrderbookStats (midprice stats) (spread stats) (best_ask stats)
      (best_bid stats) (weighted_ask_price stats) (weighted_bid_price stats)
      (total_ask_size stats) (total_bid_size stats) (order_imbalance stats)
      (price_volatility stats) processingTime in
  ({| historyWindowSize_ := historyWindowSize_ p;
      orderbookHistory_ := orderbookHistory_ p;
      latestStats_ := stats;
      totalProcessingTime_ := wrap64 (totalProcessingTime_ p + processingTime)%Z;
      processedUpdates_ := wrap64 (processedUpdates_ p + 1)%Z |},
   stats).

(** A run of [processOrderbook] calls; [clock k] is the pair of clock
    readings of call [k]. *)
Fixpoint processAll (clock : nat -> Z * Z) (k : nat)
    (p : OrderbookProcessor) (feed : list (OrderbookData A))
  : OrderbookProcessor :=
  match feed with
  | [] => p
  | data :: feed' =>
    processAll clock (Datatypes.S k)
      (fst (processOrderbook (fst (clock k)) (snd (clock k)) p data)) feed'
  end.
End OrderbookProcessor.

Arguments OrderbookProcessor A : clear implicits.

(* ================================================================== *)
(** * MarketImpactModel ([models/market_impact.cpp]) *)

(** [v[i] = x] and [v.back() += x] on a [std::vector]. *)
Fixpoint vec_set {T : Type} (v : list T) (i : nat) (x : T) : list T :=
  match v, i with
  | [], _ => []
  | _ :: v', O => x :: v'
  | y :: v', Datatypes.S i' => y :: vec_set v' i' x
  end.

Fixpoint back_update {T : Type} (f : T -> T) (v : list T) : list T :=
  match v with
  | [] => []
  | [y] => [f y]
  | y :: v' => y :: back_update f v'
  end.

Section MarketImpactModel.
Context {A : Type} `{Arith A} `{LibM A}.
Local Open Scope dbl_scope.

(** Default member initialisers of [AlmgrenChrissParams]. *)
Definition default_params : AlmgrenChrissParams A :=
  Build_AlmgrenChrissParams (dec 1 1) (dec 1 1) zero (of_Z 1) (of_Z 1).

Definition calculatePermanentImpact (params_ : AlmgrenChrissParams A)
    (orderSize : A) (stats : OrderbookStats A) : A :=
  let marketDepth := total_ask_size stats + total_bid_size stats in
  let scaledFactor := permanentImpactFactor params_ in
  let scaledFactor :=
    if marketDepth >? zero
    then scaledFactor * (of_Z 1 + std_min (of_Z 1) (orderSize / marketDepth))
    else scaledFactor in
  let volatilityFactor := price_volatility stats in
  scaledFactor * orderSize * volatilityFactor.

Definition calculateTemporaryImpact (params_ : AlmgrenChrissParams A)
    (orderSize : A) (stats : OrderbookStats A) : A :=
  let alpha := dec 5 1 in
  let impactBase := pow orderSize alpha in
  let liquidityFactor := of_Z 1 in
  let liquidityFactor :=
    if (midprice stats >? zero) && (spread stats >? zero)
    then liquidityFactor * (of_Z 1 + spread stats / midprice stats)
    else liquidityFactor in
  let imbalanceFactor := of_Z 1 in
  let imbalanceFactor :=
    if (total_ask_size stats >? of_Z 0) && (total_bid_size stats >? of_Z 0)
    then std_max (of_Z 1) (fabs (log (order_imbalance stats)))
    else imbalanceFactor in
  temporaryImpactFactor params_ * price_volatility stats * impactBase
    * liquidityFactor * imbalanceFactor.

Definition calculateMarketImpact (params_ : AlmgrenChrissParams A)
    (orderSize : A) (orderSide : bool) (stats : OrderbookStats A) : A :=
  let sign := if orderSide then of_Z 1 else - of_Z 1 in
  let permanentImpact := calculatePermanentImpact params_ orderSize stats in
  let temporaryImpact := calculateTemporaryImpact params_ orderSize stats in
  let totalImpact := (permanentImpact + temporaryImpact) * sign in
  totalImpact.

(** [calculateOptimalExecution(orderSize, orderSide, stats, numSteps)];
    [numSteps] is an [int]. *)
Definition calculateOptimalExecution (params_ : AlmgrenChrissParams A)
    (orderSize : A) (orderSide : bool) (stats : OrderbookStats A)
    (numSteps : Z) : list A :=
  let numSteps := (if 1 <? numSteps then numSteps else 1)%Z in
  let executionSchedule := repeat zero (Z.to_nat numSteps) in
  if (orderSize <=? zero) || (total_ask_size stats <=? zero)
     || (total_bid_size stats <=? zero)
  then executionSchedule
  else
    let baseSize := orderSize / of_Z numSteps in
    let riskFactor :=
      riskAversion params_ * pow (volatility params_) (of_Z 2)
      * timeHorizon params_ / of_Z (numSteps - 1) in
    let effectiveSize := orderSize in
    let remainingSize := orderSize in
    let '(remainingSize, executionSchedule) :=
      for_range 0 (Z.to_nat numSteps)
        (fun i '(remainingSize, executionSchedule) =>
           let timeStep := of_Z (Z.of_nat i) / of_Z (numSteps - 1) in
           let weight := exp (- riskFactor * timeStep) in
           let totalWeight :=
             for_range 0 (Z.to_nat numSteps)
               (fun j totalWeight =>
                  totalWeight
                  + exp (- riskFactor * of_Z (Z.of_nat j) / of_Z (numSteps - 1)))
               zero in
           let tradeSize := (weight / totalWeight) * effectiveSize in
           let tradeSize := std_min tradeSize remainingSize in
           let remainingSize := remainingSize - tradeSize in
           (remainingSize, vec_set executionSchedule i tradeSize))
        (remainingSize, executionSchedule) in
    if remainingSize >? zero
    then back_update (fun last => last + remainingSize) executionSchedule
    else executionSchedule.
End MarketImpactModel.

(* ================================================================== *)
(** * TransactionCostModel ([models/transaction_cost.cpp]) *)

Section TransactionCostModel.
Context {A : Type} `{Arith A} `{LibM A}.
Local Open Scope dbl_scope.

(** The model's own members; its [marketImpactModel_] is a [shared_ptr] to
    the object the simulator also holds, and is passed to the functions
    that dereference it ([None] for a null pointer). *)
Record TransactionCostModel : Type := {
  feeModel_ : FeeModel A;
  slippageIntercept_ : A;
  slippageVolumeFactor_ : A;
  slippageVolatilityFactor_ : A;
  slippageImbalanceFactor_ : A
}.

(** [FeeModel()]. *)
Definition default_fee_model : FeeModel A :=
  Build_FeeModel (dec 2 4) (dec 5 4) 0.

(** [TransactionCostModel(marketImpactModel, feeModel = FeeModel())]. *)
Definition new_cost_model (feeModel : FeeModel A) : TransactionCostModel :=
  {| feeModel_ := feeModel;
     slippageIntercept_ := zero;
     slippageVolumeFactor_ := dec 1 1;
     slippageVolatilityFactor_ := dec 2 1;
     slippageImbalanceFactor_ := - dec 5 2 |}.

Definition setFeeModel (m : TransactionCostModel) (feeModel : FeeModel A)
  : TransactionCostModel :=
  {| feeModel_ := feeModel;
     slippageIntercept_ := slippageIntercept_ m;
     slippageVolumeFactor_ := slippageVolumeFactor_ m;
     slippageVolatilityFactor_ := slippageVolatilityFactor_ m;
     slippageImbalanceFactor_ := slippageImbalanceFactor_ m |}.

Definition getFeeModel (m : TransactionCostModel) : FeeModel A := feeModel_ m.

Definition calculateSlippage (m : TransactionCostModel)
    (orderSize : A) (orderSide : bool) (stats : OrderbookStats A) : A :=
  let relativeSizeToDepth := zero in
  let relativeSizeToDepth :=
    if orderSide
    then if total_ask_size stats >? zero
         then orderSize / total_ask_size stats else relativeSizeToDepth
    else if total_bid_size stats >? zero
         then orderSize / total_bid_size stats else relativeSizeToDepth in
  let slippageEstimate :=
    slippageIntercept_ m
    + (slippageVolumeFactor_ m * relativeSizeToDepth)
    + (slippageVolatilityFactor_ m * price_volatility stats)
    + (slippageImbalanceFactor_ m * (order_imbalance stats - of_Z 1)) in
  let priceSlippage := slippageEstimate * midprice stats in
  let minSlippage := spread stats / of_Z 2 in
  std_max priceSlippage minSlippage.

Definition calculateFees (m : TransactionCostModel)
    (orderSize orderPrice makerProportion : A) : A :=
  let makerProportion := std_clamp makerProportion zero (of_Z 1) in
  let takerProportion := of_Z 1 - makerProportion in
  let notionalValue := orderSize * orderPrice in
  let makerFee := notionalValue * makerProportion * makerFeeRate (feeModel_ m) in
  let takerFee := notionalValue * takerProportion * takerFeeRate (feeModel_ m) in
  makerFee + takerFee.

Definition predictMakerProportion (m : TransactionCostModel)
    (orderSize : A) (orderSide : bool) (stats : OrderbookStats A) : A :=
  let relativeSizeToDepth := zero in
  let relativeSizeToDepth :=
    if orderSide
    then if total_ask_size stats >? zero
         then orderSize / total_ask_size stats else relativeSizeToDepth
    else if total_bid_size stats >? zero
         then orderSize / total_bid_size stats else relativeSizeToDepth in
  let makerProportion := exp (- of_Z 5 * relativeSizeToDepth) in
  let makerProportion :=
    makerProportion * exp (- of_Z 2 * price_volatility stats) in
  std_clamp makerProportion zero (dec 1 1).

Definition calculateTotalCost (m : TransactionCostModel)
    (marketImpactModel_ : option (AlmgrenChrissParams A))
    (orderSize : A) (orderSide : bool) (stats : OrderbookStats A)
  : A * A * A * A :=
  let slippage := calculateSlippage m orderSize orderSide stats in
  let marketImpact :=
    match marketImpactModel_ with
    | Some impact => calculateMarketImpact impact orderSize orderSide stats
    | None => zero
    end in
  let makerProportion := predictMakerProportion m orderSize orderSide stats in
  let fees := calculateFees m orderSize (midprice stats) makerProportion in
  let totalCost := slippage + marketImpact + fees in
  (slippage, marketImpact, fees, totalCost).
End TransactionCostModel.

Arguments TransactionCostModel A : clear implicits.

(* ================================================================== *)
(** * WebSocketClient ([src/data/websocket_client.cpp]) *)

(** ** Exceptions and the values of [nlohmann::json] *)

Inductive exn : Type :=
| parse_error          (* json::parse on text that is not JSON *)
| type_error           (* get<std::string>() or operator[] on the wrong kind *)
| runtime_error        (* "Missing required fields in data" *)
| invalid_argument     (* std::stod: no conversion could be performed *)
| out_of_range.        (* std::stod: the value is out of the range of double *)

#[local] Unset Elimination Schemes.
Inductive json : Type :=
| Jnull
| Jbool (b : bool)
| Jnumber (lexeme : string)
| Jstring (s : string)
| Jarray (items : list json)
| Jobject (members : list (string * json)).
#[local] Set Elimination Schemes.

(** The payload of one WebSocket message as [json::parse] reads it: text it
    rejects, or a JSON document. *)
Inductive message : Type :=
| NotJson (text : string)
| Document (doc : json).

(** [std::stod]: the converted value, or the exception it throws. *)
Class StrToD (A : Type) : Type := {
  stod : string -> exn + A
}.

Definition bind {E X Y : Type} (c : E + X) (k : X -> E + Y) : E + Y :=
  match c with
  | inl e => inl e
  | inr x => k x
  end.

Notation "x <- c ;; k" := (bind c (fun x => k))
  (at level 61, c at next level, right associativity).

Module Json.
Fixpoint find (key : string) (members : list (string * json)) : option json :=
  match members with
  | [] => None
  | (k, v) :: rest => if String.eqb k key then Some v else find key rest
  end.

(** [j.contains(key)]: false on anything but an object. *)
Definition contains (j : json) (key : string) : bool :=
  match j with
  | Jobject members =>
    match find key members with Some _ => true | None => false end
  | _ => false
  end.

(** [j[key]] on an object that contains [key]. *)
Definition at_key (j : json) (key : string) : exn + json :=
  match j with
  | Jobject members =>
    match find key members with Some v => inr v | None => inr Jnull end
  | Jnull => inr Jnull
  | _ => inl type_error
  end.

(** [j.get<std::string>()]. *)
Definition get_string (j : json) : exn + string :=
  match j with
  | Jstring s => inr s
  | _ => inl type_error
  end.

(** The values a range-[for] over [j] visits: the elements of an array, the
    values of an object, nothing for [null], the value itself otherwise. *)
Definition elements (j : json) : list json :=
  match j with
  | Jarray items => items
  | Jobject members => map snd members
  | Jnull => []
  | _ => [j]
  end.

(** [j.size()]. *)
Definition size (j : json) : nat :=
  match j with
  | Jarray items => length items
  | Jobject members => length members
  | Jnull => 0
  | _ => 1
  end.

(** [j[idx]] on a const value: arrays only. *)
Definition at_index (j : json) (idx : nat) : exn + json :=
  match j with
  | Jarray items => inr (nth idx items Jnull)
  | _ => inl type_error
  end.
End Json.

Section WebSocketClient.
Context {A : Type} `{Arith A} `{StrToD A}.

Definition kReconnectInitialDelayMs : Z := 1000.
Definition kReconnectMaxDelayMs : Z := 60000.

(** What the network thread does to the outside, in order. *)
Inductive effect : Type :=
| Callback (data : OrderbookData A)   (* callback_(orderbookData) *)
| Cerr (e : option exn)               (* a line on std::cerr *)
| Cout                                (* a line on std::cout *)
| Sleep (ms : Z).                     (* std::this_thread::sleep_for *)

Record WebSocketClient : Type := {
  shouldRun_ : bool;
  isConnected_ : bool;
  lastMessageTime_ : Z;
  reconnectDelayMs_ : Z                           (* int *)
}.

(** [WebSocketClient(callback)] at time [now]. *)
Definition new_client (now : Z) : WebSocketClient :=
  {| shouldRun_ := false; isConnected_ := false; lastMessageTime_ := now;
     reconnectDelayMs_ := kReconnectInitialDelayMs |}.

(** [start()]; the thread it creates runs [runIoService]. *)
Definition start (c : WebSocketClient) : WebSocketClient :=
  if shouldRun_ c then c else
  {| shouldRun_ := true;
     isConnected_ := isConnected_ c;
     lastMessageTime_ := lastMessageTime_ c;
     reconnectDelayMs_ := kReconnectInitialDelayMs |}.

(** [stop()], the I/O thread having been joined. *)
Definition stop (c : WebSocketClient) : WebSocketClient :=
  if negb (shouldRun_ c) then c else
  {| shouldRun_ := false;
     isConnected_ := false;
     lastMessageTime_ := lastMessageTime_ c;
     reconnectDelayMs_ := reconnectDelayMs_ c |}.

(** One side of the book: the loop over [data["asks"]] or [data["bids"]]. *)
Fixpoint parse_levels (entries : list json) (levels : PriceLevels A)
  : exn + PriceLevels A :=
  match entries with
  | [] => inr levels
  | entry :: rest =>
    if (2 <=? Json.size entry)%nat then
      e0 <- Json.at_index entry 0 ;;
      s0 <- Json.get_string e0 ;;
      price <- stod s0 ;;
      e1 <- Json.at_index entry 1 ;;
      s1 <- Json.get_string e1 ;;
      size <- stod s1 ;;
      parse_levels rest (levels ++ [(price, size)])
    else parse_levels rest levels
  end.

(** [parseOrderbookData(jsonMessage)], [startTime] being the clock reading
    taken on entry. *)
Definition parseOrderbookData (startTime : Z) (jsonMessage : message)
  : exn + OrderbookData A :=
  match jsonMessage with
  | NotJson _ => inl parse_error
  | Document data =>
    if negb (Json.contains data "timestamp")
       || negb (Json.contains data "exchange")
       || negb (Json.contains data "symbol")
       || negb (Json.contains data "asks")
       || negb (Json.contains data "bids")
    then inl runtime_error
    else
      j <- Json.at_key data "timestamp" ;; timestamp <- Json.get_string j ;;
      j <- Json.at_key data "exchange" ;; exchange <- Json.get_string j ;;
      j <- Json.at_key data "symbol" ;; symbol <- Json.get_string j ;;
      j <- Json.at_key data "asks" ;;
      asks <- parse_levels (Json.elements j) [] ;;
      j <- Json.at_key data "bids" ;;
      bids <- parse_levels (Json.elements j) [] ;;
      inr (Build_OrderbookData timestamp exchange symbol asks bids startTime)
  end.

(** [processMessage(message)]: what it does to the outside. *)
Definition processMessage (startTime : Z) (msg : message) : list effect :=
  match parseOrderbookData startTime msg with
  | inr orderbookData => [Callback orderbookData]
  | inl e => [Cerr (Some e)]
  end.

(** A message read from the socket, with the clock readings taken when
    [ws.read] returned and when [parseOrderbookData] was entered. *)
Record arrival : Type := {
  read_at : Z;
  parse_at : Z;
  payload : message
}.

(** One connection attempt as the network decides it: whether the
    handshakes succeed, the messages read before the read loop ends, and how
    it ends: [stop()] on the
    caller's thread cleared the run flag, or [ws.read] threw because the
    peer closed the connection, or it threw for another reason. *)
Inductive ending : Type := StopRequested | PeerClosed | ReadFailed.

Record session : Type := {
  handshake_ok : bool;
  inbound : list arrival;
  ends_by : ending
}.

(** The read loop of [connect()]. *)
Fixpoint read_loop (c : WebSocketClient) (msgs : list arrival)
  : WebSocketClient * list effect :=
  match msgs with
  | [] => (c, [])
  | msg :: rest =>
    let c := {| shouldRun_ := shouldRun_ c;
                isConnected_ := isConnected_ c;
                lastMessageTime_ := read_at msg;
                reconnectDelayMs_ := reconnectDelayMs_ c |} in
    let out := processMessage (parse_at msg) (payload msg) in
    let '(c, outs) := read_loop c rest in
    (c, out ++ outs)
  end.

Definition set_connected (c : WebSocketClient) (b : bool) : WebSocketClient :=
  {| shouldRun_ := shouldRun_ c; isConnected_ := b;
     lastMessageTime_ := lastMessageTime_ c;
     reconnectDelayMs_ := reconnectDelayMs_ c |}.

Definition set_should_run (c : WebSocketClient) (b : bool) : WebSocketClient :=
  {| shouldRun_ := b; isConnected_ := isConnected_ c;
     lastMessageTime_ := lastMessageTime_ c;
     reconnectDelayMs_ := reconnectDelayMs_ c |}.

(** [connect()]. *)
Definition connect (c : WebSocketClient) (s : session)
  : WebSocketClient * list effect :=
  if negb (handshake_ok s) then (set_connected c false, [Cerr None])
  else
    let c := set_connected c true in
    let '(c, outs) := read_loop c (inbound s) in
    match ends_by s with
    | StopRequested => (set_should_run c false, Cout :: outs)
    | PeerClosed => (set_connected c false, Cout :: outs)
    | ReadFailed => (set_connected c false, Cout :: outs ++ [Cerr None])
    end.

Definition wrap32 (z : Z) : Z := ((z + 2 ^ 31) mod 2 ^ 32 - 2 ^ 31)%Z.

(** [reconnect()]. *)
Definition reconnect (c : WebSocketClient) : WebSocketClient * list effect :=
  let delay := reconnectDelayMs_ c in
  let doubled := wrap32 (delay * 2) in
  ({| shouldRun_ := shouldRun_ c;
      isConnected_ := false;
      lastMessageTime_ := lastMessageTime_ c;
      reconnectDelayMs_ :=
        if (kReconnectMaxDelayMs <? doubled)%Z then kReconnectMaxDelayMs
        else doubled |},
   [Cout; Sleep delay]).

(** [runIoService()], over the connection attempts the network offers. *)
Fixpoint runIoService (c : WebSocketClient) (sessions : list session)
  : WebSocketClient * list effect :=
  match sessions with
  | [] => (c, [])
  | s :: rest =>
    if negb (shouldRun_ c) then (c, []) else
    let '(c, out1) := connect c s in
    let '(c, out2) := if shouldRun_ c then reconnect c else (c, []) in
    let '(c, out3) := runIoService c rest in
    (c, out1 ++ out2 ++ out3)
  end.

Definition sleeps (out : list effect) : list Z :=
  flat_map (fun e => match e with Sleep ms => [ms] | _ => [] end) out.

Definition callbacks (out : list effect) : list (OrderbookData A) :=
  flat_map (fun e => match e with Callback d => [d] | _ => [] end) out.

Definition errors (out : list effect) : list (option exn) :=
  flat_map (fun e => match e with Cerr e => [e] | _ => [] end) out.
End WebSocketClient.

Arguments WebSocketClient : clear implicits.
Arguments effect A : clear implicits.

(* ================================================================== *)
(** * Simulator ([src/models/simulator.cpp], [models/simulator.h]) *)

Section Simulator.
Context {A : Type} `{Arith A} `{LibM A} `{StrToD A}.
Local Open Scope dbl_scope.

Record SimulatorParams : Type := {
  sp_exchange : string;
  sp_symbol : string;
  sp_orderType : string;
  sp_quantity : A;
  sp_volatility : A;
  sp_feeTier : Z                                  (* int *)
}.

Record SimulatorOutput : Type := {
  expectedSlippage : A;
  expectedFees : A;
  expectedMarketImpact : A;
  netCost : A;
  makerProportion : A;
  internalLatency : A;
  out_midprice : A;
  out_spread : A;
  marketVolatility : A
}.

(** [SimulatorParams()] and [SimulatorOutput()]. *)
Definition default_sim_params : SimulatorParams :=
  {| sp_exchange := "OKX"; sp_symbol := "BTC-USDT"; sp_orderType := "market";
     sp_quantity := of_Z 100; sp_volatility := zero; sp_feeTier := 0 |}.

Definition default_output : SimulatorOutput :=
  {| expectedSlippage := zero; expectedFees := zero;
     expectedMarketImpact := zero; netCost := zero; makerProportion := zero;
     internalLatency := zero; out_midprice := zero; out_spread := zero;
     marketVolatility := zero |}.

(** The simulator's members.  [marketImpactModel_] is the one object both the
    simulator and its cost model point to.  [delivered] lists, latest first,
    the values [callback_] was invoked with. *)
Record Simulator : Type := {
  params_ : SimulatorParams;
  latestOutput_ : SimulatorOutput;
  isRunning_ : bool;
  webSocketClient_ : option WebSocketClient;
  orderbookProcessor_ : option (OrderbookProcessor A);
  marketImpactModel_ : option (AlmgrenChrissParams A);
  transactionCostModel_ : option (TransactionCostModel A);
  delivered : list SimulatorOutput
}.

(** [Simulator(callback)] with [initializeComponents()], at time [now]. *)
Definition new_simulator (now : Z) : Simulator :=
  {| params_ := default_sim_params;
     latestOutput_ := default_output;
     isRunning_ := false;
     webSocketClient_ := Some (new_client now);
     orderbookProcessor_ := Some (new_processor default_window);
     marketImpactModel_ := Some default_params;
     transactionCostModel_ := Some (new_cost_model default_fee_model);
     delivered := [] |}.

(** [Simulator::start()] and [Simulator::stop()]. *)
Definition sim_start (s : Simulator) : Simulator :=
  if isRunning_ s then s else
  {| params_ := params_ s;
     latestOutput_ := latestOutput_ s;
     isRunning_ := true;
     webSocketClient_ := option_map start (webSocketClient_ s);
     orderbookProcessor_ := orderbookProcessor_ s;
     marketImpactModel_ := marketImpactModel_ s;
     transactionCostModel_ := transactionCostModel_ s;
     delivered := delivered s |}.

Definition sim_stop (s : Simulator) : Simulator :=
  if negb (isRunning_ s) then s else
  {| params_ := params_ s;
     latestOutput_ := latestOutput_ s;
     isRunning_ := false;
     webSocketClient_ := option_map stop (webSocketClient_ s);
     orderbookProcessor_ := orderbookProcessor_ s;
     marketImpactModel_ := marketImpactModel_ s;
     transactionCostModel_ := transactionCostModel_ s;
     delivered := delivered s |}.

Definition set_volatility (p : AlmgrenChrissParams A) (v : A)
  : AlmgrenChrissParams A :=
  Build_AlmgrenChrissParams (permanentImpactFactor p)
    (temporaryImpactFactor p) v (timeHorizon p) (riskAversion p).

(** [updateParams(params)]. *)
Definition updateParams (s : Simulator) (params : SimulatorParams) : Simulator :=
  let marketImpactModel :=
    match marketImpactModel_ s with
    | Some model =>
      let currentParams := model in
      let currentParams := set_volatility currentParams (sp_volatility params) in
      Some currentParams
    | None => None
    end in
  let transactionCostModel :=
    match transactionCostModel_ s with
    | Some model =>
      let currentFeeModel := getFeeModel model in
      let currentFeeModel :=
        Build_FeeModel (makerFeeRate currentFeeModel)
          (takerFeeRate currentFeeModel) (sp_feeTier params) in
      let currentFeeModel :=
        if (sp_feeTier params =? 0)%Z then
          Build_FeeModel (dec 2 4) (dec 5 4) (feeTier currentFeeModel)
        else if (sp_feeTier params =? 1)%Z then
          Build_FeeModel (dec 15 5) (dec 4 4) (feeTier currentFeeModel)
        else if (sp_feeTier params =? 2)%Z then
          Build_FeeModel (dec 1 4) (dec 3 4) (feeTier currentFeeModel)
        else if (sp_feeTier params >=? 3)%Z then
          Build_FeeModel (dec 5 5) (dec 2 4) (feeTier currentFeeModel)
        else currentFeeModel in
      Some (setFeeModel model currentFeeModel)
    | None => None
    end in
  {| params_ := params;
     latestOutput_ := latestOutput_ s;
     isRunning_ := isRunning_ s;
     webSocketClient_ := webSocketClient_ s;
     orderbookProcessor_ := orderbookProcessor_ s;
     marketImpactModel_ := marketImpactModel;
     transactionCostModel_ := transactionCostModel;
     delivered := delivered s |}.

Definition set_latency (o : SimulatorOutput) (latency : A) : SimulatorOutput :=
  {| expectedSlippage := expectedSlippage o; expectedFees := expectedFees o;
     expectedMarketImpact := expectedMarketImpact o; netCost := netCost o;
     makerProportion := makerProportion o; internalLatency := latency;
     out_midprice := out_midprice o; out_spread := out_spread o;
     marketVolatility := marketVolatility o |}.

(** [updateSimulation(stats)]. *)
Definition updateSimulation (s : Simulator) (stats : OrderbookStats A)
  : Simulator :=
  let params := params_ s in
  let baseQuantity :=
    if midprice stats >? zero then sp_quantity params / midprice stats
    else zero in
  let orderSide := true in
  let output :=
    match transactionCostModel_ s with
    | Some model =>
      let '(slippage, marketImpact, fees, totalCost) :=
        calculateTotalCost model (marketImpactModel_ s)
          baseQuantity orderSide stats in
      {| expectedSlippage := slippage;
         expectedFees := fees;
         expectedMarketImpact := marketImpact;
         netCost := totalCost;
         makerProportion :=
           predictMakerProportion model baseQuantity orderSide stats;
         internalLatency := zero;
         out_midprice := midprice stats;
         out_spread := spread stats;
         marketVolatility := price_volatility stats |}
    | None =>
      {| expectedSlippage := zero; expectedFees := zero;
         expectedMarketImpact := zero; netCost := zero;
         makerProportion := zero; internalLatency := zero;
         out_midprice := midprice stats;
         out_spread := spread stats;
         marketVolatility := price_volatility stats |}
    end in
  {| params_ := params_ s;
     latestOutput_ := output;
     isRunning_ := isRunning_ s;
     webSocketClient_ := webSocketClient_ s;
     orderbookProcessor_ := orderbookProcessor_ s;
     marketImpactModel_ := marketImpactModel_ s;
     transactionCostModel_ := transactionCostModel_ s;
     delivered := output :: delivered s |}.

(** [onOrderbookStats(stats)]; [startTime] and [endTime] are the readings of
    the high-resolution clock around [updateSimulation], in microseconds. *)
Definition onOrderbookStats (startTime endTime : Z)
    (s : Simulator) (stats : OrderbookStats A) : Simulator :=
  if negb (isRunning_ s) then s else
  let s := updateSimulation s stats in
  let latency := (endTime - startTime)%Z in
  {| params_ := params_ s;
     latestOutput_ := set_latency (latestOutput_ s) (of_Z latency);
     isRunning_ := isRunning_ s;
     webSocketClient_ := webSocketClient_ s;
     orderbookProcessor_ := orderbookProcessor_ s;
     marketImpactModel_ := marketImpactModel_ s;
     transactionCostModel_ := transactionCostModel_ s;
     delivered := delivered s |}.

(** The clock readings of one pass through the callback chain: around the
    statistics computation, and around the cost computation. *)
Record readings : Type := {
  stats_start : Z; stats_end : Z; sim_start_time : Z; sim_end_time : Z
}.

(** The callback given to the feed client in [initializeComponents()]:
    [processOrderbook], whose statistics callback is [onOrderbookStats]. *)
Definition on_orderbook_data (t : readings) (s : Simulator)
    (data : OrderbookData A) : Simulator :=
  match orderbookProcessor_ s with
  | Some processor =>
    let '(processor, stats) :=
      processOrderbook (stats_start t) (stats_end t) processor data in
    let s :=
      {| params_ := params_ s;
         latestOutput_ := latestOutput_ s;
         isRunning_ := isRunning_ s;
         webSocketClient_ := webSocketClient_ s;
         orderbookProcessor_ := Some processor;
         marketImpactModel_ := marketImpactModel_ s;
         transactionCostModel_ := transactionCostModel_ s;
         delivered := delivered s |} in
    onOrderbookStats (sim_start_time t) (sim_end_time t) s stats
  | None => s
  end.
End Simulator.

Arguments SimulatorParams A : clear implicits.
Arguments SimulatorOutput A : clear implicits.
Arguments Simulator A : clear implicits.

(* ================================================================== *)
(** * A small libm and [std::stod] for binary64

    The C and C++ standards leave the accuracy of [exp], [log] and [pow] to the
    implementation; theorems below quantify over every [LibM].  This instance
    is one implementation, used to run the models on concrete inputs: [exp] by
    argument halving and a Taylor polynomial, [log] by Halley's iteration on
    [exp], [pow] through both, all in binary64 arithmetic and with the special
    values of Annex F for NaN and the infinities. *)

Module NaiveLibM.
Local Open Scope dbl_scope.

Fixpoint taylor (n : nat) (i : Z) (x : spec_float) : spec_float :=
  match n with
  | O => of_Z 1
  | S n' => of_Z 1 + x / of_Z i * taylor n' (i + 1)%Z x
  end.

Fixpoint squarings (n : nat) (x : spec_float) : spec_float :=
  match n with
  | O => x
  | S n' => squarings n' (x * x)
  end.

Definition exp (x : spec_float) : spec_float :=
  match x with
  | S754_nan => S754_nan
  | S754_infinity false => x
  | S754_infinity true => S754_zero false
  | _ => squarings 10 (taylor 20 1 (x / of_Z 1024))
  end.

Fixpoint halley (n : nat) (x y : spec_float) : spec_float :=
  match n with
  | O => y
  | S n' =>
    let e := exp y in
    halley n' x (y + of_Z 2 * (x - e) / (x + e))
  end.

Definition log (x : spec_float) : spec_float :=
  match x with
  | S754_nan => S754_nan
  | S754_zero _ => S754_infinity true
  | S754_infinity false => x
  | S754_infinity true => S754_nan
  | S754_finite true _ _ => S754_nan
  | S754_finite false _ _ => halley 64 x zero
  end.

Definition pow (x y : spec_float) : spec_float :=
  if SFeqb y (of_Z 2) then x * x
  else if SFeqb y (dec 5 1) then sqrt x
  else exp (y * log x).
End NaiveLibM.

Definition naive_libm : LibM spec_float :=
  {| exp := NaiveLibM.exp; log := NaiveLibM.log; pow := NaiveLibM.pow |}.

(** [std::stod] on decimal literals: optional leading white space, an optional
    sign, decimal digits with an optional point, an optional exponent; the
    conversion stops at the first character that does not fit, and fails with
    [invalid_argument] when no digit was read.  The value is
    [mantissa * 10^exponent] computed with one rounding in the target
    arithmetic.  (Hexadecimal literals, "inf" and "nan", and the range check of
    [strtod] are not part of this reading; theorems quantify over every
    [StrToD].) *)
Module Stod.
Definition is_space (c : ascii) : bool :=
  let n := nat_of_ascii c in
  (n =? 32)%nat || ((9 <=? n)%nat && (n <=? 13)%nat).

Definition digit (c : ascii) : option Z :=
  let n := nat_of_ascii c in
  if (48 <=? n)%nat && (n <=? 57)%nat then Some (Z.of_nat (n - 48)) else None.

Fixpoint skip_spaces (s : string) : string :=
  match s with
  | String c rest => if is_space c then skip_spaces rest else s
  | EmptyString => s
  end.

(** Reads digits into the accumulator; returns it with the number of digits
    read and the rest of the text. *)
Fixpoint digits (s : string) (acc : Z) (count : nat) : Z * nat * string :=
  match s with
  | String c rest =>
    match digit c with
    | Some d => digits rest (acc * 10 + d)%Z (S count)
    | None => (acc, count, s)
    end
  | EmptyString => (acc, count, s)
  end.

Definition sign (s : string) : bool * string :=
  match s with
  | String "-"%char rest => (true, rest)
  | String "+"%char rest => (false, rest)
  | _ => (false, s)
  end.

(** The exponent part, if the text starts with a well-formed one. *)
Definition exponent (s : string) : Z :=
  match s with
  | String c rest =>
    if Ascii.eqb c "e" || Ascii.eqb c "E" then
      let '(negative, rest) := sign rest in
      let '(e, count, _) := digits rest 0 0 in
      match count with
      | O => 0%Z
      | _ => if negative then (- e)%Z else e
      end
    else 0%Z
  | EmptyString => 0%Z
  end.

(** The literal read off the front of [s]: sign, mantissa digits as an
    integer, decimal exponent. *)
Definition scan (s : string) : option (bool * Z * Z) :=
  let '(negative, s) := sign (skip_spaces s) in
  let '(int_part, int_count, s) := digits s 0 0 in
  let '(mantissa, frac_count, s) :=
    match s with
    | String "."%char rest =>
      let '(m, total, rest') := digits rest int_part int_count in
      (m, (total - int_count)%nat, rest')
    | _ => (int_part, O, s)
    end in
  match (int_count + frac_count)%nat with
  | O => None
  | _ => Some (negative, mantissa, (exponent s - Z.of_nat frac_count)%Z)
  end.

Definition value {A} `{Arith A} (lit : bool * Z * Z) : A :=
  let '(negative, mantissa, e) := lit in
  let magnitude :=
    if (0 <=? e)%Z then (of_Z mantissa * of_Z (10 ^ e))%D
    else (of_Z mantissa / of_Z (10 ^ (- e)))%D in
  if negative then (- magnitude)%D else magnitude.

Definition stod {A} `{Arith A} (s : string) : exn + A :=
  match scan s with
  | Some lit => inr (value lit)
  | None => inl invalid_argument
  end.
End Stod.

Definition decimal_stod {A} `{Arith A} : StrToD A := {| stod := Stod.stod |}.


(* ================================================================== *)
(** * Reading the interface *)

Unset Implicit Arguments.

(** ** The exact instance *)

Ltac exact_arith :=
  cbn [of_Z add sub mul div neg fabs sqrt ltb leb reals zero dec] in *.

Lemma Rltb_case (x y : R) :
  (Rltb x y = true /\ (x < y)%R) \/ (Rltb x y = false /\ (y <= x)%R).
Proof.
  destruct (Rltb x y) eqn:E; [left | right]; split; trivial.
  - now apply Rltb_true.
  - now apply Rltb_false.
Qed.

Ltac case_Rltb x y :=
  let E := fresh "E" in let L := fresh "L" in
  destruct (Rltb_case x y) as [[E L] | [E L]]; rewrite ?E in *.

(** ** NaN in binary64 *)

(** Every operation on it gives NaN, every comparison with
    it is false. *)
Section NaN.
Local Open Scope dbl_scope.

Lemma mul_nan_r (x : spec_float) : x * B64.nan = B64.nan.
Proof. now destruct x. Qed.

Lemma div_nan_l (x : spec_float) : B64.nan / x = B64.nan.
Proof. reflexivity. Qed.

Lemma mul_nan_l (x : spec_float) : B64.nan * x = B64.nan.
Proof. reflexivity. Qed.

Lemma sub_nan_r (x : spec_float) : x - B64.nan = B64.nan.
Proof. now destruct x. Qed.

Lemma add_nan_r (x : spec_float) : x + B64.nan = B64.nan.
Proof. now destruct x. Qed.

Lemma ltb_nan_r (x : spec_float) : (x <? B64.nan) = false.
Proof. now destruct x. Qed.

Lemma ltb_nan_l (x : spec_float) : (B64.nan <? x) = false.
Proof. reflexivity. Qed.

Lemma std_min_nan_l (x : spec_float) : std_min B64.nan x = B64.nan.
Proof. unfold std_min. now rewrite ltb_nan_r. Qed.

Lemma std_max_nan_l (x : spec_float) : std_max B64.nan x = B64.nan.
Proof. unfold std_max. now rewrite ltb_nan_l. Qed.
End NaN.

(** ** A book to run the models on *)

(** The statistics of the book of the end-to-end scenario: best bid 95445.4
    (size 1104.23), best ask 95445.5 (size 9.06). *)
Definition scenario_book {A} `{Arith A} : OrderbookData A :=
  {| timestamp := "2025-05-04T10:39:13Z"; exchange := "OKX";
     symbol := "BTC-USDT-SWAP";
     asks := [(dec 954455 1, dec 906 2)];
     bids := [(dec 954454 1, dec 110423 2)];
     received_time := 0 |}.

Definition scenario_stats {A} `{Arith A} : OrderbookStats A :=
  snd (processOrderbook 0 3 (new_processor default_window) scenario_book).

(** ** Loops over vectors as folds over lists *)

Lemma skipn_nth_cons {T : Type} (d : T) (l : list T) :
  forall i : nat, (i < length l)%nat -> skipn i l = nth i l d :: skipn (S i) l.
Proof.
  induction l as [|x l IH]; intros i Hi; cbn [length] in Hi; [lia|].
  destruct i as [|i]; [reflexivity|].
  cbn [skipn nth]. apply IH. lia.
Qed.

(* ================================================================== *)
(** * Properties of the order-book statistics *)

(** ** Volume-weighted average price *)

Section VWAP.
Context {A : Type} `{Arith A}.
Local Open Scope dbl_scope.

(** The levels [calculateVWAP] reads: the first [maxLevels], or all of them
    when there are fewer or when [maxLevels] is 0. *)
Definition used_levels (priceLevels : PriceLevels A) (maxLevels : nat)
  : PriceLevels A :=
  firstn (if (0 <? maxLevels)%nat then maxLevels else length priceLevels)
    priceLevels.

Definition price_volume_sum (levels : PriceLevels A) : A :=
  fold_left (fun sum level => sum + fst level * snd level) levels zero.

Definition volume_sum (levels : PriceLevels A) : A :=
  fold_left (fun sum level => sum + snd level) levels zero.

Lemma calculateVWAP_loop (levels : PriceLevels A) :
  forall (n lo : nat) (priceSum volumeSum : A),
    (lo + n <= length levels)%nat ->
    for_range lo n
      (fun i '(priceSum, volumeSum) =>
         let price := fst (nth i levels no_level) in
         let volume := snd (nth i levels no_level) in
         (priceSum + price * volume, volumeSum + volume))
      (priceSum, volumeSum)
    = (fold_left (fun sum level => sum + fst level * snd level)
         (firstn n (skipn lo levels)) priceSum,
       fold_left (fun sum level => sum + snd level)
         (firstn n (skipn lo levels)) volumeSum).
Proof.
  induction n as [|n IH]; intros lo priceSum volumeSum Hn; [reflexivity|].
  cbn [for_range]. cbv zeta. rewrite IH by lia.
  rewrite (skipn_nth_cons no_level levels lo) by lia. reflexivity.
Qed.

(** The loop of [calculateVWAP] computes the two sums over [used_levels], in
    any arithmetic. *)
Lemma calculateVWAP_unfold (priceLevels : PriceLevels A) (maxLevels : nat) :
  calculateVWAP priceLevels maxLevels
  = match priceLevels with
    | [] => zero
    | _ =>
      let used := used_levels priceLevels maxLevels in
      if volume_sum used >? zero
      then price_volume_sum used / volume_sum used
      else zero
    end.
Proof.
  destruct priceLevels as [|level0 rest]; [reflexivity|].
  set (levels := level0 :: rest).
  unfold calculateVWAP; fold levels.
  set (n := if (0 <? maxLevels)%nat then Nat.min maxLevels (length levels)
            else length levels).
  assert (Hn : (0 + n <= length levels)%nat)
    by (subst n; destruct (0 <? maxLevels)%nat; lia).
  assert (Hused : used_levels levels maxLevels = firstn n (skipn 0 levels)).
  { unfold used_levels; subst n; cbn [skipn].
    destruct (0 <? maxLevels)%nat; [|reflexivity].
    destruct (Nat.le_gt_cases maxLevels (length levels)) as [L|L].
    - now rewrite Nat.min_l.
    - rewrite Nat.min_r by lia. rewrite !firstn_all2; trivial; lia. }
  rewrite (calculateVWAP_loop levels n 0 zero zero Hn), <- Hused.
  reflexivity.
Qed.
End VWAP.

(** Sums of reals, as the documentation writes them. *)
Definition Rsum (l : list R) : R := fold_right Rplus 0%R l.

Section VWAPExact.
Local Open Scope R_scope.

Lemma fold_left_Rsum {T : Type} (f : T -> R) (l : list T) :
  forall a : R,
    fold_left (fun sum x => add sum (f x)) l a = a + Rsum (map f l).
Proof.
  induction l as [|x l IH]; intros a; cbn [fold_left map Rsum fold_right].
  - lra.
  - rewrite IH. exact_arith. unfold Rsum. lra.
Qed.

Lemma volume_sum_exact (levels : PriceLevels R) :
  volume_sum levels = Rsum (map snd levels).
Proof.
  unfold volume_sum. rewrite (fold_left_Rsum snd). exact_arith. lra.
Qed.

Lemma price_volume_sum_exact (levels : PriceLevels R) :
  price_volume_sum levels = Rsum (map (fun level => fst level * snd level) levels).
Proof.
  unfold price_volume_sum.
  rewrite (fold_left_Rsum (fun level => fst level * snd level)).
  exact_arith. lra.
Qed.

Lemma Rsum_equal_sizes (s : R) (levels : PriceLevels R) :
  Forall (fun level => snd level = s) levels ->
  Rsum (map snd levels) = INR (length levels) * s
  /\ Rsum (map (fun level => fst level * snd level) levels)
     = s * Rsum (map fst levels).
Proof.
  induction 1 as [|level levels Hs _ [IH1 IH2]].
  - cbn. lra.
  - cbn [map Rsum fold_right length]. fold (Rsum (map snd levels)).
    fold (Rsum (map (fun level => fst level * snd level) levels)).
    fold (Rsum (map fst levels)).
    rewrite IH1, IH2, Hs, S_INR. lra.
Qed.

(** What [calculateVWAP] returns for any positive [maxLevels]. *)
Lemma calculateVWAP_exact (levels : PriceLevels R) (maxLevels : nat) :
  (0 < maxLevels)%nat ->
  calculateVWAP levels maxLevels
  = if Rltb 0 (Rsum (map snd (firstn maxLevels levels)))
    then Rsum (map (fun level => fst level * snd level)
                 (firstn maxLevels levels))
         / Rsum (map snd (firstn maxLevels levels))
    else 0.
Proof.
  intros HK. rewrite calculateVWAP_unfold.
  destruct levels as [|level0 rest].
  - rewrite firstn_nil. cbn [map Rsum fold_right].
    case_Rltb 0 0; [lra|reflexivity].
  - cbv zeta. unfold used_levels.
    destruct (Nat.ltb_spec 0 maxLevels) as [_|]; [|lia].
    rewrite volume_sum_exact, price_volume_sum_exact. reflexivity.
Qed.

(** C8 (amended).  Exact arithmetic, [K = 10] as [calculateStats] calls it.
    Over the first 10 levels (all of them if there are fewer):
    the result is [sum(price * size) / sum(size)] when the total size is
    positive; it is 0 when the total size is zero or negative, and for an
    empty list; and when the levels used all have the same positive size it
    is the arithmetic mean of their prices. *)
Theorem calculateVWAP_first_levels (levels : PriceLevels R) :
  (0 < Rsum (map snd (firstn 10 levels)) ->
   calculateVWAP levels 10
   = Rsum (map (fun level => fst level * snd level) (firstn 10 levels))
     / Rsum (map snd (firstn 10 levels)))
  /\ (Rsum (map snd (firstn 10 levels)) <= 0 -> calculateVWAP levels 10 = 0)
  /\ (levels = [] -> calculateVWAP levels 10 = 0)
  /\ (forall s : R,
        0 < s -> levels <> [] ->
        Forall (fun level => snd level = s) (firstn 10 levels) ->
        calculateVWAP levels 10
        = Rsum (map fst (firstn 10 levels))
          / INR (length (firstn 10 levels))).
Proof.
  rewrite calculateVWAP_exact by lia.
  set (used := firstn 10 levels).
  repeat split.
  - intros Hpos. apply Rltb_true in Hpos. now rewrite Hpos.
  - intros Hneg. apply Rltb_false in Hneg. now rewrite Hneg.
  - intros ->. subst used. cbn. case_Rltb 0 0; [lra|reflexivity].
  - intros s Hs Hne Hall.
    destruct (Rsum_equal_sizes s used Hall) as [Hv Hpv].
    assert (Hlen : 0 < INR (length used)).
    { apply lt_0_INR. subst used. destruct levels; [congruence|cbn; lia]. }
    rewrite Hv, Hpv.
    assert (Hpos : 0 < INR (length used) * s) by nra.
    apply Rltb_true in Hpos. rewrite Hpos.
    field. lra.
Qed.
End VWAPExact.

(** C8 as stated fails on a level with a negative size, which the parser
    accepts: one level of price 100 and size -1 has total size -1, not 0, and
    [sum(price * size) / sum(size)] is 100; [calculateVWAP] returns 0. *)
Lemma calculateVWAP_negative_total :
  let levels : PriceLevels spec_float := [(of_Z 100, of_Z (-1))] in
  volume_sum (firstn 10 levels) = of_Z (-1)
  /\ div (price_volume_sum (firstn 10 levels)) (volume_sum (firstn 10 levels))
     = of_Z 100
  /\ calculateVWAP levels 10 = of_Z 0
  /\ calculateVWAP levels 10
     <> div (price_volume_sum (firstn 10 levels))
            (volume_sum (firstn 10 levels)).
Proof. vm_compute. repeat split; discriminate. Qed.

(** Ten levels of equal size in binary64: the mean of the prices 1..10. *)
Example calculateVWAP_equal_sizes_binary64 :
  calculateVWAP
    (map (fun p => (of_Z p, of_Z 4)) [1; 2; 3; 4; 5; 6; 7; 8; 9; 10; 1000]%Z)
    10
  = (dec 55 1 : spec_float).
Proof. vm_compute. reflexivity. Qed.

(** ** Volatility *)

Section Volatility.
Context {A : Type} `{Arith A}.
Local Open Scope dbl_scope.

(** A snapshot has valid book data when both of its sides are non-empty. *)
Definition valid_book (orderbook : OrderbookData A) : bool :=
  match asks orderbook, bids orderbook with
  | _ :: _, _ :: _ => true
  | _, _ => false
  end.

Definition book_midprice (orderbook : OrderbookData A) : A :=
  (fst (nth 0 (asks orderbook) no_level) + fst (nth 0 (bids orderbook) no_level))
  / of_Z 2.

(** The mid-price series of the snapshots with valid book data. *)
Definition valid_midprices (history : list (OrderbookData A)) : list A :=
  map book_midprice (filter valid_book history).

(** Simple returns [(p_i - p_{i-1}) / p_{i-1}] of a price series. *)
Fixpoint returns_after (previous : A) (prices : list A) : list A :=
  match prices with
  | [] => []
  | price :: rest => (price - previous) / previous :: returns_after price rest
  end.

Definition simple_returns (prices : list A) : list A :=
  match prices with
  | [] => []
  | first :: rest => returns_after first rest
  end.

Definition mean_of (xs : list A) : A :=
  fold_left add xs zero / of_Z (Z.of_nat (length xs)).

Definition squared_deviations (xs : list A) : A :=
  fold_left (fun sum x => sum + (x - mean_of xs) * (x - mean_of xs)) xs zero.

(** Standard deviation with divisor [n] (population) and with divisor
    [n - 1] (sample). *)
Definition population_std (xs : list A) : A :=
  sqrt (squared_deviations xs / of_Z (Z.of_nat (length xs))).

Definition sample_std (xs : list A) : A :=
  sqrt (squared_deviations xs / of_Z (Z.of_nat (length xs) - 1)).

Lemma extract_midprices_from (history : list (OrderbookData A)) :
  forall midprices : list A,
    fold_left
      (fun midprices orderbook =>
         match asks orderbook, bids orderbook with
         | _ :: _, _ :: _ =>
           let bestAsk := fst (nth 0 (asks orderbook) no_level) in
           let bestBid := fst (nth 0 (bids orderbook) no_level) in
           let midprice := (bestAsk + bestBid) / of_Z 2 in
           midprices ++ [midprice]
         | _, _ => midprices
         end)
      history midprices
    = midprices ++ valid_midprices history.
Proof.
  induction history as [|orderbook history IH]; intros midprices.
  - cbn. now rewrite app_nil_r.
  - cbn [fold_left]. rewrite IH. unfold valid_midprices.
    cbn [filter]. unfold valid_book at 2, book_midprice.
    destruct (asks orderbook) as [|a0 arest] eqn:Ea,
             (bids orderbook) as [|b0 brest] eqn:Eb;
      cbn [map]; trivial.
    cbv zeta. now rewrite <- app_assoc, Ea, Eb.
Qed.

Lemma extract_midprices_valid (history : list (OrderbookData A)) :
  extract_midprices history = valid_midprices history.
Proof. unfold extract_midprices. now rewrite extract_midprices_from. Qed.

Lemma valid_midprices_length (history : list (OrderbookData A)) :
  (length (valid_midprices history) <= length history)%nat.
Proof.
  unfold valid_midprices. rewrite length_map. apply filter_length_le.
Qed.

(** The indexed loop over [midprices] builds the simple returns. *)
Lemma returns_loop (midprices : list A) :
  forall (n lo : nat) (returns : list A),
    (1 <= lo)%nat ->
    (lo + n = length midprices)%nat ->
    for_range lo n
      (fun i returns =>
         returns ++ [(nth i midprices zero - nth (i - 1) midprices zero)
                     / nth (i - 1) midprices zero])
      returns
    = returns ++ returns_after (nth (lo - 1) midprices zero) (skipn lo midprices).
Proof.
  induction n as [|n IH]; intros lo returns Hlo Hn.
  - cbn [for_range]. rewrite skipn_all2 by lia. cbn. now rewrite app_nil_r.
  - cbn [for_range]. rewrite IH by lia.
    rewrite (skipn_nth_cons zero midprices lo) by lia.
    cbn [returns_after]. rewrite <- app_assoc. cbn [app].
    replace (S lo - 1)%nat with lo by lia. reflexivity.
Qed.

(** [calculateVolatility] in any arithmetic: 0 with fewer than two valid
    snapshots, else the standard deviation with divisor [n] of the simple
    returns of their mid-prices. *)
Lemma calculateVolatility_unfold (history : list (OrderbookData A)) :
  calculateVolatility history
  = if (length (valid_midprices history) <? 2)%nat then zero
    else population_std (simple_returns (valid_midprices history)).
Proof.
  unfold calculateVolatility. rewrite extract_midprices_valid.
  pose proof (valid_midprices_length history) as Hlen.
  set (midprices := valid_midprices history) in *.
  destruct (Nat.ltb_spec (length history) 2) as [Hh|Hh].
  - destruct (Nat.ltb_spec (length midprices) 2); [reflexivity|lia].
  - destruct (Nat.ltb_spec (length midprices) 2) as [Hm|Hm]; [reflexivity|].
    cbv zeta.
    rewrite (returns_loop midprices (length midprices - 1) 1 []) by lia.
    cbn [app].
    assert (Hr : returns_after (nth (1 - 1) midprices zero) (skipn 1 midprices)
                 = simple_returns midprices).
    { destruct midprices as [|first rest]; [cbn in Hm; lia|reflexivity]. }
    rewrite Hr. reflexivity.
Qed.
End Volatility.

Section VolatilityExact.
Local Open Scope R_scope.

Lemma mean_of_exact (xs : list R) :
  mean_of xs = Rsum xs / INR (length xs).
Proof.
  unfold mean_of. rewrite (fold_left_Rsum (fun x => x)), map_id.
  exact_arith. rewrite <- INR_IZR_INZ. f_equal. lra.
Qed.

Lemma squared_deviations_exact (xs : list R) :
  squared_deviations xs
  = Rsum (map (fun x => (x - Rsum xs / INR (length xs)) ^ 2) xs).
Proof.
  unfold squared_deviations. rewrite mean_of_exact.
  rewrite (fold_left_Rsum
             (fun x => (x - Rsum xs / INR (length xs))
                       * (x - Rsum xs / INR (length xs)))).
  exact_arith. rewrite Rplus_0_l. f_equal. apply map_ext. intros x. ring.
Qed.

(** C3 (amended).  Exact arithmetic.  [calculateVolatility] skips the
    snapshots with an empty side; with fewer than two valid snapshots it
    returns 0; otherwise it returns the standard deviation with divisor [n]
    (the population form, not the sample form with [n - 1]) of the [n] simple
    returns of the valid mid-prices.  With exactly two valid snapshots, the
    first mid-price not being zero, that value is 0 as well. *)
Theorem calculateVolatility_population_std (history : list (OrderbookData R)) :
  let returns := simple_returns (valid_midprices history) in
  let mean := Rsum returns / INR (length returns) in
  calculateVolatility history
  = (if (length (valid_midprices history) <? 2)%nat then 0
     else R_sqrt.sqrt (Rsum (map (fun x => (x - mean) ^ 2) returns)
                       / INR (length returns)))
  /\ ((length (valid_midprices history) < 3)%nat ->
      Forall (fun price => price <> 0) (valid_midprices history) ->
      calculateVolatility history = 0).
Proof.
  intros returns mean.
  assert (Hmain :
    calculateVolatility history
    = (if (length (valid_midprices history) <? 2)%nat then 0
       else R_sqrt.sqrt (Rsum (map (fun x => (x - mean) ^ 2) returns)
                         / INR (length returns)))).
  { rewrite calculateVolatility_unfold.
    destruct (length (valid_midprices history) <? 2)%nat; [reflexivity|].
    unfold population_std. rewrite squared_deviations_exact.
    exact_arith. now rewrite <- INR_IZR_INZ. }
  split; [exact Hmain|].
  intros Hfew _. rewrite Hmain.
  destruct (Nat.ltb_spec (length (valid_midprices history)) 2) as [|Htwo];
    [reflexivity|].
  subst mean returns.
  destruct (valid_midprices history) as [|p0 [|p1 [|p2 rest]]];
    cbn [length] in *; try lia.
  cbn [simple_returns returns_after map Rsum fold_right length INR].
  replace (_ / 1) with 0 by (field_simplify; lra).
  apply sqrt_0.
Qed.
End VolatilityExact.

(** Snapshots with one level a side, and with an empty bid side. *)
Definition snapshot_of {A} `{Arith A} (ask bid : Z) : OrderbookData A :=
  {| timestamp := "2025-05-04T10:39:13Z"; exchange := "OKX";
     symbol := "BTC-USDT-SWAP";
     asks := [(of_Z ask, of_Z 1)]; bids := [(of_Z bid, of_Z 1)];
     received_time := 0 |}.

Definition one_sided {A} `{Arith A} (ask : Z) : OrderbookData A :=
  {| timestamp := "2025-05-04T10:39:14Z"; exchange := "OKX";
     symbol := "BTC-USDT-SWAP";
     asks := [(of_Z ask, of_Z 1)]; bids := [];
     received_time := 0 |}.

(** Two valid snapshots whose first mid-price is 0, in binary64: the return is
    [2 / 0], infinite, and the deviation from the mean is NaN. *)
Example calculateVolatility_zero_mid_binary64 :
  calculateVolatility [snapshot_of 0 0; snapshot_of 3 1] = B64.nan.
Proof. vm_compute. reflexivity. Qed.

(** C3 as stated fails on three valid snapshots with mid-prices 2, 4, 4 (and
    an empty-sided one between them, skipped): the simple returns are 1 and 0,
    whose sample standard deviation is [sqrt 0.5]; [calculateVolatility]
    returns 0.5, the standard deviation with divisor [n]. *)
Lemma calculateVolatility_not_sample_std :
  let history : list (OrderbookData spec_float) :=
    [snapshot_of 3 1; one_sided 9; snapshot_of 5 3; snapshot_of 5 3] in
  valid_midprices history = [of_Z 2; of_Z 4; of_Z 4]
  /\ simple_returns (valid_midprices history) = [of_Z 1; of_Z 0]
  /\ calculateVolatility history = dec 5 1
  /\ sample_std (simple_returns (valid_midprices history))
     = sqrt (dec 5 1)
  /\ calculateVolatility history
     <> sample_std (simple_returns (valid_midprices history)).
Proof. vm_compute. repeat split; discriminate. Qed.

(** ** The history window *)

Section History.
Context {A : Type} `{Arith A}.

Lemma evict_skipn (window : nat) (history : list (OrderbookData A)) :
  evict window history = skipn (length history - window) history.
Proof.
  induction history as [|x rest IH]; [reflexivity|].
  cbn [evict]. destruct (Nat.ltb_spec window (length (x :: rest))) as [L|L].
  - rewrite IH. cbn [length] in *.
    replace (S (length rest) - window)%nat with (S (length rest - window)) by lia.
    reflexivity.
  - replace (length (x :: rest) - window)%nat with 0%nat by lia. reflexivity.
Qed.

(** Evicting, appending and evicting again is appending and evicting once. *)
Lemma evict_snoc (window : nat) (history : list (OrderbookData A))
    (data : OrderbookData A) :
  evict window (evict window history ++ [data])
  = evict window (history ++ [data]).
Proof.
  rewrite !evict_skipn.
  rewrite !length_app, length_skipn; cbn [length].
  destruct (Nat.le_gt_cases (length history) window) as [L|L].
  - replace (length history - window)%nat with 0%nat by lia.
    cbn [skipn]. f_equal. lia.
  - rewrite skipn_app, skipn_skipn.
    rewrite (skipn_app (length history + 1 - window)).
    rewrite length_skipn.
    replace (length history - (length history - window) + 1 - window
             + (length history - window))%nat
      with (length history + 1 - window)%nat by lia.
    f_equal. f_equal. lia.
Qed.

Lemma processOrderbook_history (startTime endTime : Z)
    (p : OrderbookProcessor A) (data : OrderbookData A) :
  orderbookHistory_ (fst (processOrderbook startTime endTime p data))
  = evict (historyWindowSize_ p) (orderbookHistory_ p ++ [data])
  /\ historyWindowSize_ (fst (processOrderbook startTime endTime p data))
     = historyWindowSize_ p.
Proof. split; reflexivity. Qed.

Lemma processAll_history (clock : nat -> Z * Z) (feed : list (OrderbookData A)) :
  forall (k : nat) (p : OrderbookProcessor A) (seen : list (OrderbookData A)),
    orderbookHistory_ p = evict (historyWindowSize_ p) seen ->
    orderbookHistory_ (processAll clock k p feed)
    = evict (historyWindowSize_ p) (seen ++ feed)
    /\ historyWindowSize_ (processAll clock k p feed) = historyWindowSize_ p.
Proof.
  induction feed as [|data feed IH]; intros k p seen Hseen.
  - cbn [processAll]. rewrite app_nil_r. auto.
  - cbn [processAll].
    destruct (processOrderbook_history (fst (clock k)) (snd (clock k)) p data)
      as [Hh Hw].
    destruct (IH (S k) (fst (processOrderbook (fst (clock k)) (snd (clock k)) p data))
                (seen ++ [data])) as [IHh IHw].
    + rewrite Hh, Hw, Hseen. apply evict_snoc.
    + rewrite IHh, IHw, Hw, <- app_assoc. auto.
Qed.

(** C4.  After any sequence of [processOrderbook] calls on a processor built
    with window [N], the history holds exactly the last [min n N] of the [n]
    snapshots processed, in processing order; its length never exceeds [N]. *)
Theorem history_is_last_window (clock : nat -> Z * Z) (N : nat)
    (feed : list (OrderbookData A)) :
  orderbookHistory_ (processAll clock 0 (new_processor N) feed)
  = skipn (length feed - Nat.min (length feed) N) feed
  /\ length (orderbookHistory_ (processAll clock 0 (new_processor N) feed))
     = Nat.min (length feed) N
  /\ (length (orderbookHistory_ (processAll clock 0 (new_processor N) feed))
      <= N)%nat.
Proof.
  destruct (processAll_history clock feed 0 (new_processor N) [] eq_refl)
    as [Hh _].
  cbn [app historyWindowSize_ new_processor] in Hh. rewrite Hh, evict_skipn.
  replace (length feed - Nat.min (length feed) N)%nat
    with (length feed - N)%nat by lia.
  rewrite length_skipn. repeat split; lia.
Qed.
End History.

(** Eviction is first in, first out: with window 2, three distinct snapshots
    leave the last two, oldest first. *)
Example history_fifo_order :
  let snap (t : string) : OrderbookData spec_float :=
    Build_OrderbookData t "OKX"%string "BTC-USDT-SWAP"%string [] [] 0 in
  map (@timestamp _)
    (orderbookHistory_
       (processAll (fun _ => (0, 0)%Z) 0 (new_processor 2)
          [snap "t1"%string; snap "t2"%string; snap "t3"%string]))
  = ["t2"%string; "t3"%string].
Proof. reflexivity. Qed.

(* ================================================================== *)
(** * Properties of the market-impact model *)

(** ** The execution schedule *)

Section SingleStep.
Context (L : LibM spec_float).
Hypothesis exp_nan : exp B64.nan = B64.nan.
Local Open Scope dbl_scope.

Lemma positive_fails_guard (x : spec_float) :
  (x >? zero) = true -> (x <=? zero) = false.
Proof. destruct x as [s|s| |s m e]; try destruct s; cbn; congruence. Qed.

(** C1 (as the code behaves).  In binary64, with a step count of 1 (or less,
    clamped to 1), a positive order size and positive depth on both sides,
    the schedule is the single slice NaN, and its sum is NaN, not the order
    size: [numSteps - 1] is 0, the time step is [0.0 / 0], and NaN goes
    through [exp], the normalisation and [std::min]. *)
Theorem calculateOptimalExecution_single_step
    (params_ : AlmgrenChrissParams spec_float) (orderSize : spec_float)
    (orderSide : bool) (stats : OrderbookStats spec_float) (numSteps : Z) :
  (numSteps <= 1)%Z ->
  (orderSize >? zero) = true ->
  (total_ask_size stats >? zero) = true ->
  (total_bid_size stats >? zero) = true ->
  calculateOptimalExecution params_ orderSize orderSide stats numSteps
  = [B64.nan]
  /\ fold_left add
       (calculateOptimalExecution params_ orderSize orderSide stats numSteps)
       zero
     = B64.nan
  /\ fold_left add
       (calculateOptimalExecution params_ orderSize orderSide stats numSteps)
       zero
     <> orderSize.
Proof.
  intros Hsteps Hsize Hask Hbid.
  assert (Hschedule :
            calculateOptimalExecution params_ orderSize orderSide stats numSteps
            = [B64.nan]).
  { unfold calculateOptimalExecution.
    destruct (Z.ltb_spec 1 numSteps) as [|_]; [lia|].
    rewrite (positive_fails_guard _ Hsize), (positive_fails_guard _ Hask),
      (positive_fails_guard _ Hbid).
    cbn [orb].
    change (Z.to_nat 1) with 1%nat. cbn [repeat for_range vec_set].
    change (of_Z (Z.of_nat 0) / of_Z (1 - 1)) with B64.nan.
    rewrite mul_nan_r, exp_nan, div_nan_l, mul_nan_l, std_min_nan_l, sub_nan_r.
    now rewrite ltb_nan_r. }
  split; [exact Hschedule|]. rewrite Hschedule. split; [reflexivity|].
  cbn. intros <-. discriminate Hsize.
Qed.
End SingleStep.

(** The order of the end-to-end scenario's book, size 1, in one step. *)
Lemma calculateOptimalExecution_single_step_witness :
  @exp _ naive_libm B64.nan = B64.nan
  /\ (1 <= 1)%Z
  /\ ((of_Z 1 : spec_float) >? zero)%D = true
  /\ (total_ask_size (@scenario_stats spec_float _) >? zero)%D = true
  /\ (total_bid_size (@scenario_stats spec_float _) >? zero)%D = true
  /\ @calculateOptimalExecution _ _ naive_libm default_params (of_Z 1) true
       scenario_stats 1
     = [B64.nan]
  /\ fold_left add
       (@calculateOptimalExecution _ _ naive_libm default_params (of_Z 1) true
          scenario_stats 1)
       zero
     = B64.nan
  /\ fold_left add
       (@calculateOptimalExecution _ _ naive_libm default_params (of_Z 1) true
          scenario_stats 1)
       zero
     <> of_Z 1.
Proof.
  do 5 (split; [reflexivity|]).
  exact (calculateOptimalExecution_single_step naive_libm eq_refl
           default_params (of_Z 1) true scenario_stats 1
           (Z.le_refl 1) eq_refl eq_refl eq_refl).
Defined.

(** With two steps the same order is split into slices that add up to it. *)
Example calculateOptimalExecution_two_steps :
  fold_left add
    (@calculateOptimalExecution _ _ naive_libm default_params (of_Z 1) true
       scenario_stats 2)
    zero
  = of_Z 1.
Proof. vm_compute. reflexivity. Qed.

(** In exact arithmetic the loop conserves the order: whatever weights [exp]
    yields, the slices and the remainder add up to the order size, so with
    two steps or more the schedule sums to the order. *)
Section ScheduleExact.
Context (L : LibM R).
Local Open Scope R_scope.

Lemma Rsum_app (l1 l2 : list R) : Rsum (l1 ++ l2) = Rsum l1 + Rsum l2.
Proof.
  unfold Rsum. induction l1 as [|x l1 IH]; cbn [app fold_right].
  - lra.
  - rewrite IH. lra.
Qed.

Lemma vec_set_middle {T : Type} (prefix rest : list T) (x t : T) :
  vec_set (prefix ++ x :: rest) (length prefix) t = prefix ++ t :: rest.
Proof. induction prefix as [|y prefix IH]; cbn; [reflexivity|now rewrite IH]. Qed.

Lemma Rsum_back_update (r : R) (v : list R) :
  v <> [] -> Rsum (back_update (fun last => add last r) v) = Rsum v + r.
Proof.
  unfold Rsum. induction v as [|x v IH]; intros Hne; [congruence|].
  destruct v as [|y v].
  - cbn. lra.
  - change (back_update (fun last => add last r) (x :: y :: v))
      with (x :: back_update (fun last => add last r) (y :: v)).
    cbn [fold_right] in *. rewrite IH by congruence. lra.
Qed.

Lemma std_min_le_right (a b : R) : std_min a b <= b.
Proof. unfold std_min. exact_arith. case_Rltb b a; lra. Qed.

Lemma schedule_loop (w : nat -> R) (body : nat -> R * list R -> R * list R) :
  (forall i remaining schedule,
      body i (remaining, schedule)
      = (remaining - std_min (w i) remaining,
         vec_set schedule i (std_min (w i) remaining))) ->
  forall (k : nat) (done : list R) (remaining : R),
    0 <= remaining ->
    0 <= fst (for_range (length done) k body (remaining, done ++ repeat 0 k))
    /\ Rsum (snd (for_range (length done) k body
                    (remaining, done ++ repeat 0 k)))
       + fst (for_range (length done) k body (remaining, done ++ repeat 0 k))
       = Rsum done + remaining
    /\ length (snd (for_range (length done) k body
                      (remaining, done ++ repeat 0 k)))
       = (length done + k)%nat.
Proof.
  intros Hbody. induction k as [|k IH]; intros done remaining Hrem.
  - cbn [for_range repeat fst snd]. rewrite app_nil_r. repeat split; try lia; lra.
  - cbn [for_range repeat]. rewrite Hbody, vec_set_middle.
    pose proof (std_min_le_right (w (length done)) remaining) as Hmin.
    set (t := std_min (w (length done)) remaining) in *.
    replace (done ++ t :: repeat 0 k) with ((done ++ [t]) ++ repeat 0 k)
      by now rewrite <- app_assoc.
    replace (S (length done)) with (length (done ++ [t]))
      by (rewrite length_app; cbn; lia).
    destruct (IH (done ++ [t]) (remaining - t)) as (I1 & I2 & I3); [lra|].
    rewrite I2, I3, Rsum_app.
    repeat split; [exact I1 | cbn; lra | rewrite length_app; cbn; lia].
Qed.

Lemma calculateOptimalExecution_sums_to_order
    (params_ : AlmgrenChrissParams R) (orderSize : R) (orderSide : bool)
    (stats : OrderbookStats R) (numSteps : Z) :
  (2 <= numSteps)%Z ->
  0 < orderSize -> 0 < total_ask_size stats -> 0 < total_bid_size stats ->
  Rsum (calculateOptimalExecution params_ orderSize orderSide stats numSteps)
  = orderSize.
Proof.
  intros Hsteps Hsize Hask Hbid. unfold calculateOptimalExecution.
  destruct (Z.ltb_spec 1 numSteps) as [_|]; [|lia].
  exact_arith.
  replace (Rleb orderSize 0) with false by (symmetry; apply Rleb_false; lra).
  replace (Rleb (total_ask_size stats) 0) with false
    by (symmetry; apply Rleb_false; lra).
  replace (Rleb (total_bid_size stats) 0) with false
    by (symmetry; apply Rleb_false; lra).
  cbn [orb].
  match goal with
  | |- context [for_range 0 ?k ?body (orderSize, repeat ?z ?k)] =>
    assert (Hbody : exists w : nat -> R,
               forall i remaining schedule,
                 body i (remaining, schedule)
                 = (remaining - std_min (w i) remaining,
                    vec_set schedule i (std_min (w i) remaining)))
      by (eexists; intros i remaining schedule; cbv beta iota zeta;
          reflexivity);
    destruct Hbody as [w Hbody];
    destruct (schedule_loop w body Hbody k [] orderSize (Rlt_le _ _ Hsize))
      as (Hrem & Hsum & Hlen);
    destruct (for_range 0 k body (orderSize, repeat z k))
      as [remaining schedule] eqn:Hloop
  end.
  cbn [app length fst snd Rsum fold_right] in *.
  rewrite Hloop in *. cbn [fst snd] in *.
  case_Rltb 0 remaining.
  - rewrite Rsum_back_update; [lra|].
    intros ->. cbn [length] in Hlen. lia.
  - lra.
Qed.
End ScheduleExact.

(* ================================================================== *)
(** * Properties of the transaction-cost model *)

(** ** Slippage *)

(** The estimate in price units that [calculateSlippage] computes before it
    applies the floor: its local [priceSlippage]. *)
Definition priceSlippage {A : Type} `{Arith A} (m : TransactionCostModel A)
    (orderSize : A) (orderSide : bool) (stats : OrderbookStats A) : A :=
  let relativeSizeToDepth := zero in
  let relativeSizeToDepth :=
    if orderSide
    then if (total_ask_size stats >? zero)%D
         then (orderSize / total_ask_size stats)%D else relativeSizeToDepth
    else if (total_bid_size stats >? zero)%D
         then (orderSize / total_bid_size stats)%D else relativeSizeToDepth in
  let slippageEstimate :=
    (slippageIntercept_ m
     + (slippageVolumeFactor_ m * relativeSizeToDepth)
     + (slippageVolatilityFactor_ m * price_volatility stats)
     + (slippageImbalanceFactor_ m * (order_imbalance stats - of_Z 1)))%D in
  (slippageEstimate * midprice stats)%D.

(** The result is [std::max(priceSlippage, minSlippage)], in any
    arithmetic. *)
Lemma calculateSlippage_unfold {A : Type} `{Arith A}
    (m : TransactionCostModel A) (orderSize : A) (orderSide : bool)
    (stats : OrderbookStats A) :
  calculateSlippage m orderSize orderSide stats
  = std_max (priceSlippage m orderSize orderSide stats)
            (spread stats / of_Z 2)%D.
Proof. reflexivity. Qed.

Section Slippage.
Local Open Scope R_scope.

Lemma std_max_ge_right (a b : R) : b <= std_max a b.
Proof. unfold std_max. exact_arith. case_Rltb a b; lra. Qed.

(** Exact arithmetic, where every value is a number: the slippage estimate
    is never below half of the quoted spread, for every order size, side and
    statistics value. *)
Lemma calculateSlippage_at_least_half_spread
    (m : TransactionCostModel R) (orderSize : R) (orderSide : bool)
    (stats : OrderbookStats R) :
  spread stats / 2 <= calculateSlippage m orderSize orderSide stats.
Proof. unfold calculateSlippage. apply std_max_ge_right. Qed.
End Slippage.

(** ** The floor in binary64

    [std::max(a, b)] returns [a] when [a] is NaN.  When neither argument is
    NaN the result is at least [b]; half of a positive spread is never NaN. *)
Section FloorBinary64.
Local Open Scope dbl_scope.

Lemma SFcompare_refl (x : spec_float) :
  B64.is_nan x = false -> SFcompare x x = Some Eq.
Proof.
  destruct x as [s|s| |s m e]; cbn; intros Hx; try discriminate;
    destruct s; trivial; rewrite Z.compare_refl, Pos.compare_cont_refl;
    reflexivity.
Qed.

Lemma SFcompare_antisym (x y : spec_float) :
  SFcompare y x = option_map CompOpp (SFcompare x y).
Proof.
  destruct x as [sx|sx| |sx mx ex], y as [sy|sy| |sy my ey]; cbn;
    try (destruct sx); try (destruct sy); trivial.
  - rewrite (Z.compare_antisym ey ex). destruct (ey ?= ex)%Z; cbn; trivial.
    rewrite (Pos.compare_cont_antisym mx my Eq). cbn.
    now rewrite ?CompOpp_involutive.
  - rewrite (Z.compare_antisym ey ex). destruct (ey ?= ex)%Z; cbn; trivial.
    rewrite (Pos.compare_cont_antisym mx my Eq). cbn.
    now rewrite ?CompOpp_involutive.
Qed.

Lemma SFcompare_defined (x y : spec_float) :
  B64.is_nan x = false -> B64.is_nan y = false ->
  exists c, SFcompare x y = Some c.
Proof.
  destruct x as [sx|sx| |sx mx ex], y as [sy|sy| |sy my ey]; cbn;
    intros Hx Hy; try discriminate; eauto.
Qed.

Lemma std_max_ge_right_binary64 (a b : spec_float) :
  B64.is_nan a = false -> B64.is_nan b = false ->
  (b <=? std_max a b) = true.
Proof.
  intros Ha Hb. unfold std_max. cbn [ltb leb binary64].
  destruct (SFltb a b) eqn:Hlt.
  - unfold SFleb. now rewrite SFcompare_refl.
  - unfold SFleb, SFltb in *. rewrite SFcompare_antisym.
    destruct (SFcompare_defined a b Ha Hb) as [c Hc]. rewrite Hc in *.
    now destruct c.
Qed.

(** Rounding a non-negative mantissa never yields NaN. *)
Lemma shr_1_nonneg (mrs : shr_record) :
  (0 <= shr_m mrs)%Z -> (0 <= shr_m (shr_1 mrs))%Z.
Proof.
  destruct mrs as [m r s]. cbn [shr_m].
  destruct m as [|p|p]; [|destruct p|]; cbn; lia.
Qed.

Lemma iter_shr_1_nonneg (p : positive) :
  forall mrs : shr_record,
    (0 <= shr_m mrs)%Z -> (0 <= shr_m (SpecFloat.iter_pos shr_1 p mrs))%Z.
Proof.
  induction p as [p IH|p IH|]; intros mrs Hm; cbn [SpecFloat.iter_pos].
  - apply IH, IH, shr_1_nonneg, Hm.
  - apply IH, IH, Hm.
  - apply shr_1_nonneg, Hm.
Qed.

Lemma shr_fexp_nonneg (m e : Z) (l : location) :
  (0 <= m)%Z -> (0 <= shr_m (fst (shr_fexp B64.prec B64.emax m e l)))%Z.
Proof.
  intros Hm. unfold shr_fexp, shr.
  assert (Hloc : shr_m (shr_record_of_loc m l) = m)
    by (destruct l as [|[]]; reflexivity).
  destruct (_ - e)%Z; cbn [fst]; rewrite <- Hloc in Hm; trivial.
  now apply iter_shr_1_nonneg.
Qed.

Lemma round_nearest_even_nonneg (m : Z) (l : location) :
  (0 <= m)%Z -> (0 <= round_nearest_even m l)%Z.
Proof.
  intros Hm. unfold round_nearest_even.
  destruct l as [|[]]; try destruct (Z.even m); lia.
Qed.

Lemma binary_round_aux_not_nan (s : bool) (m e : Z) (l : location) :
  (0 <= m)%Z ->
  B64.is_nan (binary_round_aux B64.prec B64.emax s m e l) = false.
Proof.
  intros Hm. unfold binary_round_aux.
  pose proof (shr_fexp_nonneg m e l Hm) as H1.
  destruct (shr_fexp B64.prec B64.emax m e l) as [mrs1 e1]. cbn [fst] in H1.
  pose proof (shr_fexp_nonneg
                (round_nearest_even (shr_m mrs1) (loc_of_shr_record mrs1))
                e1 loc_Exact (round_nearest_even_nonneg _ _ H1)) as H2.
  destruct (shr_fexp B64.prec B64.emax _ e1 loc_Exact) as [mrs2 e2].
  cbn [fst] in H2.
  destruct (shr_m mrs2) as [|p|p]; [reflexivity| |lia].
  now destruct (e2 <=? B64.emax - B64.prec)%Z.
Qed.

Lemma SFdiv_core_nonneg (m1 m2 : positive) (e1 e2 : Z) :
  (0 <= fst (fst (SFdiv_core_binary B64.prec B64.emax
                    (Z.pos m1) e1 (Z.pos m2) e2)))%Z.
Proof.
  unfold SFdiv_core_binary. cbv zeta.
  match goal with
  | |- context [Z.div_eucl ?a ?b] =>
    assert (Ha : (0 <= a)%Z);
      [| pose proof (Z.div_pos a b Ha (Pos2Z.is_pos m2)) as Hq;
         unfold Z.div in Hq; destruct (Z.div_eucl a b) as [q r] ]
  end.
  - destruct (_ - _ - _)%Z; try lia. apply Z.shiftl_nonneg. lia.
  - exact Hq.
Qed.

Lemma half_of_positive_not_nan (x : spec_float) :
  (x >? zero) = true -> B64.is_nan (x / of_Z 2) = false.
Proof.
  destruct x as [s|s| |s m e]; cbn [ltb binary64]; try discriminate;
    destruct s; try discriminate; intros _; [reflexivity|].
  change (of_Z 2) with (S754_finite false 4503599627370496 (-51)).
  cbn [div binary64 SFdiv].
  pose proof (SFdiv_core_nonneg m 4503599627370496 e (-51)) as Hq.
  destruct (SFdiv_core_binary _ _ _ _ _ _) as [[q e'] l]. cbn [fst] in Hq.
  now apply binary_round_aux_not_nan.
Qed.

(** In binary64 the floor holds whenever the estimate is a number: with a
    positive spread, a slippage that is not NaN is at least half the spread. *)
Lemma calculateSlippage_floor_binary64
    (m : TransactionCostModel spec_float) (orderSize : spec_float)
    (orderSide : bool) (stats : OrderbookStats spec_float) :
  (spread stats >? zero) = true ->
  B64.is_nan (calculateSlippage m orderSize orderSide stats) = false ->
  (spread stats / of_Z 2 <=? calculateSlippage m orderSize orderSide stats)
  = true.
Proof.
  intros Hspread Hnum. unfold calculateSlippage in *. cbv zeta in *.
  match goal with
  | |- (_ <=? std_max ?a ?b) = true =>
    apply std_max_ge_right_binary64;
      [destruct a; trivial; now rewrite std_max_nan_l in Hnum
      |now apply half_of_positive_not_nan]
  end.
Qed.

Lemma std_max_not_nan (a b : spec_float) :
  B64.is_nan a = false -> B64.is_nan b = false ->
  B64.is_nan (std_max a b) = false.
Proof. intros Ha Hb. unfold std_max. now destruct (a <? b). Qed.

(** C2 (amended).  In binary64, for every order size, side and statistics
    value with [spread > 0]: when the price-slippage estimate is a number,
    the slippage returned is a number and is at least half the spread; when
    the estimate is NaN, [std::max] hands it back and the slippage returned
    is NaN, which is not at least anything. *)
Theorem calculateSlippage_floor_unless_nan
    (m : TransactionCostModel spec_float) (orderSize : spec_float)
    (orderSide : bool) (stats : OrderbookStats spec_float) :
  (spread stats >? zero) = true ->
  if B64.is_nan (priceSlippage m orderSize orderSide stats)
  then calculateSlippage m orderSize orderSide stats = B64.nan
       /\ (spread stats / of_Z 2
           <=? calculateSlippage m orderSize orderSide stats) = false
  else B64.is_nan (calculateSlippage m orderSize orderSide stats) = false
       /\ (spread stats / of_Z 2
           <=? calculateSlippage m orderSize orderSide stats) = true.
Proof.
  intros Hspread. rewrite calculateSlippage_unfold.
  pose proof (half_of_positive_not_nan (spread stats) Hspread) as Hhalf.
  destruct (B64.is_nan (priceSlippage m orderSize orderSide stats)) eqn:Hnan.
  - destruct (priceSlippage m orderSize orderSide stats); try discriminate.
    rewrite std_max_nan_l. split; [reflexivity|].
    cbn [leb binary64]. now destruct (spread stats / of_Z 2).
  - split.
    + now apply std_max_not_nan.
    + now apply std_max_ge_right_binary64.
Qed.
End FloorBinary64.

(** On the book of the scenario the estimate is a number. *)
Lemma calculateSlippage_floor_witness :
  let m : TransactionCostModel spec_float :=
    new_cost_model default_fee_model in
  let stats : OrderbookStats spec_float := scenario_stats in
  ltb zero (spread stats) = true
  /\ if B64.is_nan (priceSlippage m (of_Z 1) true stats)
     then calculateSlippage m (of_Z 1) true stats = B64.nan
          /\ leb (div (spread stats) (of_Z 2))
                 (calculateSlippage m (of_Z 1) true stats) = false
     else B64.is_nan (calculateSlippage m (of_Z 1) true stats) = false
          /\ leb (div (spread stats) (of_Z 2))
                 (calculateSlippage m (of_Z 1) true stats) = true.
Proof.
  intros m stats.
  assert (Hspread : ltb zero (spread stats) = true)
    by (vm_compute; reflexivity).
  split; [exact Hspread|].
  pose proof (calculateSlippage_floor_unless_nan m (of_Z 1) true stats
                Hspread) as Hfloor.
  exact Hfloor.
Defined.

(** C2 as stated fails on statistics the processor produces from the feed.
    After a snapshot with ask and bid 0 and one with ask 3 and bid 1, the
    mid-prices are 0 and 2: the return is [2 / 0], the volatility NaN.  The
    spread is 2, positive; the estimate is NaN and so is the slippage, and
    [1 <= NaN] is false. *)
Lemma calculateSlippage_nan_below_floor :
  let p : OrderbookProcessor spec_float :=
    fst (processOrderbook 0 1 (new_processor default_window)
           (snapshot_of 0 0)) in
  let stats : OrderbookStats spec_float :=
    snd (processOrderbook 2 3 p (snapshot_of 3 1)) in
  let m : TransactionCostModel spec_float :=
    new_cost_model default_fee_model in
  spread stats = of_Z 2
  /\ ltb zero (spread stats) = true
  /\ price_volatility stats = B64.nan
  /\ calculateSlippage m (of_Z 1) true stats = B64.nan
  /\ leb (div (spread stats) (of_Z 2))
         (calculateSlippage m (of_Z 1) true stats) = false
  /\ leb (div (spread stats) (of_Z 2))
         (calculateSlippage m (of_Z 1) true stats) <> true.
Proof. vm_compute. repeat split; discriminate. Qed.

(** ** Fees *)

Section Fees.
Local Open Scope R_scope.

(** [std::clamp] into [0, 1] is idempotent, in any arithmetic in which
    [1 < 0] is false. *)
Lemma std_clamp_idempotent {A} `{Arith A} (v : A) :
  ltb (of_Z 1) zero = false ->
  std_clamp (std_clamp v zero (of_Z 1)) zero (of_Z 1)
  = std_clamp v zero (of_Z 1).
Proof.
  intros H10. unfold std_clamp.
  destruct (ltb v zero) eqn:E0.
  - destruct (ltb zero zero); [reflexivity|]. now rewrite H10.
  - destruct (ltb (of_Z 1) v) eqn:E1.
    + rewrite H10. now destruct (ltb (of_Z 1) (of_Z 1)).
    + now rewrite E0, E1.
Qed.

Lemma calculateFees_clamp_any {A} `{Arith A}
    (m : TransactionCostModel A) (orderSize orderPrice makerProportion : A) :
  ltb (of_Z 1) zero = false ->
  calculateFees m orderSize orderPrice makerProportion
  = calculateFees m orderSize orderPrice
      (std_clamp makerProportion zero (of_Z 1)).
Proof.
  intros H10. unfold calculateFees.
  now rewrite (std_clamp_idempotent makerProportion H10).
Qed.

(** In binary64 the equation holds for every double, NaN and the infinities
    included. *)
Lemma calculateFees_clamp_binary64
    (m : TransactionCostModel spec_float)
    (orderSize orderPrice makerProportion : spec_float) :
  calculateFees m orderSize orderPrice makerProportion
  = calculateFees m orderSize orderPrice
      (std_clamp makerProportion zero (of_Z 1)).
Proof. apply calculateFees_clamp_any. reflexivity. Qed.

Lemma std_clamp_unit_interval (v : R) :
  0 <= std_clamp v zero (of_Z 1) <= 1.
Proof.
  unfold std_clamp. exact_arith.
  case_Rltb v 0; [lra|]. case_Rltb 1 v; lra.
Qed.

Lemma std_clamp_unit_value (v : R) :
  std_clamp v zero (of_Z 1) = Rmax 0 (Rmin v 1).
Proof.
  unfold std_clamp, Rmax, Rmin. exact_arith.
  destruct (Rle_dec v 1);
    [destruct (Rle_dec 0 v) | destruct (Rle_dec 0 1)];
    case_Rltb v 0; try lra; case_Rltb 1 v; lra.
Qed.

(** A NaN proportion passes through [std::clamp] and makes the fee NaN. *)
Lemma calculateFees_nan (m : TransactionCostModel spec_float)
    (orderSize orderPrice : spec_float) :
  calculateFees m orderSize orderPrice B64.nan = B64.nan.
Proof.
  unfold calculateFees.
  replace (std_clamp B64.nan zero (of_Z 1)) with B64.nan by reflexivity.
  cbv zeta. now rewrite sub_nan_r, !mul_nan_r, !mul_nan_l, add_nan_r.
Qed.

(** C9 (amended).  In exact arithmetic [calculateFees] clamps the maker
    proportion [p] into [0, 1], to [max(0, min(p, 1))]: the fee for [p] is
    the fee for the clamped value, namely the notional value
    [orderSize * orderPrice] times the clamped share at the maker rate plus
    the rest at the taker rate; proportion 0 gives the pure taker fee
    [notional * takerFeeRate], proportion 1 the pure maker fee
    [notional * makerFeeRate], and every fee lies between the two.  In
    binary64 the fee for [p] is the fee for [std::clamp(p, 0, 1)] for every
    double, but a NaN proportion stays NaN and gives a NaN fee. *)
Theorem calculateFees_clamps_maker_proportion :
  (forall (m : TransactionCostModel R)
          (orderSize orderPrice makerProportion : R),
      let notional := orderSize * orderPrice in
      let maker := makerFeeRate (feeModel_ m) in
      let taker := takerFeeRate (feeModel_ m) in
      let clamped := Rmax 0 (Rmin makerProportion 1) in
      calculateFees m orderSize orderPrice makerProportion
      = calculateFees m orderSize orderPrice clamped
      /\ calculateFees m orderSize orderPrice makerProportion
         = notional * clamped * maker + notional * (1 - clamped) * taker
      /\ calculateFees m orderSize orderPrice 0 = notional * taker
      /\ calculateFees m orderSize orderPrice 1 = notional * maker
      /\ Rmin (notional * taker) (notional * maker)
         <= calculateFees m orderSize orderPrice makerProportion
         <= Rmax (notional * taker) (notional * maker))
  /\ (forall (m : TransactionCostModel spec_float)
             (orderSize orderPrice makerProportion : spec_float),
         calculateFees m orderSize orderPrice makerProportion
         = calculateFees m orderSize orderPrice
             (std_clamp makerProportion zero (of_Z 1))
         /\ (B64.is_nan makerProportion = true ->
             B64.is_nan (calculateFees m orderSize orderPrice makerProportion)
             = true)).
Proof.
  split.
  - intros m orderSize orderPrice makerProportion notional maker taker clamped.
    assert (Hvalue : forall p : R,
               calculateFees m orderSize orderPrice p
               = notional * Rmax 0 (Rmin p 1) * maker
                 + notional * (1 - Rmax 0 (Rmin p 1)) * taker).
    { intros p. unfold calculateFees. rewrite std_clamp_unit_value.
      exact_arith. reflexivity. }
    assert (Hrange : 0 <= clamped <= 1).
    { subst clamped. unfold Rmax, Rmin.
      destruct (Rle_dec makerProportion 1);
        [destruct (Rle_dec 0 makerProportion) | destruct (Rle_dec 0 1)];
        lra. }
    assert (Hidem : Rmax 0 (Rmin clamped 1) = clamped).
    { rewrite Rmin_left, Rmax_right; lra. }
    assert (H0 : Rmax 0 (Rmin 0 1) = 0).
    { rewrite Rmin_left, Rmax_right; lra. }
    assert (H1 : Rmax 0 (Rmin 1 1) = 1).
    { rewrite Rmin_left, Rmax_right; lra. }
    split; [rewrite (Hvalue makerProportion), (Hvalue clamped), Hidem;
            reflexivity|].
    split; [exact (Hvalue makerProportion)|].
    split; [rewrite (Hvalue 0), H0; ring|].
    split; [rewrite (Hvalue 1), H1; ring|].
    rewrite (Hvalue makerProportion). fold clamped.
    unfold Rmin at 1, Rmax at 1.
    destruct (Rle_dec (notional * taker) (notional * maker)); split; nra.
  - intros m orderSize orderPrice makerProportion. split.
    + apply calculateFees_clamp_any. reflexivity.
    + intros Hnan. destruct makerProportion; try discriminate.
      exact (f_equal B64.is_nan (calculateFees_nan m orderSize orderPrice)).
Qed.
End Fees.

(** C9 as stated fails on a maker proportion that is NaN.  [std::clamp]
    returns it unchanged, the fee is NaN, and NaN is not between the pure
    taker and the pure maker fee.  The proportion predicted for the
    statistics of the snapshots 0/0 and 3/1, whose volatility is NaN, is such
    a value, and [calculateTotalCost] passes it on. *)
Lemma calculateFees_nan_proportion :
  let m : TransactionCostModel spec_float :=
    new_cost_model default_fee_model in
  let p : OrderbookProcessor spec_float :=
    fst (processOrderbook 0 1 (new_processor default_window)
           (snapshot_of 0 0)) in
  let stats : OrderbookStats spec_float :=
    snd (processOrderbook 2 3 p (snapshot_of 3 1)) in
  let predicted :=
    @predictMakerProportion spec_float _ naive_libm m (of_Z 25) true stats in
  let fee := calculateFees m (of_Z 25) (midprice stats) predicted in
  predicted = B64.nan
  /\ std_clamp predicted zero (of_Z 1) = B64.nan
  /\ fee = B64.nan
  /\ snd (fst (@calculateTotalCost spec_float _ naive_libm m
                 (Some default_params) (of_Z 25) true stats)) = fee
  /\ leb (calculateFees m (of_Z 25) (midprice stats) (of_Z 1)) fee = false
  /\ leb fee (calculateFees m (of_Z 25) (midprice stats) (of_Z 0)) = false
  /\ leb fee (calculateFees m (of_Z 25) (midprice stats) (of_Z 0)) <> true.
Proof. vm_compute. repeat split; discriminate. Qed.

(* ================================================================== *)
(** * Properties of the simulator *)

(** ** Fee tiers *)

Section FeeTiers.
Context {A : Type} `{Arith A}.

Definition rates (m : TransactionCostModel A) : A * A :=
  (makerFeeRate (feeModel_ m), takerFeeRate (feeModel_ m)).

(** C10.  [updateParams] with a negative [feeTier] replaces the stored
    parameters and the fee model's tier identifier, and leaves the maker and
    taker rates of the fee model as they were. *)
Theorem updateParams_negative_tier_keeps_rates
    (s : Simulator A) (params : SimulatorParams A) :
  (sp_feeTier params < 0)%Z ->
  params_ (updateParams s params) = params
  /\ option_map (fun m => feeTier (feeModel_ m))
       (transactionCostModel_ (updateParams s params))
     = option_map (fun _ => sp_feeTier params) (transactionCostModel_ s)
  /\ option_map rates (transactionCostModel_ (updateParams s params))
     = option_map rates (transactionCostModel_ s).
Proof.
  intros Hneg. unfold updateParams; cbn [params_ transactionCostModel_].
  split; [reflexivity|].
  destruct (transactionCostModel_ s) as [model|]; cbn [option_map]; [|split; reflexivity].
  destruct (Z.eqb_spec (sp_feeTier params) 0); [lia|].
  destruct (Z.eqb_spec (sp_feeTier params) 1); [lia|].
  destruct (Z.eqb_spec (sp_feeTier params) 2); [lia|].
  destruct (Z.geb_spec (sp_feeTier params) 3); [lia|].
  split; reflexivity.
Qed.

(** The tiers that do assign rates: 0, 1, 2 and every tier from 3 up. *)
Definition tier_rates (tier : Z) : A * A :=
  if (tier =? 0)%Z then (dec 2 4, dec 5 4)
  else if (tier =? 1)%Z then (dec 15 5, dec 4 4)
  else if (tier =? 2)%Z then (dec 1 4, dec 3 4)
  else (dec 5 5, dec 2 4).

Lemma updateParams_tier_rates (s : Simulator A) (params : SimulatorParams A) :
  (0 <= sp_feeTier params)%Z ->
  option_map rates (transactionCostModel_ (updateParams s params))
  = option_map (fun _ => tier_rates (sp_feeTier params))
      (transactionCostModel_ s).
Proof.
  intros Hpos. unfold updateParams, tier_rates; cbn [transactionCostModel_].
  destruct (transactionCostModel_ s) as [model|]; cbn [option_map]; [|reflexivity].
  destruct (Z.eqb_spec (sp_feeTier params) 0); [reflexivity|].
  destruct (Z.eqb_spec (sp_feeTier params) 1); [reflexivity|].
  destruct (Z.eqb_spec (sp_feeTier params) 2); [reflexivity|].
  destruct (Z.geb_spec (sp_feeTier params) 3); [reflexivity|lia].
Qed.
End FeeTiers.

(** The default simulator, tier [-1]. *)
Lemma updateParams_negative_tier_witness :
  let s : Simulator spec_float := new_simulator 0 in
  let params : SimulatorParams spec_float :=
    {| sp_exchange := "OKX"; sp_symbol := "BTC-USDT"; sp_orderType := "market";
       sp_quantity := of_Z 100; sp_volatility := zero; sp_feeTier := -1 |} in
  (sp_feeTier params < 0)%Z
  /\ params_ (updateParams s params) = params
  /\ option_map (fun m => feeTier (feeModel_ m))
       (transactionCostModel_ (updateParams s params))
     = option_map (fun _ => sp_feeTier params) (transactionCostModel_ s)
  /\ option_map rates (transactionCostModel_ (updateParams s params))
     = option_map rates (transactionCostModel_ s).
Proof.
  intros s params.
  split; [reflexivity|].
  apply (updateParams_negative_tier_keeps_rates s params). reflexivity.
Defined.

(** ** Latency of the cost computation *)

Section Latency.
Context {A : Type} `{Arith A} `{LibM A}.

(** [updateSimulation] hands [callback_] an output whose [internalLatency] is
    the default [0.0], and stores that output. *)
Lemma updateSimulation_delivers (s : Simulator A) (stats : OrderbookStats A) :
  exists output,
    delivered (updateSimulation s stats) = output :: delivered s
    /\ latestOutput_ (updateSimulation s stats) = output
    /\ internalLatency output = zero.
Proof.
  unfold updateSimulation; cbn [delivered latestOutput_].
  eexists; split; [reflexivity|]. split; [reflexivity|].
  destruct (transactionCostModel_ s) as [model|]; [|reflexivity].
  destruct (calculateTotalCost _ _ _ _ _) as [[[? ?] ?] ?]. reflexivity.
Qed.

(** C6 (as the code behaves).  While running, [onOrderbookStats] invokes the
    output callback exactly once, with a value whose [internalLatency] is
    [0.0]; the measured latency [endTime - startTime] is written afterwards,
    into the stored latest output only. *)
Theorem onOrderbookStats_callback_without_latency
    (startTime endTime : Z) (s : Simulator A) (stats : OrderbookStats A) :
  isRunning_ s = true ->
  exists output,
    delivered (onOrderbookStats startTime endTime s stats)
    = output :: delivered s
    /\ internalLatency output = zero
    /\ latestOutput_ (onOrderbookStats startTime endTime s stats)
       = set_latency output (of_Z (endTime - startTime)).
Proof.
  intros Hrun. unfold onOrderbookStats. rewrite Hrun; cbn [negb].
  cbn [delivered latestOutput_].
  destruct (updateSimulation_delivers s stats) as (output & Hd & Hl & Hz).
  exists output. rewrite Hd, Hl. auto.
Qed.
End Latency.

Lemma onOrderbookStats_callback_without_latency_witness :
  let s : Simulator spec_float := sim_start (new_simulator 0) in
  isRunning_ s = true
  /\ exists output,
      delivered (@onOrderbookStats _ _ naive_libm 100 350 s scenario_stats)
      = output :: delivered s
      /\ internalLatency output = zero
      /\ latestOutput_ (@onOrderbookStats _ _ naive_libm 100 350 s scenario_stats)
         = set_latency output (of_Z (350 - 100)).
Proof.
  intros s. split; [reflexivity|].
  apply (@onOrderbookStats_callback_without_latency _ _ naive_libm 100 350 s
           scenario_stats).
  reflexivity.
Defined.

(** On the scenario book, with 250 microseconds measured: the value given to
    the callback carries latency 0, the stored one 250. *)
Example callback_latency_scenario :
  let s : Simulator spec_float :=
    @onOrderbookStats _ _ naive_libm 100 350
      (sim_start (new_simulator 0)) scenario_stats in
  map internalLatency (delivered s) = [of_Z 0]
  /\ internalLatency (latestOutput_ s) = of_Z 250.
Proof. vm_compute. split; reflexivity. Qed.

(* ================================================================== *)
(** * Properties of the feed client *)

(** ** Reconnection backoff *)

(** The [k]-th delay of the documented schedule, [k] counted from 1. *)
Definition backoff_delay (k : nat) : Z :=
  Z.min (1000 * 2 ^ (Z.of_nat k - 1)) 60000.

Section Backoff.
Context {A : Type} `{Arith A} `{StrToD A}.

Lemma sleeps_app (out1 out2 : list (effect A)) :
  sleeps (out1 ++ out2) = sleeps out1 ++ sleeps out2.
Proof. apply flat_map_app. Qed.

Lemma processMessage_no_sleep (now : Z) (msg : message) :
  sleeps (processMessage now msg) = [].
Proof.
  unfold processMessage. now destruct (parseOrderbookData now msg).
Qed.

(** Reading messages changes neither the run flag nor the delay, and sleeps
    never. *)
Lemma read_loop_frame (msgs : list arrival) :
  forall c : WebSocketClient,
    shouldRun_ (fst (read_loop c msgs)) = shouldRun_ c
    /\ isConnected_ (fst (read_loop c msgs)) = isConnected_ c
    /\ reconnectDelayMs_ (fst (read_loop c msgs)) = reconnectDelayMs_ c
    /\ sleeps (snd (read_loop c msgs)) = [].
Proof.
  induction msgs as [|msg rest IH]; intros c; [cbn; auto|].
  cbn [read_loop].
  specialize (IH {| shouldRun_ := shouldRun_ c; isConnected_ := isConnected_ c;
                    lastMessageTime_ := read_at msg;
                    reconnectDelayMs_ := reconnectDelayMs_ c |}).
  destruct (read_loop _ rest) as [c' outs]; cbn [fst snd] in *.
  destruct IH as (I1 & I2 & I3 & I4).
  rewrite sleeps_app, processMessage_no_sleep, I4. auto.
Qed.

Lemma connect_frame (c : WebSocketClient) (s : session) :
  ends_by s <> StopRequested ->
  shouldRun_ (fst (connect c s)) = shouldRun_ c
  /\ reconnectDelayMs_ (fst (connect c s)) = reconnectDelayMs_ c
  /\ sleeps (snd (connect c s)) = [].
Proof.
  intros Hend. unfold connect.
  destruct (handshake_ok s); cbn [negb]; [|cbn; auto].
  pose proof (read_loop_frame (inbound s) (set_connected c true)) as F.
  destruct (read_loop _ (inbound s)) as [c' outs]; cbn [fst snd] in F.
  destruct F as (F1 & _ & F3 & F4).
  destruct (ends_by s); [congruence| |]; cbn [fst snd set_connected shouldRun_ reconnectDelayMs_ sleeps flat_map app];
    fold (sleeps outs); fold (sleeps (outs ++ [Cerr None]));
    rewrite ?sleeps_app, ?F4; auto.
Qed.

Lemma wrap32_small (z : Z) :
  (- 2 ^ 31 <= z < 2 ^ 31)%Z -> wrap32 z = z.
Proof.
  intros Hz. unfold wrap32. rewrite Z.mod_small; lia.
Qed.

Lemma backoff_delay_bounds (k : nat) :
  (1 <= k)%nat -> (0 < backoff_delay k <= 60000)%Z.
Proof.
  intros Hk. unfold backoff_delay.
  assert (0 < 2 ^ (Z.of_nat k - 1))%Z by (apply Z.pow_pos_nonneg; lia).
  lia.
Qed.

Lemma backoff_delay_next (k : nat) :
  (1 <= k)%nat ->
  (if (kReconnectMaxDelayMs <? wrap32 (backoff_delay k * 2))%Z
   then kReconnectMaxDelayMs else wrap32 (backoff_delay k * 2))
  = backoff_delay (S k).
Proof.
  intros Hk. pose proof (backoff_delay_bounds k Hk) as B.
  rewrite wrap32_small by lia.
  unfold backoff_delay in *. unfold kReconnectMaxDelayMs.
  replace (Z.of_nat (S k) - 1)%Z with (Z.succ (Z.of_nat k - 1)) by lia.
  rewrite Z.pow_succ_r by lia.
  destruct (Z.ltb_spec 60000 (Z.min (1000 * 2 ^ (Z.of_nat k - 1)) 60000 * 2)); lia.
Qed.

Lemma runIoService_sleeps (sessions : list session) :
  forall (c : WebSocketClient) (k : nat),
    (1 <= k)%nat ->
    shouldRun_ c = true ->
    reconnectDelayMs_ c = backoff_delay k ->
    Forall (fun s => ends_by s <> StopRequested) sessions ->
    sleeps (snd (runIoService c sessions))
    = map backoff_delay (seq k (length sessions)).
Proof.
  induction sessions as [|s rest IH]; intros c k Hk Hrun Hdelay Hall;
    [reflexivity|].
  inversion Hall as [|? ? Hs Hrest]; subst.
  cbn [runIoService]. rewrite Hrun; cbn [negb].
  destruct (connect_frame c s Hs) as (C1 & C2 & C3).
  destruct (connect c s) as [c1 out1]; cbn [fst snd] in *.
  rewrite C1, Hrun. unfold reconnect.
  specialize (IH {| shouldRun_ := shouldRun_ c1; isConnected_ := false;
                    lastMessageTime_ := lastMessageTime_ c1;
                    reconnectDelayMs_ :=
                      if (kReconnectMaxDelayMs <? wrap32 (reconnectDelayMs_ c1 * 2))%Z
                      then kReconnectMaxDelayMs
                      else wrap32 (reconnectDelayMs_ c1 * 2) |} (S k)).
  destruct (runIoService _ rest) as [c3 out3]; cbn [fst snd] in *.
  rewrite !sleeps_app, C3, IH; cbn [shouldRun_ reconnectDelayMs_]; try lia; auto.
  - cbn. now rewrite C2, Hdelay.
  - congruence.
  - rewrite C2, Hdelay. now apply backoff_delay_next.
Qed.

(** C5.  After a successful [start()] (the client was not running), whatever
    its earlier state and whatever messages the sessions deliver, the [k]-th
    delay slept by [reconnect()] is [min(1000 * 2^(k-1), 60000)] ms. *)
Theorem backoff_sequence_after_start (c : WebSocketClient)
    (sessions : list session) :
  shouldRun_ c = false ->
  Forall (fun s => ends_by s <> StopRequested) sessions ->
  sleeps (snd (runIoService (start c) sessions))
  = map backoff_delay (seq 1 (length sessions)).
Proof.
  intros Hstopped Hall.
  apply runIoService_sleeps; trivial; unfold start; rewrite Hstopped;
    reflexivity.
Qed.

(** A [start()] on a running client is a no-op: it does not reset the delay. *)
Lemma start_while_running (c : WebSocketClient) :
  shouldRun_ c = true -> start c = c.
Proof. intros Hrun. unfold start. now rewrite Hrun. Qed.

(** [stop()] then [start()] resets the delay, whatever it had grown to. *)
Lemma restart_resets_delay (c : WebSocketClient) :
  reconnectDelayMs_ (start (stop c)) = kReconnectInitialDelayMs.
Proof.
  unfold start, stop. destruct (shouldRun_ c) eqn:E; cbn [negb shouldRun_];
    rewrite ?E; reflexivity.
Qed.
End Backoff.

(** Eight consecutive failures, the third session delivering a message:
    1, 2, 4, 8, 16, 32 seconds, then the cap. *)
Definition failing_sessions : list session :=
  [ {| handshake_ok := false; inbound := []; ends_by := ReadFailed |};
    {| handshake_ok := false; inbound := []; ends_by := ReadFailed |};
    {| handshake_ok := true;
       inbound := [{| read_at := 5; parse_at := 6; payload := NotJson "ping" |}];
       ends_by := PeerClosed |};
    {| handshake_ok := false; inbound := []; ends_by := ReadFailed |};
    {| handshake_ok := false; inbound := []; ends_by := ReadFailed |};
    {| handshake_ok := false; inbound := []; ends_by := ReadFailed |};
    {| handshake_ok := false; inbound := []; ends_by := ReadFailed |};
    {| handshake_ok := true; inbound := []; ends_by := ReadFailed |} ].

Lemma backoff_sequence_witness :
  shouldRun_ (new_client 0) = false
  /\ Forall (fun s => ends_by s <> StopRequested) failing_sessions
  /\ sleeps (snd (@runIoService spec_float decimal_stod
                    (start (new_client 0)) failing_sessions))
     = [1000; 2000; 4000; 8000; 16000; 32000; 60000; 60000]%Z.
Proof.
  assert (Hall : Forall (fun s => ends_by s <> StopRequested) failing_sessions).
  { repeat constructor; discriminate. }
  split; [reflexivity|]. split; [exact Hall|].
  exact (@backoff_sequence_after_start spec_float decimal_stod
           (new_client 0) failing_sessions eq_refl Hall).
Defined.

(** ** Rejected messages *)

Section Rejection.
Context {A : Type} `{Arith A} `{StrToD A}.

(** A document lacks a required field. *)
Definition missing_required (data : json) : bool :=
  negb (Json.contains data "timestamp")
  || negb (Json.contains data "exchange")
  || negb (Json.contains data "symbol")
  || negb (Json.contains data "asks")
  || negb (Json.contains data "bids").

(** A price level the parser converts (an array of at least two entries, the
    first two being strings) one of whose two numbers [std::stod] rejects. *)
Definition unconvertible_level (entry : json) : Prop :=
  exists (price size : string) (more : list json),
    entry = Jarray (Jstring price :: Jstring size :: more)
    /\ ((exists e, stod price = inl e) \/ (exists e, stod size = inl e)).

(** A document with such a level on its ask or bid side. *)
Definition unconvertible_number (data : json) : Prop :=
  exists (members : list (string * json)) (key : string) (side : json),
    data = Jobject members
    /\ (key = "asks"%string \/ key = "bids"%string)
    /\ Json.find key members = Some side
    /\ Exists unconvertible_level (Json.elements side).

Lemma parse_levels_rejects (entries : list json) :
  Exists unconvertible_level entries ->
  forall levels : PriceLevels A, exists e, parse_levels entries levels = inl e.
Proof.
  induction 1 as [entry rest Hbad | entry rest _ IH]; intros levels.
  - destruct Hbad as (price & size & more & -> & Hstod).
    cbn [parse_levels Json.size length Nat.leb Json.at_index nth bind
         Json.get_string].
    destruct Hstod as [[e He] | [e He]].
    + rewrite He. cbn [bind]. now exists e.
    + destruct (stod price) as [e'|p]; cbn [bind]; [now exists e'|].
      rewrite He. cbn [bind]. now exists e.
  - cbn [parse_levels].
    destruct (2 <=? Json.size entry)%nat; [|apply IH].
    repeat match goal with
           | |- exists e, bind ?c _ = inl e =>
             destruct c as [e'|?]; cbn [bind]; [now exists e'|]
           end.
    apply IH.
Qed.

(** One message, one effect: the callback, or an error line. *)
Lemma processMessage_outcome (now : Z) (msg : message) :
  (exists data, parseOrderbookData now msg = inr data
                /\ processMessage now msg = [Callback data])
  \/ (exists e, parseOrderbookData now msg = inl e
                /\ processMessage now msg = [Cerr (Some e)]).
Proof.
  unfold processMessage.
  destruct (parseOrderbookData now msg) as [e|data]; [right|left]; eauto.
Qed.

Lemma parseOrderbookData_rejects (now : Z) (data : json) :
  missing_required data = true \/ unconvertible_number data ->
  exists e, parseOrderbookData now (Document data) = inl e.
Proof.
  intros Hbad. unfold parseOrderbookData.
  fold (missing_required data).
  destruct (missing_required data) eqn:Hmissing; [now exists runtime_error|].
  destruct Hbad as [Hm | (members & key & side & -> & Hkey & Hfind & Hlevel)];
    [discriminate|].
  pose proof (parse_levels_rejects (Json.elements side) Hlevel []) as [e He].
  cbn [Json.at_key].
  repeat match goal with
         | |- exists e, bind (inr _) _ = inl e => cbn [bind]
         | |- exists e, bind (match Json.find ?k members with _ => _ end) _ = inl e =>
           let E := fresh "E" in
           destruct (Json.find k members) eqn:E; cbn [bind]
         | |- exists e, bind (Json.get_string ?j) _ = inl e =>
           destruct (Json.get_string j) as [e'|?]; cbn [bind]; [now exists e'|]
         | |- exists e, bind (parse_levels ?l []) _ = inl e =>
           let E := fresh "P" in
           destruct (parse_levels l []) as [e'|?] eqn:E; cbn [bind];
             [now exists e'|]
         end;
    destruct Hkey as [-> | ->]; congruence.
Qed.
End Rejection.

Section ReadLoop.
Context {A : Type} `{Arith A} `{StrToD A}.

Lemma callbacks_app (out1 out2 : list (effect A)) :
  callbacks (out1 ++ out2) = callbacks out1 ++ callbacks out2.
Proof. apply flat_map_app. Qed.

(** What the read loop does to the outside is what [processMessage] does for
    each message in turn, whatever the client's state. *)
Lemma read_loop_effects (msgs : list arrival) :
  forall c : WebSocketClient,
    snd (read_loop c msgs)
    = flat_map (fun m => processMessage (parse_at m) (payload m)) msgs.
Proof.
  induction msgs as [|msg rest IH]; intros c; [reflexivity|].
  cbn [read_loop flat_map].
  specialize (IH {| shouldRun_ := shouldRun_ c; isConnected_ := isConnected_ c;
                    lastMessageTime_ := read_at msg;
                    reconnectDelayMs_ := reconnectDelayMs_ c |}).
  destruct (read_loop _ rest) as [c' outs]; cbn [snd] in *. now rewrite IH.
Qed.

(** C7 (amended).  A message that lacks one of [timestamp], [exchange],
    [symbol], [asks], [bids], or in which a price level of at least two
    entries has a first or second string that [std::stod] cannot convert, is
    reported on the error stream and dropped: [processMessage] does not
    invoke the callback; and the read loop goes on, connected and running,
    delivering exactly what it delivers without that message. *)
Theorem rejected_message_is_dropped (now : Z) (data : json) :
  missing_required data = true \/ unconvertible_number data ->
  (exists e, processMessage now (Document data) = [Cerr (Some e)])
  /\ callbacks (processMessage now (Document data)) = []
  /\ forall (c : WebSocketClient) (before after : list arrival) (read : Z),
       let msg := {| read_at := read; parse_at := now;
                     payload := Document data |} in
       shouldRun_ (fst (read_loop c (before ++ msg :: after))) = shouldRun_ c
       /\ isConnected_ (fst (read_loop c (before ++ msg :: after)))
          = isConnected_ c
       /\ callbacks (snd (read_loop c (before ++ msg :: after)))
          = callbacks (snd (read_loop c (before ++ after))).
Proof.
  intros Hbad.
  destruct (parseOrderbookData_rejects now data Hbad) as [e He].
  assert (Hout : processMessage now (Document data) = [Cerr (Some e)])
    by (unfold processMessage; now rewrite He).
  split; [now exists e|]. split; [now rewrite Hout|].
  intros c before after read msg.
  destruct (read_loop_frame (before ++ msg :: after) c) as (F1 & F2 & _ & _).
  repeat split; trivial.
  rewrite !read_loop_effects, !flat_map_app, !callbacks_app.
  cbn [flat_map parse_at payload msg]. now rewrite callbacks_app, Hout.
Qed.
End ReadLoop.

(** A message without [bids]. *)
Definition no_bids : json :=
  Jobject [("timestamp", Jstring "2025-05-04T10:39:13Z");
           ("exchange", Jstring "OKX");
           ("symbol", Jstring "BTC-USDT-SWAP");
           ("asks", Jarray [Jarray [Jstring "95445.5"; Jstring "9.06"]])]%string.

Lemma rejected_message_witness :
  (missing_required no_bids = true
   \/ @unconvertible_number spec_float decimal_stod no_bids)
  /\ (exists e,
        @processMessage spec_float decimal_stod 7 (Document no_bids)
        = [Cerr (Some e)])
  /\ callbacks (@processMessage spec_float decimal_stod 7 (Document no_bids))
     = []
  /\ forall (c : WebSocketClient) (before after : list arrival) (read : Z),
       let msg := {| read_at := read; parse_at := 7;
                     payload := Document no_bids |} in
       shouldRun_ (fst (@read_loop spec_float decimal_stod c
                          (before ++ msg :: after)))
       = shouldRun_ c
       /\ isConnected_ (fst (@read_loop spec_float decimal_stod c
                               (before ++ msg :: after)))
          = isConnected_ c
       /\ callbacks (snd (@read_loop spec_float decimal_stod c
                            (before ++ msg :: after)))
          = callbacks (snd (@read_loop spec_float decimal_stod c
                              (before ++ after))).
Proof.
  assert (Hbad : missing_required no_bids = true
                 \/ @unconvertible_number spec_float decimal_stod no_bids)
    by (left; reflexivity).
  split; [exact Hbad|].
  exact (@rejected_message_is_dropped spec_float decimal_stod 7 no_bids Hbad).
Defined.

(** Messages with all five fields, a good bid level and the given ask
    levels. *)
Definition book_message (ask_levels : list json) : json :=
  Jobject [("timestamp", Jstring "2025-05-04T10:39:13Z");
           ("exchange", Jstring "OKX");
           ("symbol", Jstring "BTC-USDT-SWAP");
           ("asks", Jarray ask_levels);
           ("bids", Jarray [Jarray [Jstring "95445.4"; Jstring "1104.23"]])]%string.

Definition trailing_garbage : json :=
  book_message [Jarray [Jstring "95445.5x"; Jstring "9.06"]].

Definition short_level : json :=
  book_message [Jarray [Jstring "abc"]].

(** C7 as stated fails on malformed numeric strings that [std::stod] still
    converts or never sees.  In [trailing_garbage] the ask price is
    "95445.5x": [std::stod] converts the leading "95445.5" and ignores the
    rest.  In [short_level] the only ask level has a single entry, "abc": the
    parser skips levels of fewer than two entries.  Both messages reach the
    callback. *)
Lemma malformed_numbers_are_delivered :
  @processMessage spec_float decimal_stod 7 (Document trailing_garbage)
  = [Callback
       {| timestamp := "2025-05-04T10:39:13Z"; exchange := "OKX";
          symbol := "BTC-USDT-SWAP";
          asks := [(dec 954455 1, dec 906 2)];
          bids := [(dec 954454 1, dec 110423 2)];
          received_time := 7 |}]
  /\ @processMessage spec_float decimal_stod 7 (Document short_level)
     = [Callback
          {| timestamp := "2025-05-04T10:39:13Z"; exchange := "OKX";
             symbol := "BTC-USDT-SWAP";
             asks := [];
             bids := [(dec 954454 1, dec 110423 2)];
             received_time := 7 |}].
Proof. vm_compute. split; reflexivity. Qed.

(* ================================================================== *)
(** * Accessors, the health check and the callback chain *)

(** [OrderbookProcessor::getLatestStats()] and [getAverageLatency()]. *)
Definition getLatestStats {A : Type} (p : OrderbookProcessor A)
  : OrderbookStats A :=
  latestStats_ p.

Definition getAverageLatency {A : Type} `{Arith A} (p : OrderbookProcessor A)
  : A :=
  let updates := processedUpdates_ p in
  if (updates =? 0)%Z then zero
  else (of_Z (totalProcessingTime_ p) / of_Z updates)%D.

(** [MarketImpactModel::setParameters] and [getParameters]: the model is its
    parameters. *)
Definition setParameters {A : Type} (model params : AlmgrenChrissParams A)
  : AlmgrenChrissParams A :=
  params.

Definition getParameters {A : Type} (model : AlmgrenChrissParams A)
  : AlmgrenChrissParams A :=
  model.

(** [Simulator::getParams()], [getLatestOutput()] and [isRunning()]. *)
Definition getParams {A : Type} (s : Simulator A) : SimulatorParams A :=
  params_ s.

Definition getLatestOutput {A : Type} (s : Simulator A) : SimulatorOutput A :=
  latestOutput_ s.

Definition isRunning {A : Type} (s : Simulator A) : bool := isRunning_ s.

(** [WebSocketClient::isConnected()] and [isHealthy(maxIdleSeconds)], [now]
    being the clock reading taken inside; readings are in microseconds and
    [duration_cast<seconds>] truncates towards zero. *)
Definition isConnected (c : WebSocketClient) : bool := isConnected_ c.

Definition isHealthy (c : WebSocketClient) (now maxIdleSeconds : Z) : bool :=
  if negb (isConnected_ c) then false
  else
    let idleTime := Z.quot (now - lastMessageTime_ c) 1000000 in
    (idleTime <? maxIdleSeconds)%Z.

(** The snapshots a feed delivers to the simulator's callback chain, one
    [on_orderbook_data] each; [clock k] gives the readings of call [k]. *)
Fixpoint feed_simulator {A : Type} `{Arith A} `{LibM A}
    (clock : nat -> readings) (k : nat) (s : Simulator A)
    (feed : list (OrderbookData A)) : Simulator A :=
  match feed with
  | [] => s
  | data :: feed' =>
    feed_simulator clock (S k) (on_orderbook_data (clock k) s data) feed'
  end.

(* ================================================================== *)
(** * Further properties of the order-book statistics *)

Section VWAPRange.
Local Open Scope R_scope.

Lemma weighted_sum_bounds (lo hi : R) (levels : PriceLevels R) :
  Forall (fun level => 0 < snd level /\ lo <= fst level <= hi) levels ->
  0 <= Rsum (map snd levels)
  /\ lo * Rsum (map snd levels)
     <= Rsum (map (fun level => fst level * snd level) levels)
     <= hi * Rsum (map snd levels)
  /\ (levels <> [] -> 0 < Rsum (map snd levels)).
Proof.
  unfold Rsum.
  induction 1 as [|[price size] levels [Hs Hp] _ (IH0 & IH1 & _)];
    cbn [map fold_right fst snd] in *.
  - repeat split; try lra. intros Hne. now elim Hne.
  - repeat split; try nra; intros _; lra.
Qed.

(** X1.  Exact arithmetic.  When the levels read by [calculateVWAP] all have
    a positive size, the result lies between any lower and upper bound of
    their prices: between the lowest and the highest price used. *)
Theorem calculateVWAP_within_price_range
    (levels : PriceLevels R) (maxLevels : nat) (lo hi : R) :
  (0 < maxLevels)%nat ->
  levels <> [] ->
  Forall (fun level => 0 < snd level /\ lo <= fst level <= hi)
    (firstn maxLevels levels) ->
  lo <= calculateVWAP levels maxLevels <= hi.
Proof.
  intros HK Hne Hall. rewrite calculateVWAP_exact by exact HK.
  destruct (weighted_sum_bounds lo hi _ Hall) as (_ & Hbounds & Hpos).
  assert (Hused : firstn maxLevels levels <> []).
  { destruct levels; [congruence|]. destruct maxLevels; [lia|discriminate]. }
  specialize (Hpos Hused).
  set (total := Rsum (map snd (firstn maxLevels levels))) in *.
  set (weighted := Rsum (map (fun level => fst level * snd level)
                           (firstn maxLevels levels))) in *.
  replace (Rltb 0 total) with true by (symmetry; now apply Rltb_true).
  split.
  - apply Rmult_le_reg_r with total; [exact Hpos|].
    unfold Rdiv. rewrite Rmult_assoc, Rinv_l by lra. lra.
  - apply Rmult_le_reg_r with total; [exact Hpos|].
    unfold Rdiv. rewrite Rmult_assoc, Rinv_l by lra. lra.
Qed.

Lemma calculateVWAP_within_price_range_witness :
  let levels : PriceLevels R := [(100, 2); (101, 3); (103, 1)] in
  (0 < 10)%nat
  /\ levels <> []
  /\ Forall (fun level => 0 < snd level /\ 100 <= fst level <= 103)
       (firstn 10 levels)
  /\ 100 <= calculateVWAP levels 10 <= 103.
Proof.
  intros levels.
  assert (Hall : Forall (fun level => 0 < snd level /\ 100 <= fst level <= 103)
                   (firstn 10 levels))
    by (repeat constructor; cbn; lra).
  assert (Hne : levels <> []) by discriminate.
  split; [lia|]. split; [exact Hne|]. split; [exact Hall|].
  exact (calculateVWAP_within_price_range levels 10 100 103
           (Nat.lt_0_succ 9) Hne Hall).
Defined.
End VWAPRange.

Section VolatilityFacts.
Local Open Scope R_scope.

Lemma returns_after_constant (price : R) (prices : list R) :
  price <> 0 ->
  Forall (fun p => p = price) prices ->
  Forall (fun r => r = 0) (returns_after price prices).
Proof.
  intros Hprice. induction 1 as [|p prices -> _ IH]; cbn [returns_after].
  - constructor.
  - constructor; [|exact IH]. exact_arith. field. exact Hprice.
Qed.

Lemma Rsum_zeros (f : R -> R) (xs : list R) :
  Forall (fun x => f x = 0) xs -> Rsum (map f xs) = 0.
Proof.
  unfold Rsum. induction 1 as [|x xs Hx _ IH]; cbn [map fold_right]; lra.
Qed.

(** X2.  Exact arithmetic: the volatility is never negative, whatever the
    history holds. *)
Theorem calculateVolatility_nonneg (history : list (OrderbookData R)) :
  0 <= calculateVolatility history.
Proof.
  rewrite calculateVolatility_unfold.
  destruct (length (valid_midprices history) <? 2)%nat.
  - exact_arith. lra.
  - unfold population_std. exact_arith. apply sqrt_pos.
Qed.

(** X3.  Exact arithmetic.  The volatility is 0 when the valid snapshots of
    the history all have the same non-zero mid-price. *)
Theorem calculateVolatility_constant_midprice
    (history : list (OrderbookData R)) (price : R) :
  price <> 0 ->
  Forall (fun p => p = price) (valid_midprices history) ->
  calculateVolatility history = 0.
Proof.
  intros Hprice Hall.
  rewrite calculateVolatility_unfold.
  destruct (length (valid_midprices history) <? 2)%nat; [reflexivity|].
  assert (Hzero : Forall (fun r => r = 0)
                    (simple_returns (valid_midprices history))).
  { destruct (valid_midprices history) as [|first rest]; [constructor|].
    inversion Hall; subst. now apply returns_after_constant. }
  set (returns := simple_returns (valid_midprices history)) in *.
  unfold population_std. rewrite squared_deviations_exact.
  assert (Hsum : Rsum returns = 0).
  { rewrite <- (map_id returns). apply Rsum_zeros. exact Hzero. }
  rewrite Hsum.
  rewrite (Rsum_zeros (fun x => (x - 0 / INR (length returns)) ^ 2)).
  - exact_arith. unfold Rdiv. rewrite Rmult_0_l. apply sqrt_0.
  - eapply Forall_impl; [|exact Hzero]. cbn beta. intros r ->.
    unfold Rdiv. rewrite Rmult_0_l. ring.
Qed.

Lemma calculateVolatility_constant_midprice_witness :
  let history : list (OrderbookData R) :=
    [snapshot_of 5 3; one_sided 9; snapshot_of 5 3; snapshot_of 5 3] in
  (4 : R) <> 0
  /\ Forall (fun p => p = 4) (valid_midprices history)
  /\ calculateVolatility history = 0.
Proof.
  intros history.
  assert (Hprice : (4 : R) <> 0) by lra.
  assert (Hall : Forall (fun p => p = 4) (valid_midprices history)).
  { unfold history, valid_midprices, snapshot_of, one_sided.
    cbn [filter valid_book asks bids map]. unfold book_midprice.
    cbn [asks bids nth fst]. exact_arith.
    repeat (apply Forall_cons; [lra|]). apply Forall_nil. }
  split; [exact Hprice|]. split; [exact Hall|].
  exact (calculateVolatility_constant_midprice history 4 Hprice Hall).
Defined.
End VolatilityFacts.

Section ProcessorEdges.
Context {A : Type} `{Arith A}.

Lemma evict_length (window : nat) (history : list (OrderbookData A)) :
  length (evict window history) = Nat.min (length history) window.
Proof. rewrite evict_skipn, length_skipn. lia. Qed.

(** X4.  With a history window of 0 or 1 the volatility of every statistics
    value is 0, in any arithmetic: the deque never holds the two snapshots a
    return needs. *)
Theorem small_window_volatility_is_zero (startTime endTime : Z)
    (p : OrderbookProcessor A) (data : OrderbookData A) :
  (historyWindowSize_ p <= 1)%nat ->
  price_volatility (snd (processOrderbook startTime endTime p data)) = zero.
Proof.
  intros Hwindow. unfold processOrderbook, calculateStats.
  cbn [snd price_volatility].
  destruct (asks data) as [|a0 arest], (bids data) as [|b0 brest];
    try reflexivity.
  cbn [price_volatility updateHistory orderbookHistory_ historyWindowSize_].
  unfold calculateVolatility.
  rewrite evict_length.
  destruct (Nat.ltb_spec
              (Nat.min (length (orderbookHistory_ p ++ [data]))
                 (historyWindowSize_ p)) 2); [reflexivity|lia].
Qed.

(** X5.  A snapshot with an empty side gets the default statistics, all
    zero, with only the processing latency filled in; it is still appended to
    the history, where it is the newest entry whenever the window is not 0. *)
Theorem empty_side_gives_default_stats (startTime endTime : Z)
    (p : OrderbookProcessor A) (data : OrderbookData A) :
  valid_book data = false ->
  (1 <= historyWindowSize_ p)%nat ->
  snd (processOrderbook startTime endTime p data)
  = Build_OrderbookStats zero zero zero zero zero zero zero zero zero zero
      (endTime - startTime)
  /\ getLatestStats (fst (processOrderbook startTime endTime p data))
     = snd (processOrderbook startTime endTime p data)
  /\ exists older,
       orderbookHistory_ (fst (processOrderbook startTime endTime p data))
       = older ++ [data].
Proof.
  intros Hempty Hwindow. unfold processOrderbook, calculateStats, getLatestStats.
  cbn [fst snd latestStats_ orderbookHistory_].
  split; [|split; [reflexivity|]].
  - unfold valid_book in Hempty.
    destruct (asks data) as [|a0 arest], (bids data) as [|b0 brest];
      try discriminate; reflexivity.
  - cbn [updateHistory orderbookHistory_ historyWindowSize_].
    rewrite evict_skipn, skipn_app, length_app. cbn [length].
    replace (length (orderbookHistory_ p) + 1 - historyWindowSize_ p
             - length (orderbookHistory_ p))%nat with 0%nat by lia.
    cbn [skipn]. eauto.
Qed.
End ProcessorEdges.

Lemma small_window_volatility_witness :
  let p : OrderbookProcessor spec_float :=
    fst (processOrderbook 0 1 (new_processor 1) (snapshot_of 3 1)) in
  (historyWindowSize_ p <= 1)%nat
  /\ price_volatility (snd (processOrderbook 2 3 p (snapshot_of 5 3))) = zero.
Proof.
  intros p. split; [apply Nat.le_refl|].
  exact (small_window_volatility_is_zero 2 3 p (snapshot_of 5 3)
           (Nat.le_refl 1)).
Defined.

Lemma empty_side_witness :
  let p : OrderbookProcessor spec_float :=
    fst (processOrderbook 0 1 (new_processor default_window) (snapshot_of 3 1)) in
  valid_book (one_sided 9 : OrderbookData spec_float) = false
  /\ (1 <= historyWindowSize_ p)%nat
  /\ snd (processOrderbook 2 7 p (one_sided 9))
     = Build_OrderbookStats zero zero zero zero zero zero zero zero zero zero
         (7 - 2)
  /\ getLatestStats (fst (processOrderbook 2 7 p (one_sided 9)))
     = snd (processOrderbook 2 7 p (one_sided 9))
  /\ exists older,
       orderbookHistory_ (fst (processOrderbook 2 7 p (one_sided 9)))
       = older ++ [one_sided 9].
Proof.
  intros p.
  assert (Hwindow : (1 <= historyWindowSize_ p)%nat)
    by (change (1 <= 100)%nat; lia).
  split; [reflexivity|]. split; [exact Hwindow|].
  exact (empty_side_gives_default_stats 2 7 p (one_sided 9) eq_refl Hwindow).
Defined.

(** The latencies measured by the calls [k], ..., [k + n - 1]. *)
Fixpoint latency_sum (clock : nat -> Z * Z) (k n : nat) : Z :=
  match n with
  | O => 0
  | S n' => (snd (clock k) - fst (clock k)) + latency_sum clock (S k) n'
  end.

Section Counters.
Context {A : Type} `{Arith A}.

Lemma wrap64_add_l (a b : Z) : wrap64 (wrap64 a + b) = wrap64 (a + b).
Proof. unfold wrap64. apply Zplus_mod_idemp_l. Qed.

Lemma processAll_counters (clock : nat -> Z * Z)
    (feed : list (OrderbookData A)) :
  forall (k : nat) (p : OrderbookProcessor A) (updates total : Z),
    processedUpdates_ p = wrap64 updates ->
    totalProcessingTime_ p = wrap64 total ->
    processedUpdates_ (processAll clock k p feed)
    = wrap64 (updates + Z.of_nat (length feed))
    /\ totalProcessingTime_ (processAll clock k p feed)
       = wrap64 (total + latency_sum clock k (length feed)).
Proof.
  induction feed as [|data feed IH]; intros k p updates total Hu Ht.
  - cbn [processAll length latency_sum Z.of_nat]. now rewrite !Z.add_0_r.
  - cbn [processAll length latency_sum].
    destruct (IH (S k)
                (fst (processOrderbook (fst (clock k)) (snd (clock k)) p data))
                (updates + 1)%Z
                (total + (snd (clock k) - fst (clock k)))%Z) as [IHu IHt].
    + cbn. now rewrite Hu, wrap64_add_l.
    + cbn. now rewrite Ht, wrap64_add_l.
    + rewrite IHu, IHt. split; f_equal; lia.
Qed.

(** X6.  The performance counters are never reset and count modulo 2^64:
    after [n] updates on a new processor, [processedUpdates_] is
    [n mod 2^64] and [totalProcessingTime_] is the sum of the [n] measured
    latencies modulo 2^64, whatever the window and the snapshots. *)
Theorem counters_accumulate (clock : nat -> Z * Z) (window : nat)
    (feed : list (OrderbookData A)) :
  processedUpdates_ (processAll clock 0 (new_processor window) feed)
  = (Z.of_nat (length feed) mod 2 ^ 64)%Z
  /\ totalProcessingTime_ (processAll clock 0 (new_processor window) feed)
     = (latency_sum clock 0 (length feed) mod 2 ^ 64)%Z.
Proof.
  destruct (processAll_counters clock feed 0 (new_processor window) 0 0
              eq_refl eq_refl) as [Hu Ht].
  rewrite Hu, Ht. split; reflexivity.
Qed.
End Counters.

Section AverageLatency.
Local Open Scope R_scope.

(** X7.  Exact arithmetic.  [getAverageLatency] is 0 before the first update;
    after [n >= 1] updates whose count and total latency have not wrapped it
    is the mean of the measured latencies. *)
Theorem getAverageLatency_is_mean (clock : nat -> Z * Z) (window : nat)
    (feed : list (OrderbookData R)) :
  feed <> [] ->
  (Z.of_nat (length feed) < 2 ^ 64)%Z ->
  (0 <= latency_sum clock 0 (length feed) < 2 ^ 64)%Z ->
  getAverageLatency (new_processor window : OrderbookProcessor R) = 0
  /\ getAverageLatency (processAll clock 0 (new_processor window) feed)
     = IZR (latency_sum clock 0 (length feed)) / INR (length feed).
Proof.
  intros Hne Hcount Htotal. split; [reflexivity|].
  unfold getAverageLatency.
  destruct (processAll_counters clock feed 0 (new_processor window) 0 0
              eq_refl eq_refl) as [Hu Ht].
  rewrite Hu, Ht. unfold wrap64. rewrite !Z.add_0_l, !Z.mod_small by lia.
  destruct (Z.eqb_spec (Z.of_nat (length feed)) 0) as [Hz|_].
  - destruct feed; [congruence|cbn in Hz; lia].
  - exact_arith. now rewrite <- INR_IZR_INZ.
Qed.

Lemma getAverageLatency_is_mean_witness :
  let clock (k : nat) : Z * Z := (Z.of_nat k * 10, Z.of_nat k * 10 + 4)%Z in
  let feed : list (OrderbookData R) := [snapshot_of 5 3; snapshot_of 6 4] in
  feed <> []
  /\ (Z.of_nat (length feed) < 2 ^ 64)%Z
  /\ (0 <= latency_sum clock 0 (length feed) < 2 ^ 64)%Z
  /\ getAverageLatency (new_processor 100 : OrderbookProcessor R) = 0
  /\ getAverageLatency (processAll clock 0 (new_processor 100) feed)
     = IZR (latency_sum clock 0 (length feed)) / INR (length feed).
Proof.
  intros clock feed.
  assert (Hne : feed <> []) by discriminate.
  assert (Hcount : (Z.of_nat (length feed) < 2 ^ 64)%Z) by (cbn; lia).
  assert (Htotal : (0 <= latency_sum clock 0 (length feed) < 2 ^ 64)%Z)
    by (cbn; lia).
  split; [exact Hne|]. split; [exact Hcount|]. split; [exact Htotal|].
  exact (getAverageLatency_is_mean clock 100 feed Hne Hcount Htotal).
Defined.
End AverageLatency.

(* ================================================================== *)
(** * Further properties of the market-impact model *)

Lemma vec_set_length {T : Type} (v : list T) :
  forall (i : nat) (x : T), length (vec_set v i x) = length v.
Proof.
  induction v as [|y v IH]; intros i x; [reflexivity|].
  destruct i; cbn; [reflexivity|now rewrite IH].
Qed.

Lemma back_update_length {T : Type} (f : T -> T) (v : list T) :
  length (back_update f v) = length v.
Proof.
  induction v as [|y v IH]; [reflexivity|].
  destruct v as [|z v]; [reflexivity|].
  change (back_update f (y :: z :: v)) with (y :: back_update f (z :: v)).
  cbn [length] in *. now rewrite IH.
Qed.

(** A property of the loop state kept by every iteration holds at the end. *)
Lemma for_range_invariant {S : Type} (P : S -> Prop)
    (body : nat -> S -> S) :
  (forall i s, P s -> P (body i s)) ->
  forall (n lo : nat) (s : S), P s -> P (for_range lo n body s).
Proof.
  intros Hbody. induction n as [|n IH]; intros lo s Hs; [exact Hs|].
  cbn [for_range]. apply IH, Hbody, Hs.
Qed.

Section ScheduleShape.
Context {A : Type} `{Arith A} `{LibM A}.
Local Open Scope dbl_scope.

(** X8.  In any arithmetic the schedule has exactly [max(1, numSteps)]
    slices, and they are all [0.0] when the order size is not positive or a
    side of the book has no depth. *)
Theorem calculateOptimalExecution_shape
    (params_ : AlmgrenChrissParams A) (orderSize : A) (orderSide : bool)
    (stats : OrderbookStats A) (numSteps : Z) :
  length (calculateOptimalExecution params_ orderSize orderSide stats numSteps)
  = Z.to_nat (Z.max 1 numSteps)
  /\ ((orderSize <=? zero) || (total_ask_size stats <=? zero)
      || (total_bid_size stats <=? zero) = true ->
      calculateOptimalExecution params_ orderSize orderSide stats numSteps
      = repeat zero (Z.to_nat (Z.max 1 numSteps))).
Proof.
  unfold calculateOptimalExecution.
  assert (Hsteps : (if (1 <? numSteps)%Z then numSteps else 1%Z)
                   = Z.max 1 numSteps)
    by (destruct (Z.ltb_spec 1 numSteps); lia).
  rewrite Hsteps. set (n := Z.to_nat (Z.max 1 numSteps)).
  destruct ((orderSize <=? zero) || (total_ask_size stats <=? zero)
            || (total_bid_size stats <=? zero)) eqn:Hguard.
  - split; [apply repeat_length|reflexivity].
  - split; [|discriminate].
    match goal with
    | |- context [for_range 0 n ?body (orderSize, repeat zero n)] =>
      pose proof (for_range_invariant
                    (fun st : A * list A => length (snd st) = n) body) as Hinv;
      specialize (Hinv
        ltac:(intros i [remaining schedule] Hs; cbn [snd] in *;
              now rewrite vec_set_length) n 0%nat (orderSize, repeat zero n)
        (repeat_length zero n));
      destruct (for_range 0 n body (orderSize, repeat zero n))
        as [remaining schedule]
    end.
    cbn [snd] in Hinv.
    destruct (remaining >? zero); [now rewrite back_update_length|exact Hinv].
Qed.
End ScheduleShape.

(** The real functions as a [LibM]: [exp], [ln], and [Rpower] for a positive
    base, the domain on which they are what <cmath> approximates. *)
Definition real_libm : LibM R :=
  {| exp := Rtrigo_def.exp; log := ln; pow := Rpower |}.

Section ScheduleSlices.
Context (L : LibM R).
Hypothesis exp_positive : forall x : R, (0 < exp x)%R.
Local Open Scope R_scope.

Lemma std_min_nonneg (a b : R) : 0 <= a -> 0 <= b -> 0 <= std_min a b.
Proof. intros Ha Hb. unfold std_min. exact_arith. case_Rltb b a; lra. Qed.

Lemma schedule_loop_nonneg (w : nat -> R)
    (body : nat -> R * list R -> R * list R) :
  (forall i, 0 <= w i) ->
  (forall i remaining schedule,
      body i (remaining, schedule)
      = (remaining - std_min (w i) remaining,
         vec_set schedule i (std_min (w i) remaining))) ->
  forall (k : nat) (done : list R) (remaining : R),
    0 <= remaining ->
    Forall (fun slice => 0 <= slice) done ->
    Forall (fun slice => 0 <= slice)
      (snd (for_range (length done) k body (remaining, done ++ repeat 0 k))).
Proof.
  intros Hw Hbody. induction k as [|k IH]; intros done remaining Hrem Hdone.
  - cbn [for_range repeat snd]. now rewrite app_nil_r.
  - cbn [for_range repeat]. rewrite Hbody, vec_set_middle.
    pose proof (std_min_le_right (w (length done)) remaining) as Hle.
    pose proof (std_min_nonneg (w (length done)) remaining (Hw _) Hrem) as Hge.
    set (t := std_min (w (length done)) remaining) in *.
    replace (done ++ t :: repeat 0 k) with ((done ++ [t]) ++ repeat 0 k)
      by now rewrite <- app_assoc.
    replace (S (length done)) with (length (done ++ [t]))
      by (rewrite length_app; cbn; lia).
    apply IH; [lra|]. apply Forall_app. split; [exact Hdone|].
    now constructor.
Qed.

Lemma back_update_nonneg (r : R) (v : list R) :
  0 <= r ->
  Forall (fun slice => 0 <= slice) v ->
  Forall (fun slice => 0 <= slice) (back_update (fun last => add last r) v).
Proof.
  intros Hr. induction 1 as [|x v Hx Hv IH]; [constructor|].
  destruct v as [|y v].
  - cbn. constructor; [exact_arith; lra|constructor].
  - change (back_update (fun last => add last r) (x :: y :: v))
      with (x :: back_update (fun last => add last r) (y :: v)).
    now constructor.
Qed.

Lemma nonneg_below_sum (v : list R) :
  Forall (fun slice => 0 <= slice) v ->
  0 <= Rsum v /\ Forall (fun slice => 0 <= slice <= Rsum v) v.
Proof.
  unfold Rsum. induction 1 as [|x v Hx _ [IH0 IH]]; cbn [fold_right].
  - split; [lra|constructor].
  - split; [lra|]. constructor; [lra|].
    eapply Forall_impl; [|exact IH]. cbn beta. intros y Hy. lra.
Qed.

Lemma total_weight_positive (f : nat -> R) (n : nat) :
  (forall j, 0 < f j) ->
  (1 <= n)%nat ->
  0 < for_range 0 n (fun j totalWeight => add totalWeight (f j)) zero.
Proof.
  intros Hf Hn. destruct n as [|n]; [lia|]. cbn [for_range].
  apply (for_range_invariant (fun t => 0 < t)).
  - intros j t Ht. specialize (Hf j). exact_arith. lra.
  - specialize (Hf 0%nat). exact_arith. lra.
Qed.

(** X9.  Exact arithmetic, [exp] positive.  With two steps or more, a
    positive order and depth on both sides, no slice of the schedule is
    negative and none exceeds the order size. *)
Theorem calculateOptimalExecution_slices_bounded
    (params_ : AlmgrenChrissParams R) (orderSize : R) (orderSide : bool)
    (stats : OrderbookStats R) (numSteps : Z) :
  (2 <= numSteps)%Z ->
  0 < orderSize -> 0 < total_ask_size stats -> 0 < total_bid_size stats ->
  Forall (fun slice => 0 <= slice <= orderSize)
    (calculateOptimalExecution params_ orderSize orderSide stats numSteps).
Proof.
  intros Hsteps Hsize Hask Hbid.
  pose proof (calculateOptimalExecution_sums_to_order L params_ orderSize
                orderSide stats numSteps Hsteps Hsize Hask Hbid) as Hsum.
  enough (Hnonneg : Forall (fun slice => 0 <= slice)
            (calculateOptimalExecution params_ orderSize orderSide stats
               numSteps)).
  { destruct (nonneg_below_sum _ Hnonneg) as [_ Hbelow].
    rewrite Hsum in Hbelow. exact Hbelow. }
  clear Hsum. unfold calculateOptimalExecution.
  destruct (Z.ltb_spec 1 numSteps) as [_|]; [|lia].
  exact_arith.
  replace (Rleb orderSize 0) with false by (symmetry; apply Rleb_false; lra).
  replace (Rleb (total_ask_size stats) 0) with false
    by (symmetry; apply Rleb_false; lra).
  replace (Rleb (total_bid_size stats) 0) with false
    by (symmetry; apply Rleb_false; lra).
  cbn [orb].
  match goal with
  | |- context [for_range 0 ?k ?body (orderSize, repeat ?z ?k)] =>
    assert (Hbody : exists w : nat -> R,
               (forall i, 0 <= w i)
               /\ forall i remaining schedule,
                   body i (remaining, schedule)
                   = (remaining - std_min (w i) remaining,
                      vec_set schedule i (std_min (w i) remaining)));
      [ eexists; split; cycle 1;
        [ intros i remaining schedule; cbv beta iota zeta; reflexivity
        | intros i; cbv beta;
          apply Rmult_le_pos; [|lra];
          apply Rmult_le_pos; [apply Rlt_le, exp_positive|];
          apply Rlt_le, Rinv_0_lt_compat;
          apply (total_weight_positive
                   (fun j => exp (_ * IZR (Z.of_nat j) / _)));
          [intros j; apply exp_positive|lia] ]
      | destruct Hbody as (w & Hw & Hbody);
        pose proof (schedule_loop_nonneg w body Hw Hbody k [] orderSize
                      (Rlt_le _ _ Hsize) (Forall_nil _)) as Hnonneg;
        destruct (schedule_loop w body Hbody k [] orderSize (Rlt_le _ _ Hsize))
          as (Hrem & _ & _);
        destruct (for_range 0 k body (orderSize, repeat z k))
          as [remaining schedule] eqn:Hloop ]
  end.
  cbn [app length fst snd] in *. rewrite Hloop in *. cbn [fst snd] in *.
  case_Rltb 0 remaining.
  - now apply back_update_nonneg.
  - exact Hnonneg.
Qed.
End ScheduleSlices.

Definition depth_stats : OrderbookStats R :=
  Build_OrderbookStats 100%R 2%R 101%R 99%R 101%R 99%R 5%R 7%R (7 / 5)%R 0%R
    0%Z.

Lemma calculateOptimalExecution_slices_witness :
  (forall x : R, 0 < @exp R real_libm x)%R
  /\ (2 <= 4)%Z
  /\ (0 < 3)%R /\ (0 < total_ask_size depth_stats)%R
  /\ (0 < total_bid_size depth_stats)%R
  /\ Forall (fun slice => 0 <= slice <= 3)%R
       (@calculateOptimalExecution R _ real_libm default_params 3%R true
          depth_stats 4).
Proof.
  assert (Hexp : forall x : R, (0 < @exp R real_libm x)%R)
    by (intros x; apply exp_pos).
  assert (H3 : (0 < 3)%R) by lra.
  assert (Ha : (0 < total_ask_size depth_stats)%R) by (cbn; lra).
  assert (Hb : (0 < total_bid_size depth_stats)%R) by (cbn; lra).
  assert (Hs : (2 <= 4)%Z) by lia.
  repeat (split; [assumption|]).
  exact (calculateOptimalExecution_slices_bounded real_libm Hexp
           default_params 3%R true depth_stats 4 Hs H3 Ha Hb).
Defined.

(** ** Sign and size of the impact estimate *)

(** Decimal literals at the exact instance, as quotients of integers. *)
Ltac decimals :=
  unfold dec in *; exact_arith;
  repeat match goal with
         | |- context [(10 ^ Z.of_nat ?k)%Z] =>
           let v := eval vm_compute in (10 ^ Z.of_nat k)%Z in
           change (10 ^ Z.of_nat k)%Z with v in *
         | _ : context [(10 ^ Z.of_nat ?k)%Z] |- _ =>
           let v := eval vm_compute in (10 ^ Z.of_nat k)%Z in
           change (10 ^ Z.of_nat k)%Z with v in *
         end.

Section ImpactEstimate.
Context (L : LibM R).
Local Open Scope R_scope.

Lemma std_max_ge_left (a b : R) : a <= std_max a b.
Proof. unfold std_max. exact_arith. case_Rltb a b; lra. Qed.

Lemma std_min_unit (x : R) : 0 <= x -> 0 <= std_min 1 x <= 1.
Proof. intros Hx. unfold std_min. exact_arith. case_Rltb x 1; lra. Qed.

(** X10.  Exact arithmetic: the impact of a sell order is the impact of the
    buy order of the same size on the same book, negated. *)
Theorem calculateMarketImpact_sell_mirrors_buy
    (params_ : AlmgrenChrissParams R) (orderSize : R)
    (stats : OrderbookStats R) :
  calculateMarketImpact params_ orderSize false stats
  = - calculateMarketImpact params_ orderSize true stats.
Proof. unfold calculateMarketImpact. exact_arith. ring. Qed.

(** X11.  Exact arithmetic: when the statistics carry a zero
    [price_volatility], the impact estimate is zero for every order size and
    side and every parameter set. *)
Theorem calculateMarketImpact_zero_volatility
    (params_ : AlmgrenChrissParams R) (orderSize : R) (orderSide : bool)
    (stats : OrderbookStats R) :
  price_volatility stats = 0 ->
  calculateMarketImpact params_ orderSize orderSide stats = 0.
Proof.
  intros Hvol.
  unfold calculateMarketImpact, calculatePermanentImpact,
    calculateTemporaryImpact.
  rewrite Hvol. exact_arith. ring.
Qed.

Lemma permanent_impact_between
    (params_ : AlmgrenChrissParams R) (orderSize : R)
    (stats : OrderbookStats R) :
  0 <= permanentImpactFactor params_ -> 0 <= orderSize ->
  0 <= price_volatility stats ->
  permanentImpactFactor params_ * orderSize * price_volatility stats
  <= calculatePermanentImpact params_ orderSize stats
  <= 2 * (permanentImpactFactor params_ * orderSize * price_volatility stats).
Proof.
  intros Hf Hsize Hvol. unfold calculatePermanentImpact. exact_arith.
  set (depth := total_ask_size stats + total_bid_size stats).
  assert (Hbase : 0 <= permanentImpactFactor params_ * orderSize
                       * price_volatility stats)
    by (apply Rmult_le_pos; [apply Rmult_le_pos|]; assumption).
  case_Rltb 0 depth; [|lra].
  assert (Hratio : 0 <= orderSize / depth)
    by (apply Rmult_le_pos; [lra|apply Rlt_le, Rinv_0_lt_compat; lra]).
  pose proof (std_min_unit (orderSize / depth) Hratio) as Hmin.
  exact_arith. set (share := std_min 1 (orderSize / depth)) in *.
  replace (permanentImpactFactor params_ * (1 + share) * orderSize
           * price_volatility stats)
    with ((1 + share) * (permanentImpactFactor params_ * orderSize
                         * price_volatility stats)) by ring.
  split; nra.
Qed.

(** X12.  Exact arithmetic: with a non-negative factor, order size and
    volatility, the permanent impact is between one and two times
    [permanentImpactFactor * orderSize * price_volatility], whatever the
    depth of the book. *)
Theorem calculatePermanentImpact_bounds
    (params_ : AlmgrenChrissParams R) (orderSize : R)
    (stats : OrderbookStats R) :
  0 <= permanentImpactFactor params_ -> 0 <= orderSize ->
  0 <= price_volatility stats ->
  permanentImpactFactor params_ * orderSize * price_volatility stats
  <= calculatePermanentImpact params_ orderSize stats
  <= 2 * (permanentImpactFactor params_ * orderSize * price_volatility stats).
Proof. apply permanent_impact_between. Qed.

Lemma calculateTemporaryImpact_nonneg
    (params_ : AlmgrenChrissParams R) (orderSize : R)
    (stats : OrderbookStats R) :
  0 <= temporaryImpactFactor params_ -> 0 <= price_volatility stats ->
  0 <= pow orderSize (dec 5 1) ->
  0 <= calculateTemporaryImpact params_ orderSize stats.
Proof.
  intros Hf Hvol Hpow. unfold calculateTemporaryImpact.
  repeat apply Rmult_le_pos; trivial.
  - destruct (_ && _) eqn:Hguard; exact_arith; [|lra].
    apply andb_prop in Hguard. destruct Hguard as [Hmid Hspread].
    apply Rltb_true in Hmid. apply Rltb_true in Hspread.
    assert (0 <= spread stats / midprice stats)
      by (apply Rmult_le_pos; [lra|apply Rlt_le, Rinv_0_lt_compat; lra]).
    lra.
  - destruct (_ && _); exact_arith; [|lra].
    pose proof (std_max_ge_left 1 (Rabs (log (order_imbalance stats)))).
    exact_arith. lra.
Qed.

(** X13.  Exact arithmetic, the square root of the order size not negative:
    with non-negative impact factors, order size and volatility, a buy order
    is never estimated to move the price down and a sell order never up. *)
Theorem calculateMarketImpact_sign
    (params_ : AlmgrenChrissParams R) (orderSize : R)
    (stats : OrderbookStats R) :
  0 <= permanentImpactFactor params_ -> 0 <= temporaryImpactFactor params_ ->
  0 <= orderSize -> 0 <= price_volatility stats ->
  0 <= pow orderSize (dec 5 1) ->
  0 <= calculateMarketImpact params_ orderSize true stats
  /\ calculateMarketImpact params_ orderSize false stats <= 0.
Proof.
  intros Hperm Htemp Hsize Hvol Hpow.
  pose proof (permanent_impact_between params_ orderSize stats
                Hperm Hsize Hvol) as [Hlow _].
  pose proof (calculateTemporaryImpact_nonneg params_ orderSize stats
                Htemp Hvol Hpow) as Htmp.
  assert (Hbase : 0 <= permanentImpactFactor params_ * orderSize
                       * price_volatility stats)
    by (apply Rmult_le_pos; [apply Rmult_le_pos|]; assumption).
  unfold calculateMarketImpact. exact_arith. lra.
Qed.
End ImpactEstimate.

Definition calm_stats : OrderbookStats R :=
  Build_OrderbookStats 100%R 2%R 101%R 99%R 101%R 99%R 5%R 7%R (7 / 5)%R 0%R
    0%Z.

Definition lively_stats : OrderbookStats R :=
  Build_OrderbookStats 100%R 2%R 101%R 99%R 101%R 99%R 5%R 7%R (7 / 5)%R
    (1 / 100)%R 0%Z.

Lemma calculateMarketImpact_zero_volatility_witness :
  price_volatility calm_stats = 0%R
  /\ @calculateMarketImpact R _ real_libm default_params 3%R true calm_stats
     = 0%R.
Proof.
  split; [reflexivity|].
  exact (calculateMarketImpact_zero_volatility real_libm default_params 3%R
           true calm_stats eq_refl).
Defined.

Lemma default_params_nonneg :
  (0 <= permanentImpactFactor (@default_params R _)
   /\ 0 <= temporaryImpactFactor (@default_params R _))%R.
Proof.
  unfold default_params. cbn [permanentImpactFactor temporaryImpactFactor].
  decimals. lra.
Qed.

Lemma calculatePermanentImpact_bounds_witness :
  (0 <= permanentImpactFactor (@default_params R _)
   /\ 0 <= 3 /\ 0 <= price_volatility lively_stats
   /\ permanentImpactFactor default_params * 3 * price_volatility lively_stats
      <= @calculatePermanentImpact R _ default_params 3 lively_stats
      <= 2 * (permanentImpactFactor default_params * 3
              * price_volatility lively_stats))%R.
Proof.
  assert (Hf : (0 <= permanentImpactFactor (@default_params R _))%R)
    by apply default_params_nonneg.
  assert (H3 : (0 <= 3)%R) by lra.
  assert (Hv : (0 <= price_volatility lively_stats)%R) by (cbn; lra).
  repeat (split; [assumption|]).
  exact (calculatePermanentImpact_bounds default_params 3%R lively_stats
           Hf H3 Hv).
Defined.

Lemma calculateMarketImpact_sign_witness :
  (0 <= permanentImpactFactor (@default_params R _)
   /\ 0 <= temporaryImpactFactor (@default_params R _)
   /\ 0 <= 3 /\ 0 <= price_volatility lively_stats
   /\ 0 <= @pow R real_libm 3 (dec 5 1)
   /\ 0 <= @calculateMarketImpact R _ real_libm default_params 3 true
             lively_stats
   /\ @calculateMarketImpact R _ real_libm default_params 3 false
        lively_stats <= 0)%R.
Proof.
  assert (Hp : (0 <= permanentImpactFactor (@default_params R _))%R)
    by apply default_params_nonneg.
  assert (Ht : (0 <= temporaryImpactFactor (@default_params R _))%R)
    by apply default_params_nonneg.
  assert (H3 : (0 <= 3)%R) by lra.
  assert (Hv : (0 <= price_volatility lively_stats)%R) by (cbn; lra).
  assert (Hpow : (0 <= @pow R real_libm 3 (dec 5 1))%R)
    by (cbn [pow real_libm]; unfold Rpower; apply Rlt_le, exp_pos).
  repeat (split; [assumption|]).
  exact (calculateMarketImpact_sign real_libm default_params 3%R
           lively_stats Hp Ht H3 Hv Hpow).
Defined.

(* ================================================================== *)
(** * Further properties of the transaction-cost model *)

Section CostEstimate.
Context (L : LibM R).
Local Open Scope R_scope.

Lemma std_clamp_between (v lo hi : R) :
  lo <= hi -> lo <= std_clamp v lo hi <= hi.
Proof.
  intros Hle. unfold std_clamp. exact_arith.
  case_Rltb v lo; [lra|]. case_Rltb hi v; lra.
Qed.

Lemma std_clamp_inside (v lo hi : R) :
  lo <= v <= hi -> std_clamp v lo hi = v.
Proof.
  intros Hv. unfold std_clamp. exact_arith.
  case_Rltb v lo; [lra|]. case_Rltb hi v; lra.
Qed.

Lemma std_max_monotone (a a' b : R) :
  a <= a' -> std_max a b <= std_max a' b.
Proof.
  intros Hle. unfold std_max. exact_arith.
  case_Rltb a b; case_Rltb a' b; lra.
Qed.

Lemma predicted_proportion_bounds
    (m : TransactionCostModel R) (orderSize : R) (orderSide : bool)
    (stats : OrderbookStats R) :
  0 <= predictMakerProportion m orderSize orderSide stats <= 1 / 10.
Proof.
  unfold predictMakerProportion.
  match goal with
  | |- _ <= std_clamp ?v _ _ <= _ =>
    pose proof (std_clamp_between v zero (dec 1 1)) as Hclamp
  end.
  decimals.
  apply Hclamp. lra.
Qed.

(** X14.  Exact arithmetic: the predicted maker proportion is between 0 and
    0.1, for every order, book and implementation of [exp]. *)
Theorem predictMakerProportion_range
    (m : TransactionCostModel R) (orderSize : R) (orderSide : bool)
    (stats : OrderbookStats R) :
  0 <= predictMakerProportion m orderSize orderSide stats <= 1 / 10.
Proof. apply predicted_proportion_bounds. Qed.

(** X15.  Exact arithmetic: in [calculateTotalCost], for an order of
    non-negative notional value at the mid price and a maker rate not above
    the taker rate, the fee is at most the pure taker fee and at least the
    fee of a 10 % maker, 90 % taker mix. *)
Theorem calculateTotalCost_fee_bounds
    (m : TransactionCostModel R)
    (marketImpactModel_ : option (AlmgrenChrissParams R))
    (orderSize : R) (orderSide : bool) (stats : OrderbookStats R) :
  0 <= orderSize * midprice stats ->
  makerFeeRate (feeModel_ m) <= takerFeeRate (feeModel_ m) ->
  let '(_, _, fees, _) :=
    calculateTotalCost m marketImpactModel_ orderSize orderSide stats in
  orderSize * midprice stats
  * (9 / 10 * takerFeeRate (feeModel_ m) + 1 / 10 * makerFeeRate (feeModel_ m))
  <= fees
  <= orderSize * midprice stats * takerFeeRate (feeModel_ m).
Proof.
  intros Hnotional Hrates. unfold calculateTotalCost, calculateFees.
  pose proof (predicted_proportion_bounds m orderSize orderSide stats)
    as Hrange.
  set (predicted := predictMakerProportion m orderSize orderSide stats) in *.
  rewrite (std_clamp_inside predicted zero (of_Z 1))
    by (exact_arith; lra).
  exact_arith.
  set (notional := orderSize * midprice stats) in *.
  set (maker := makerFeeRate (feeModel_ m)) in *.
  set (taker := takerFeeRate (feeModel_ m)) in *.
  assert (Hgap : 0 <= notional * (taker - maker))
    by (apply Rmult_le_pos; lra).
  split; nra.
Qed.

(** X16.  Exact arithmetic: with a non-negative volume factor and mid price,
    a larger order never has a smaller slippage estimate, on either side of
    any book. *)
Theorem calculateSlippage_monotone_in_size
    (m : TransactionCostModel R) (smaller larger : R) (orderSide : bool)
    (stats : OrderbookStats R) :
  0 <= slippageVolumeFactor_ m -> 0 <= midprice stats ->
  smaller <= larger ->
  calculateSlippage m smaller orderSide stats
  <= calculateSlippage m larger orderSide stats.
Proof.
  intros Hfactor Hmid Hsize. unfold calculateSlippage.
  apply std_max_monotone. exact_arith.
  apply Rmult_le_compat_r; [exact Hmid|].
  repeat apply Rplus_le_compat_r. apply Rplus_le_compat_l.
  apply Rmult_le_compat_l; [exact Hfactor|].
  destruct orderSide.
  - case_Rltb 0 (total_ask_size stats); [|lra].
    apply Rmult_le_compat_r; [apply Rlt_le, Rinv_0_lt_compat|]; lra.
  - case_Rltb 0 (total_bid_size stats); [|lra].
    apply Rmult_le_compat_r; [apply Rlt_le, Rinv_0_lt_compat|]; lra.
Qed.
End CostEstimate.

Section TierFees.
Local Open Scope R_scope.

Lemma tier_rates_decrease (lower higher : Z) :
  (0 <= lower <= higher)%Z ->
  fst (@tier_rates R _ higher) <= fst (@tier_rates R _ lower)
  /\ snd (@tier_rates R _ higher) <= snd (@tier_rates R _ lower)
  /\ 0 <= fst (@tier_rates R _ higher).
Proof.
  intros Htiers. unfold tier_rates.
  repeat match goal with
         | |- context [(?t =? ?n)%Z] => destruct (Z.eqb_spec t n)
         end; cbn [fst snd]; try lia; decimals; lra.
Qed.

(** X17.  Exact arithmetic: for an order of non-negative notional value, the
    fee after [updateParams] with a higher fee tier is never above the fee
    after [updateParams] with a lower one (tiers from 0 up), whatever the
    maker proportion. *)
Theorem higher_tier_never_costs_more
    (s : Simulator R) (lower higher : SimulatorParams R)
    (m_lower m_higher : TransactionCostModel R)
    (orderSize orderPrice makerProportion : R) :
  (0 <= sp_feeTier lower <= sp_feeTier higher)%Z ->
  0 <= orderSize * orderPrice ->
  transactionCostModel_ (updateParams s lower) = Some m_lower ->
  transactionCostModel_ (updateParams s higher) = Some m_higher ->
  calculateFees m_higher orderSize orderPrice makerProportion
  <= calculateFees m_lower orderSize orderPrice makerProportion.
Proof.
  intros Htiers Hnotional Hlower Hhigher.
  pose proof (updateParams_tier_rates s lower ltac:(lia)) as Rl.
  pose proof (updateParams_tier_rates s higher ltac:(lia)) as Rh.
  rewrite Hlower in Rl. rewrite Hhigher in Rh.
  destruct (transactionCostModel_ s) as [model|]; [|discriminate].
  cbn [option_map] in Rl, Rh.
  injection Rl as Rl. injection Rh as Rh.
  destruct (tier_rates_decrease (sp_feeTier lower) (sp_feeTier higher) Htiers)
    as (Hmaker & Htaker & _).
  rewrite <- Rl, <- Rh in *. unfold rates in *. cbn [fst snd] in *.
  unfold calculateFees.
  pose proof (std_clamp_unit_interval makerProportion) as Hc.
  set (c := std_clamp makerProportion zero (of_Z 1)) in *.
  exact_arith.
  set (n := orderSize * orderPrice) in *.
  set (mk := makerFeeRate (feeModel_ m_lower)) in *.
  set (tk := takerFeeRate (feeModel_ m_lower)) in *.
  set (mk' := makerFeeRate (feeModel_ m_higher)) in *.
  set (tk' := takerFeeRate (feeModel_ m_higher)) in *.
  assert (H1 : 0 <= n * c) by (apply Rmult_le_pos; lra).
  assert (H2 : 0 <= n * (1 - c)) by (apply Rmult_le_pos; lra).
  assert (n * c * mk' <= n * c * mk) by (apply Rmult_le_compat_l; lra).
  assert (n * (1 - c) * tk' <= n * (1 - c) * tk)
    by (apply Rmult_le_compat_l; lra).
  lra.
Qed.
End TierFees.

Lemma calculateTotalCost_fee_bounds_witness :
  let m : TransactionCostModel R := new_cost_model default_fee_model in
  (0 <= 3 * midprice lively_stats)%R
  /\ (makerFeeRate (feeModel_ m) <= takerFeeRate (feeModel_ m))%R
  /\ let '(_, _, fees, _) :=
       @calculateTotalCost R _ real_libm m (Some default_params) 3%R true
         lively_stats in
     (3 * midprice lively_stats
      * (9 / 10 * takerFeeRate (feeModel_ m)
         + 1 / 10 * makerFeeRate (feeModel_ m))
      <= fees
      <= 3 * midprice lively_stats * takerFeeRate (feeModel_ m))%R.
Proof.
  intros m.
  assert (Hn : (0 <= 3 * midprice lively_stats)%R) by (cbn; lra).
  assert (Hr : (makerFeeRate (feeModel_ m) <= takerFeeRate (feeModel_ m))%R)
    by (cbn; decimals; lra).
  split; [exact Hn|]. split; [exact Hr|].
  exact (calculateTotalCost_fee_bounds real_libm m (Some default_params) 3%R
           true lively_stats Hn Hr).
Defined.

Lemma calculateSlippage_monotone_witness :
  let m : TransactionCostModel R := new_cost_model default_fee_model in
  (0 <= slippageVolumeFactor_ m)%R /\ (0 <= midprice lively_stats)%R
  /\ (1 <= 3)%R
  /\ (calculateSlippage m 1%R true lively_stats
      <= calculateSlippage m 3%R true lively_stats)%R.
Proof.
  intros m.
  assert (Hf : (0 <= slippageVolumeFactor_ m)%R) by (cbn; decimals; lra).
  assert (Hm : (0 <= midprice lively_stats)%R) by (cbn; lra).
  assert (Hs : (1 <= 3)%R) by lra.
  repeat (split; [assumption|]).
  exact (calculateSlippage_monotone_in_size m 1%R 3%R true lively_stats
           Hf Hm Hs).
Defined.

Definition retail_tier : SimulatorParams R :=
  {| sp_exchange := "OKX"; sp_symbol := "BTC-USDT"; sp_orderType := "market";
     sp_quantity := 100%R; sp_volatility := 0%R; sp_feeTier := 0 |}.

Definition volume_tier : SimulatorParams R :=
  {| sp_exchange := "OKX"; sp_symbol := "BTC-USDT"; sp_orderType := "market";
     sp_quantity := 100%R; sp_volatility := 0%R; sp_feeTier := 2 |}.

Lemma higher_tier_witness :
  let s : Simulator R := new_simulator 0 in
  let m_lower : TransactionCostModel R :=
    setFeeModel (new_cost_model default_fee_model)
      (Build_FeeModel (dec 2 4) (dec 5 4) 0) in
  let m_higher : TransactionCostModel R :=
    setFeeModel (new_cost_model default_fee_model)
      (Build_FeeModel (dec 1 4) (dec 3 4) 2) in
  (0 <= sp_feeTier retail_tier <= sp_feeTier volume_tier)%Z
  /\ (0 <= 3 * 100)%R
  /\ transactionCostModel_ (updateParams s retail_tier) = Some m_lower
  /\ transactionCostModel_ (updateParams s volume_tier) = Some m_higher
  /\ (calculateFees m_higher 3%R 100%R (1 / 20)%R
      <= calculateFees m_lower 3%R 100%R (1 / 20)%R)%R.
Proof.
  intros s m_lower m_higher.
  assert (Ht : (0 <= sp_feeTier retail_tier <= sp_feeTier volume_tier)%Z)
    by (cbn; lia).
  assert (Hn : (0 <= 3 * 100)%R) by lra.
  assert (Hl : transactionCostModel_ (updateParams s retail_tier)
               = Some m_lower) by reflexivity.
  assert (Hh : transactionCostModel_ (updateParams s volume_tier)
               = Some m_higher) by reflexivity.
  repeat (split; [assumption|]).
  exact (higher_tier_never_costs_more s retail_tier volume_tier m_lower
           m_higher 3%R 100%R (1 / 20)%R Ht Hn Hl Hh).
Defined.

(* ================================================================== *)
(** * Further properties of the simulator *)

Section DeadInputs.
Context {A : Type} `{Arith A} `{LibM A}.

(** X18.  Of the parameters given to [updateParams], only the quantity and
    the fee tier reach the output: two parameter sets that agree on them give
    the same output on every statistics value, whatever their volatility,
    exchange, symbol and order type. *)
Theorem output_depends_on_quantity_and_tier
    (s : Simulator A) (params params' : SimulatorParams A)
    (stats : OrderbookStats A) :
  sp_quantity params = sp_quantity params' ->
  sp_feeTier params = sp_feeTier params' ->
  latestOutput_ (updateSimulation (updateParams s params) stats)
  = latestOutput_ (updateSimulation (updateParams s params') stats).
Proof.
  intros Hquantity Htier. unfold updateSimulation, updateParams.
  cbn [latestOutput_ params_ transactionCostModel_ marketImpactModel_].
  rewrite Hquantity, Htier.
  destruct (transactionCostModel_ s) as [model|]; [|reflexivity].
  destruct (marketImpactModel_ s) as [impact|]; reflexivity.
Qed.
End DeadInputs.

Lemma output_depends_on_quantity_and_tier_witness :
  let s : Simulator spec_float := new_simulator 0 in
  let params : SimulatorParams spec_float :=
    {| sp_exchange := "OKX"; sp_symbol := "BTC-USDT"; sp_orderType := "market";
       sp_quantity := of_Z 100; sp_volatility := dec 2 2; sp_feeTier := 1 |} in
  let params' : SimulatorParams spec_float :=
    {| sp_exchange := "Binance"; sp_symbol := "ETH-USDT";
       sp_orderType := "limit";
       sp_quantity := of_Z 100; sp_volatility := dec 9 1; sp_feeTier := 1 |} in
  sp_quantity params = sp_quantity params'
  /\ sp_feeTier params = sp_feeTier params'
  /\ latestOutput_
       (@updateSimulation spec_float _ naive_libm (updateParams s params)
          scenario_stats)
     = latestOutput_
         (@updateSimulation spec_float _ naive_libm (updateParams s params')
            scenario_stats).
Proof.
  intros s params params'.
  split; [reflexivity|]. split; [reflexivity|].
  exact (@output_depends_on_quantity_and_tier spec_float _ naive_libm s
           params params' scenario_stats eq_refl eq_refl).
Defined.

Section CallbackChain.
Context {A : Type} `{Arith A} `{LibM A}.

(** The readings of the statistics computation of call [k]. *)
Definition stats_clock (clock : nat -> readings) (k : nat) : Z * Z :=
  (stats_start (clock k), stats_end (clock k)).

Lemma on_orderbook_data_frame (t : readings) (s : Simulator A)
    (p : OrderbookProcessor A) (data : OrderbookData A) :
  orderbookProcessor_ s = Some p ->
  orderbookProcessor_ (on_orderbook_data t s data)
  = Some (fst (processOrderbook (stats_start t) (stats_end t) p data))
  /\ isRunning_ (on_orderbook_data t s data) = isRunning_ s.
Proof.
  intros Hp. unfold on_orderbook_data. rewrite Hp.
  destruct (processOrderbook _ _ p data) as [p' stats].
  unfold onOrderbookStats. cbn [isRunning_ fst].
  destruct (isRunning_ s); cbn [negb]; split; reflexivity.
Qed.

Lemma on_orderbook_data_running (t : readings) (s : Simulator A)
    (p : OrderbookProcessor A) (data : OrderbookData A) :
  isRunning_ s = true ->
  orderbookProcessor_ s = Some p ->
  exists output,
    delivered (on_orderbook_data t s data) = output :: delivered s
    /\ internalLatency output = zero.
Proof.
  intros Hrun Hp. unfold on_orderbook_data. rewrite Hp.
  destruct (processOrderbook _ _ p data) as [p' stats].
  unfold onOrderbookStats. cbn [isRunning_]. rewrite Hrun. cbn [negb delivered].
  match goal with
  | |- context [updateSimulation ?s' stats] =>
    destruct (updateSimulation_delivers s' stats) as (output & Hd & _ & Hl)
  end.
  exists output. split; [exact Hd|exact Hl].
Qed.

(** X19.  While the simulator runs, every snapshot the feed hands to the
    callback chain produces exactly one output, in order, none of them
    carrying a latency; the processor goes through the same snapshots. *)
Theorem running_simulator_delivers_every_snapshot
    (clock : nat -> readings) (feed : list (OrderbookData A)) :
  forall (k : nat) (s : Simulator A) (p : OrderbookProcessor A),
    isRunning_ s = true ->
    orderbookProcessor_ s = Some p ->
    orderbookProcessor_ (feed_simulator clock k s feed)
    = Some (processAll (stats_clock clock) k p feed)
    /\ exists outputs,
         delivered (feed_simulator clock k s feed) = outputs ++ delivered s
         /\ length outputs = length feed
         /\ Forall (fun output => internalLatency output = zero) outputs.
Proof.
  induction feed as [|data feed IH]; intros k s p Hrun Hp.
  - cbn [feed_simulator processAll]. split; [exact Hp|].
    exists []. repeat split. constructor.
  - cbn [feed_simulator processAll].
    destruct (on_orderbook_data_frame (clock k) s p data Hp) as [Hp' Hrun'].
    destruct (on_orderbook_data_running (clock k) s p data Hrun Hp)
      as (output & Hd & Hl).
    rewrite Hrun in Hrun'.
    destruct (IH (S k) _ _ Hrun' Hp') as (IHp & outputs & IHd & IHn & IHl).
    split; [exact IHp|].
    exists (outputs ++ [output]). split; [|split].
    + rewrite IHd, Hd, <- app_assoc. reflexivity.
    + rewrite length_app, IHn. cbn [length]. lia.
    + apply Forall_app. split; [exact IHl|]. now constructor.
Qed.

(** X20.  A simulator that is not running delivers nothing and keeps its
    latest output, yet its processor still goes through every snapshot that
    reaches the callback chain: history and counters advance. *)
Theorem stopped_simulator_delivers_nothing
    (clock : nat -> readings) (feed : list (OrderbookData A)) :
  forall (k : nat) (s : Simulator A) (p : OrderbookProcessor A),
    isRunning_ s = false ->
    orderbookProcessor_ s = Some p ->
    delivered (feed_simulator clock k s feed) = delivered s
    /\ latestOutput_ (feed_simulator clock k s feed) = latestOutput_ s
    /\ orderbookProcessor_ (feed_simulator clock k s feed)
       = Some (processAll (stats_clock clock) k p feed).
Proof.
  induction feed as [|data feed IH]; intros k s p Hrun Hp.
  - cbn [feed_simulator processAll]. auto.
  - cbn [feed_simulator processAll].
    destruct (on_orderbook_data_frame (clock k) s p data Hp) as [Hp' Hrun'].
    rewrite Hrun in Hrun'.
    destruct (IH (S k) _ _ Hrun' Hp') as (IHd & IHo & IHp).
    rewrite IHd, IHo, IHp. repeat split.
    + unfold on_orderbook_data. rewrite Hp.
      destruct (processOrderbook _ _ p data) as [p' stats].
      unfold onOrderbookStats. cbn [isRunning_]. rewrite Hrun. reflexivity.
    + unfold on_orderbook_data. rewrite Hp.
      destruct (processOrderbook _ _ p data) as [p' stats].
      unfold onOrderbookStats. cbn [isRunning_]. rewrite Hrun. reflexivity.
Qed.
End CallbackChain.

Definition steady_clock (k : nat) : readings :=
  {| stats_start := Z.of_nat k * 100; stats_end := Z.of_nat k * 100 + 7;
     sim_start_time := Z.of_nat k * 100 + 8;
     sim_end_time := Z.of_nat k * 100 + 20 |}.

Lemma running_simulator_witness :
  let s : Simulator spec_float := sim_start (new_simulator 0) in
  let p : OrderbookProcessor spec_float := new_processor default_window in
  let feed : list (OrderbookData spec_float) :=
    [snapshot_of 5 3; one_sided 9; snapshot_of 6 4] in
  isRunning_ s = true
  /\ orderbookProcessor_ s = Some p
  /\ orderbookProcessor_ (@feed_simulator spec_float _ naive_libm
                            steady_clock 0 s feed)
     = Some (processAll (stats_clock steady_clock) 0 p feed)
  /\ exists outputs,
       delivered (@feed_simulator spec_float _ naive_libm steady_clock 0 s
                    feed)
       = outputs ++ delivered s
       /\ length outputs = length feed
       /\ Forall (fun output => internalLatency output = zero) outputs.
Proof.
  intros s p feed.
  split; [reflexivity|]. split; [reflexivity|].
  exact (@running_simulator_delivers_every_snapshot spec_float _ naive_libm
           steady_clock feed 0 s p eq_refl eq_refl).
Defined.

Lemma stopped_simulator_witness :
  let s : Simulator spec_float := sim_stop (sim_start (new_simulator 0)) in
  let p : OrderbookProcessor spec_float := new_processor default_window in
  let feed : list (OrderbookData spec_float) :=
    [snapshot_of 5 3; snapshot_of 6 4] in
  isRunning_ s = false
  /\ orderbookProcessor_ s = Some p
  /\ delivered (@feed_simulator spec_float _ naive_libm steady_clock 0 s feed)
     = delivered s
  /\ latestOutput_ (@feed_simulator spec_float _ naive_libm steady_clock 0 s
                      feed)
     = latestOutput_ s
  /\ orderbookProcessor_ (@feed_simulator spec_float _ naive_libm
                            steady_clock 0 s feed)
     = Some (processAll (stats_clock steady_clock) 0 p feed).
Proof.
  intros s p feed.
  split; [reflexivity|]. split; [reflexivity|].
  exact (@stopped_simulator_delivers_nothing spec_float _ naive_libm
           steady_clock feed 0 s p eq_refl eq_refl).
Defined.

Section SimulatedCosts.
Context (L : LibM R).
Local Open Scope R_scope.

Lemma processOrderbook_empty_side (startTime endTime : Z)
    (p : OrderbookProcessor R) (data : OrderbookData R) :
  valid_book data = false ->
  snd (processOrderbook startTime endTime p data)
  = Build_OrderbookStats 0 0 0 0 0 0 0 0 0 0 (endTime - startTime).
Proof.
  intros Hempty. unfold processOrderbook, calculateStats, valid_book in *.
  cbn [snd].
  destruct (asks data) as [|a0 arest], (bids data) as [|b0 brest];
    try discriminate; reflexivity.
Qed.

Lemma Rltb_irrefl (x : R) : Rltb x x = false.
Proof. apply Rltb_false. lra. Qed.

(** X21.  Exact arithmetic: a running simulator answers a snapshot with an
    empty side by one output whose slippage, fees, market impact and net
    cost are all 0, with mid price, spread and volatility 0 as well. *)
Theorem empty_side_costs_nothing (t : readings) (s : Simulator R)
    (p : OrderbookProcessor R) (data : OrderbookData R) :
  isRunning_ s = true ->
  orderbookProcessor_ s = Some p ->
  valid_book data = false ->
  exists output,
    delivered (on_orderbook_data t s data) = output :: delivered s
    /\ expectedSlippage output = 0 /\ expectedFees output = 0
    /\ expectedMarketImpact output = 0 /\ netCost output = 0
    /\ out_midprice output = 0 /\ out_spread output = 0
    /\ marketVolatility output = 0.
Proof.
  intros Hrun Hp Hempty. unfold on_orderbook_data. rewrite Hp.
  pose proof (processOrderbook_empty_side (stats_start t) (stats_end t) p data
                Hempty) as Hstats.
  destruct (processOrderbook _ _ p data) as [p' stats]. cbn [snd] in Hstats.
  subst stats.
  unfold onOrderbookStats. cbn [isRunning_]. rewrite Hrun. cbn [negb delivered].
  unfold updateSimulation.
  cbn [delivered transactionCostModel_ marketImpactModel_ params_ midprice
       spread price_volatility].
  eexists. split; [reflexivity|].
  destruct (transactionCostModel_ s) as [model|];
    [|cbn; repeat split; reflexivity].
  unfold calculateTotalCost, calculateSlippage, calculateFees,
    calculateMarketImpact, calculatePermanentImpact, calculateTemporaryImpact.
  cbn [midprice spread price_volatility total_ask_size total_bid_size
       order_imbalance].
  exact_arith. rewrite Rplus_0_r, !Rltb_irrefl. cbn [andb].
  exact_arith. unfold std_max. exact_arith.
  replace (0 / 2) with 0 by lra.
  rewrite !Rmult_0_r, Rltb_irrefl.
  destruct (marketImpactModel_ s) as [impact|];
    cbn [expectedSlippage expectedFees expectedMarketImpact netCost
         out_midprice out_spread marketVolatility];
    repeat split; exact_arith; ring.
Qed.

(** X22.  Exact arithmetic: on a book with a positive mid price the quantity
    is a notional amount.  The expected fee is the quantity times the rates
    blended by the predicted maker proportion, whatever the mid price, and
    the net cost is slippage plus impact plus fee. *)
Theorem fees_on_notional_quantity (s : Simulator R)
    (m : TransactionCostModel R) (stats : OrderbookStats R) :
  0 < midprice stats ->
  transactionCostModel_ s = Some m ->
  let output := latestOutput_ (updateSimulation s stats) in
  expectedFees output
  = sp_quantity (params_ s)
    * (makerProportion output * makerFeeRate (feeModel_ m)
       + (1 - makerProportion output) * takerFeeRate (feeModel_ m))
  /\ netCost output
     = expectedSlippage output + expectedMarketImpact output
       + expectedFees output.
Proof.
  intros Hmid Hmodel output. subst output. unfold updateSimulation.
  cbn [latestOutput_]. rewrite Hmodel. exact_arith.
  replace (Rltb 0 (midprice stats)) with true
    by (symmetry; apply Rltb_true; exact Hmid).
  unfold calculateTotalCost.
  cbn [expectedFees makerProportion netCost expectedSlippage
       expectedMarketImpact].
  split; [|exact_arith; reflexivity].
  unfold calculateFees.
  pose proof (predicted_proportion_bounds L m
                (sp_quantity (params_ s) / midprice stats) true stats)
    as Hrange.
  set (predicted := predictMakerProportion m _ true stats) in *.
  rewrite (std_clamp_inside predicted zero (of_Z 1)) by (exact_arith; lra).
  exact_arith. field. lra.
Qed.
End SimulatedCosts.

Lemma empty_side_costs_nothing_witness :
  let s : Simulator R := sim_start (new_simulator 0) in
  let p : OrderbookProcessor R := new_processor default_window in
  let data : OrderbookData R := one_sided 9 in
  isRunning_ s = true
  /\ orderbookProcessor_ s = Some p
  /\ valid_book data = false
  /\ exists output,
       delivered (@on_orderbook_data R _ real_libm (steady_clock 0) s data)
       = output :: delivered s
       /\ expectedSlippage output = 0%R /\ expectedFees output = 0%R
       /\ expectedMarketImpact output = 0%R /\ netCost output = 0%R
       /\ out_midprice output = 0%R /\ out_spread output = 0%R
       /\ marketVolatility output = 0%R.
Proof.
  intros s p data.
  split; [reflexivity|]. split; [reflexivity|]. split; [reflexivity|].
  exact (empty_side_costs_nothing real_libm (steady_clock 0) s p data
           eq_refl eq_refl eq_refl).
Defined.

Lemma fees_on_notional_quantity_witness :
  let s : Simulator R := new_simulator 0 in
  let m : TransactionCostModel R := new_cost_model default_fee_model in
  (0 < midprice lively_stats)%R
  /\ transactionCostModel_ s = Some m
  /\ let output :=
       latestOutput_ (@updateSimulation R _ real_libm s lively_stats) in
     expectedFees output
     = (sp_quantity (params_ s)
        * (makerProportion output * makerFeeRate (feeModel_ m)
           + (1 - makerProportion output) * takerFeeRate (feeModel_ m)))%R
     /\ netCost output
        = (expectedSlippage output + expectedMarketImpact output
           + expectedFees output)%R.
Proof.
  intros s m.
  assert (Hmid : (0 < midprice lively_stats)%R) by (cbn; lra).
  split; [exact Hmid|]. split; [reflexivity|].
  exact (fees_on_notional_quantity real_libm s m lively_stats Hmid eq_refl).
Defined.

(* ================================================================== *)
(** * Further properties of the feed client *)

Section Acceptance.
Context {A : Type} `{Arith A} `{StrToD A}.

(** A price level as the parser reads it: an array whose first two entries
    are strings that [std::stod] converts to the price and the size. *)
Definition level_entry (entry : json) (level : A * A) : Prop :=
  exists (price size : string) (more : list json),
    entry = Jarray (Jstring price :: Jstring size :: more)
    /\ stod price = inr (fst level) /\ stod size = inr (snd level).

Lemma parse_levels_accepts (entries : list json) (levels : PriceLevels A) :
  Forall2 level_entry entries levels ->
  forall read : PriceLevels A,
    parse_levels entries read = inr (read ++ levels).
Proof.
  induction 1 as [|entry level entries levels Hentry _ IH]; intros read.
  - cbn [parse_levels]. now rewrite app_nil_r.
  - destruct Hentry as (price & size & more & -> & Hprice & Hsize).
    cbn [parse_levels Json.size length Nat.leb Json.at_index nth bind
         Json.get_string].
    rewrite Hprice, Hsize. cbn [bind]. rewrite IH, <- app_assoc.
    destruct level; reflexivity.
Qed.

(** X23.  A document whose [timestamp], [exchange] and [symbol] are strings
    and whose [asks] and [bids] hold price levels that convert is parsed into
    the snapshot with those strings, all the levels in the order of the
    document, and the time of arrival; [processMessage] hands exactly that
    snapshot to the callback and reports nothing. *)
Theorem well_formed_message_is_delivered (now : Z)
    (members : list (string * json)) (time venue instrument : string)
    (ask_side bid_side : json) (ask_levels bid_levels : PriceLevels A) :
  Json.find "timestamp" members = Some (Jstring time) ->
  Json.find "exchange" members = Some (Jstring venue) ->
  Json.find "symbol" members = Some (Jstring instrument) ->
  Json.find "asks" members = Some ask_side ->
  Json.find "bids" members = Some bid_side ->
  Forall2 level_entry (Json.elements ask_side) ask_levels ->
  Forall2 level_entry (Json.elements bid_side) bid_levels ->
  parseOrderbookData now (Document (Jobject members))
  = inr (Build_OrderbookData time venue instrument ask_levels bid_levels now)
  /\ processMessage now (Document (Jobject members))
     = [Callback (Build_OrderbookData time venue instrument ask_levels
                    bid_levels now)].
Proof.
  intros Htime Hvenue Hinstrument Hasks Hbids Hask_levels Hbid_levels.
  assert (Hparse : parseOrderbookData now (Document (Jobject members))
                   = inr (Build_OrderbookData time venue instrument
                            ask_levels bid_levels now)).
  { unfold parseOrderbookData.
    cbn [Json.contains Json.at_key].
    rewrite Htime, Hvenue, Hinstrument, Hasks, Hbids.
    cbn [negb orb bind Json.get_string].
    rewrite (parse_levels_accepts _ _ Hask_levels []),
      (parse_levels_accepts _ _ Hbid_levels []).
    reflexivity. }
  split; [exact Hparse|]. unfold processMessage. now rewrite Hparse.
Qed.
End Acceptance.

Section StopAndHealth.
Context {A : Type} `{Arith A} `{StrToD A}.

Lemma runIoService_not_running (c : WebSocketClient)
    (sessions : list session) :
  shouldRun_ c = false -> runIoService c sessions = (c, []).
Proof.
  intros Hstopped. destruct sessions; cbn [runIoService]; [reflexivity|].
  now rewrite Hstopped.
Qed.

(** X24.  The service loop ends with the session during which [stop()] is
    called: the sessions the network would offer afterwards are never
    connected to, so nothing is delivered, reported or slept after it, and
    the client is left not running. *)
Theorem runIoService_ends_at_stop (before after : list session)
    (last : session) :
  forall c : WebSocketClient,
    shouldRun_ c = true ->
    Forall (fun s => ends_by s <> StopRequested) before ->
    handshake_ok last = true ->
    ends_by last = StopRequested ->
    runIoService c (before ++ last :: after)
    = runIoService c (before ++ [last])
    /\ shouldRun_ (fst (runIoService c (before ++ last :: after))) = false.
Proof.
  induction before as [|s before IH]; intros c Hrun Hbefore Hok Hstop.
  - cbn [app runIoService]. rewrite Hrun. cbn [negb].
    unfold connect. rewrite Hok, Hstop. cbn [negb].
    pose proof (read_loop_frame (inbound last) (set_connected c true))
      as (F1 & _).
    destruct (read_loop _ (inbound last)) as [c' outs]. cbn [fst] in F1.
    cbn [set_should_run shouldRun_].
    rewrite runIoService_not_running by reflexivity.
    split; reflexivity.
  - inversion Hbefore as [|? ? Hs Hrest]; subst.
    cbn [app runIoService]. rewrite Hrun. cbn [negb].
    destruct (connect_frame c s Hs) as (C1 & _ & _).
    destruct (connect c s) as [c1 out1]. cbn [fst] in C1.
    rewrite C1, Hrun. unfold reconnect.
    match goal with
    | |- context [runIoService ?c' (before ++ last :: after)] =>
      destruct (IH c') as [IHeq IHrun];
        [cbn [shouldRun_]; congruence|exact Hrest|exact Hok|exact Hstop|]
    end.
    rewrite IHeq in *.
    destruct (runIoService _ (before ++ [last])) as [c3 out3].
    split; [reflexivity|exact IHrun].
Qed.

Lemma read_loop_last_message (msgs : list arrival) (last : arrival) :
  forall c : WebSocketClient,
    lastMessageTime_ (fst (read_loop c (msgs ++ [last]))) = read_at last.
Proof.
  induction msgs as [|msg msgs IH]; intros c.
  - reflexivity.
  - cbn [app read_loop].
    specialize (IH {| shouldRun_ := shouldRun_ c;
                      isConnected_ := isConnected_ c;
                      lastMessageTime_ := read_at msg;
                      reconnectDelayMs_ := reconnectDelayMs_ c |}).
    destruct (read_loop _ (msgs ++ [last])) as [c' outs]. exact IH.
Qed.

(** X25.  The health check counts idle time from the arrival of the last
    message read, delivered or rejected: a connected client is healthy
    exactly while fewer than [maxIdleSeconds] seconds have passed since. *)
Theorem isHealthy_since_last_message (c : WebSocketClient)
    (msgs : list arrival) (last : arrival) (now maxIdleSeconds : Z) :
  isConnected_ c = true ->
  (read_at last <= now)%Z ->
  isHealthy (fst (read_loop c (msgs ++ [last]))) now maxIdleSeconds = true
  <-> (now - read_at last < maxIdleSeconds * 1000000)%Z.
Proof.
  intros Hconnected Hnow. unfold isHealthy.
  destruct (read_loop_frame (msgs ++ [last]) c) as (_ & F2 & _).
  rewrite F2, Hconnected, read_loop_last_message. cbn [negb].
  rewrite Z.ltb_lt.
  pose proof (Z.quot_rem' (now - read_at last) 1000000) as Hdiv.
  pose proof (Z.rem_bound_pos (now - read_at last) 1000000) as Hrem.
  lia.
Qed.

Lemma runIoService_disconnected (sessions : list session) :
  forall c : WebSocketClient,
    shouldRun_ c = true ->
    Forall (fun s => ends_by s <> StopRequested) sessions ->
    isConnected_ c = false \/ sessions <> [] ->
    isConnected_ (fst (runIoService c sessions)) = false.
Proof.
  induction sessions as [|s rest IH]; intros c Hrun Hall Hstart.
  - destruct Hstart as [Hc|Hne]; [exact Hc|now elim Hne].
  - inversion Hall as [|? ? Hs Hrest]; subst.
    cbn [runIoService]. rewrite Hrun. cbn [negb].
    destruct (connect_frame c s Hs) as (C1 & _ & _).
    destruct (connect c s) as [c1 out1]. cbn [fst] in C1.
    rewrite C1, Hrun. unfold reconnect.
    match goal with
    | |- context [runIoService ?c' rest] =>
      specialize (IH c'); destruct (runIoService c' rest) as [c3 out3]
    end.
    cbn [fst] in *. apply IH; [cbn [shouldRun_]; congruence|exact Hrest|].
    left. reflexivity.
Qed.

(** X26.  Once the connection attempts offered so far have all ended without
    a [stop()], the client is disconnected and the health check fails, at
    any time and for any idle allowance. *)
Theorem unhealthy_between_connections (c : WebSocketClient)
    (sessions : list session) (now maxIdleSeconds : Z) :
  shouldRun_ c = true ->
  sessions <> [] ->
  Forall (fun s => ends_by s <> StopRequested) sessions ->
  isConnected (fst (runIoService c sessions)) = false
  /\ isHealthy (fst (runIoService c sessions)) now maxIdleSeconds = false.
Proof.
  intros Hrun Hne Hall. unfold isConnected, isHealthy.
  rewrite (runIoService_disconnected sessions c Hrun Hall (or_intror Hne)).
  split; reflexivity.
Qed.
End StopAndHealth.

(** The members of a message with two ask levels and one bid level. *)
Definition two_ask_members : list (string * json) :=
  [("timestamp", Jstring "2025-05-04T10:39:13Z");
   ("exchange", Jstring "OKX");
   ("symbol", Jstring "BTC-USDT-SWAP");
   ("asks", Jarray [Jarray [Jstring "95445.5"; Jstring "9.06"];
                    Jarray [Jstring "95448"; Jstring "2.05"]]);
   ("bids", Jarray [Jarray [Jstring "95445.4"; Jstring "1104.23"]])]%string.

Lemma well_formed_message_witness :
  let ask_side :=
    Jarray [Jarray [Jstring "95445.5"; Jstring "9.06"];
            Jarray [Jstring "95448"; Jstring "2.05"]] in
  let bid_side := Jarray [Jarray [Jstring "95445.4"; Jstring "1104.23"]] in
  let ask_levels : PriceLevels spec_float :=
    [(dec 954455 1, dec 906 2); (of_Z 95448, dec 205 2)] in
  let bid_levels : PriceLevels spec_float :=
    [(dec 954454 1, dec 110423 2)] in
  let snapshot :=
    Build_OrderbookData "2025-05-04T10:39:13Z" "OKX" "BTC-USDT-SWAP"
      ask_levels bid_levels 7 in
  Json.find "timestamp" two_ask_members
  = Some (Jstring "2025-05-04T10:39:13Z")
  /\ Json.find "exchange" two_ask_members = Some (Jstring "OKX")
  /\ Json.find "symbol" two_ask_members = Some (Jstring "BTC-USDT-SWAP")
  /\ Json.find "asks" two_ask_members = Some ask_side
  /\ Json.find "bids" two_ask_members = Some bid_side
  /\ Forall2 (@level_entry spec_float decimal_stod)
       (Json.elements ask_side) ask_levels
  /\ Forall2 (@level_entry spec_float decimal_stod)
       (Json.elements bid_side) bid_levels
  /\ @parseOrderbookData spec_float decimal_stod 7
       (Document (Jobject two_ask_members))
     = inr snapshot
  /\ @processMessage spec_float decimal_stod 7
       (Document (Jobject two_ask_members))
     = [Callback snapshot].
Proof.
  intros ask_side bid_side ask_levels bid_levels snapshot.
  assert (Hasks : Forall2 (@level_entry spec_float decimal_stod)
                    (Json.elements ask_side) ask_levels).
  { repeat constructor.
    - exists "95445.5"%string, "9.06"%string, []. repeat split.
      all: vm_compute; reflexivity.
    - exists "95448"%string, "2.05"%string, []. repeat split.
      all: vm_compute; reflexivity. }
  assert (Hbids : Forall2 (@level_entry spec_float decimal_stod)
                    (Json.elements bid_side) bid_levels).
  { repeat constructor.
    exists "95445.4"%string, "1104.23"%string, []. repeat split.
    all: vm_compute; reflexivity. }
  do 5 (split; [reflexivity|]).
  split; [exact Hasks|]. split; [exact Hbids|].
  exact (@well_formed_message_is_delivered spec_float decimal_stod 7
           two_ask_members "2025-05-04T10:39:13Z" "OKX" "BTC-USDT-SWAP"
           ask_side bid_side ask_levels bid_levels
           eq_refl eq_refl eq_refl eq_refl eq_refl Hasks Hbids).
Defined.

(** A refused connection, then a session that delivers one message before
    [stop()] is called, then whatever the network would offer next. *)
Definition refused : session :=
  {| handshake_ok := false; inbound := []; ends_by := ReadFailed |}.

Definition stopped_session : session :=
  {| handshake_ok := true;
     inbound := [{| read_at := 5; parse_at := 6;
                    payload := Document (Jobject two_ask_members) |}];
     ends_by := StopRequested |}.

Lemma runIoService_ends_at_stop_witness :
  let c := start (new_client 0) in
  shouldRun_ c = true
  /\ Forall (fun s => ends_by s <> StopRequested) [refused]
  /\ handshake_ok stopped_session = true
  /\ ends_by stopped_session = StopRequested
  /\ @runIoService spec_float decimal_stod c
       ([refused] ++ stopped_session :: failing_sessions)
     = @runIoService spec_float decimal_stod c ([refused] ++ [stopped_session])
  /\ shouldRun_ (fst (@runIoService spec_float decimal_stod c
                        ([refused] ++ stopped_session :: failing_sessions)))
     = false.
Proof.
  intros c.
  assert (Hbefore : Forall (fun s => ends_by s <> StopRequested) [refused])
    by (repeat constructor; discriminate).
  split; [reflexivity|]. split; [exact Hbefore|].
  split; [reflexivity|]. split; [reflexivity|].
  exact (@runIoService_ends_at_stop spec_float decimal_stod [refused]
           failing_sessions stopped_session c eq_refl Hbefore eq_refl
           eq_refl).
Defined.

Lemma isHealthy_since_last_message_witness :
  let c := set_connected (new_client 0) true in
  let rejected :=
    {| read_at := 5000000; parse_at := 5000001; payload := NotJson "ping" |} in
  isConnected_ c = true
  /\ (read_at rejected <= 34999999)%Z
  /\ (isHealthy (fst (@read_loop spec_float decimal_stod c ([] ++ [rejected])))
        34999999 30 = true
      <-> (34999999 - read_at rejected < 30 * 1000000)%Z).
Proof.
  intros c rejected.
  assert (Hnow : (read_at rejected <= 34999999)%Z) by (cbn; lia).
  split; [reflexivity|]. split; [exact Hnow|].
  exact (@isHealthy_since_last_message spec_float decimal_stod c [] rejected
           34999999 30 eq_refl Hnow).
Defined.

Lemma unhealthy_between_connections_witness :
  let c := start (new_client 0) in
  shouldRun_ c = true
  /\ failing_sessions <> []
  /\ Forall (fun s => ends_by s <> StopRequested) failing_sessions
  /\ isConnected (fst (@runIoService spec_float decimal_stod c
                         failing_sessions)) = false
  /\ isHealthy (fst (@runIoService spec_float decimal_stod c
                       failing_sessions)) 1 30 = false.
Proof.
  intros c.
  assert (Hne : failing_sessions <> []) by discriminate.
  assert (Hall : Forall (fun s => ends_by s <> StopRequested)
                   failing_sessions)
    by (repeat constructor; discriminate).
  split; [reflexivity|]. split; [exact Hne|]. split; [exact Hall|].
  exact (@unhealthy_between_connections spec_float decimal_stod c
           failing_sessions 1 30 eq_refl Hne Hall).
Defined.

(* ================================================================== *)
(** * The cost chart of the main window ([ui/main_window.cpp]) *)

Section MainWindow.
Context {A : Type} `{Arith A}.
Local Open Scope dbl_scope.

Definition kMaxDataPoints : Z := 100.

(** The chart members of [MainWindow]: the points of the four line series,
    the range last given to each axis by [setRange], and the counter. *)
Record Chart : Type := {
  slippageSeries : list (A * A);
  impactSeries : list (A * A);
  feesSeries : list (A * A);
  totalCostSeries : list (A * A);
  axisX : A * A;
  axisY : A * A;
  dataPointCounter : Z                            (* int *)
}.

(** [setupChart()], with [dataPointCounter(0)] of the constructor. *)
Definition setupChart : Chart :=
  {| slippageSeries := []; impactSeries := []; feesSeries := [];
     totalCostSeries := [];
     axisX := (of_Z 0, of_Z kMaxDataPoints);
     axisY := (of_Z 0, of_Z 1);
     dataPointCounter := 0 |}.

(** [updateChart()], the slot of the one-second timer; [simulator] is the
    simulator as the slot finds it, [None] for a null pointer. *)
Definition updateChart (simulator : option (Simulator A)) (w : Chart)
  : Chart :=
  match simulator with
  | None => w
  | Some simulator =>
    if negb (isRunning simulator) then w else
    let output := getLatestOutput simulator in
    let x := of_Z (dataPointCounter w) in
    let slippage := slippageSeries w ++ [(x, expectedSlippage output)] in
    let impact := impactSeries w ++ [(x, expectedMarketImpact output)] in
    let fees := feesSeries w ++ [(x, expectedFees output)] in
    let totalCost := totalCostSeries w ++ [(x, netCost output)] in
    let counter := wrap32 (dataPointCounter w + 1) in
    let '(slippage, impact, fees, totalCost) :=
      if (kMaxDataPoints <? Z.of_nat (length slippage))%Z
      then (tl slippage, tl impact, tl fees, tl totalCost)
      else (slippage, impact, fees, totalCost) in
    let rangeX :=
      if (kMaxDataPoints <? counter)%Z
      then (of_Z (counter - kMaxDataPoints), of_Z counter)
      else (of_Z 0, of_Z (Z.max kMaxDataPoints counter)) in
    let maxY :=
      for_range 0 (length totalCost)
        (fun i maxY => std_max maxY (snd (nth i totalCost no_level)))
        zero in
    let rangeY :=
      if maxY >? zero then (of_Z 0, maxY * dec 11 1) else axisY w in
    {| slippageSeries := slippage; impactSeries := impact;
       feesSeries := fees; totalCostSeries := totalCost;
       axisX := rangeX; axisY := rangeY; dataPointCounter := counter |}
  end.

(** The timer firing once for each of the simulator states in [states]. *)
Definition sample_chart (w : Chart) (states : list (Simulator A)) : Chart :=
  fold_left (fun w simulator => updateChart (Some simulator) w) states w.

(** The points of one quantity of the latest outputs of [states], the first
    of them at abscissa [k]. *)
Fixpoint points (quantity : SimulatorOutput A -> A) (k : Z)
    (states : list (Simulator A)) : list (A * A) :=
  match states with
  | [] => []
  | simulator :: rest =>
    (of_Z k, quantity (getLatestOutput simulator))
      :: points quantity (k + 1) rest
  end.
End MainWindow.

Arguments Chart A : clear implicits.

Section ChartWindow.
Context {A : Type} `{Arith A}.

Lemma points_length (quantity : SimulatorOutput A -> A)
    (states : list (Simulator A)) :
  forall k : Z, length (points quantity k states) = length states.
Proof.
  induction states as [|s states IH]; intros k; cbn [points length];
    [reflexivity|]. now rewrite IH.
Qed.

Lemma points_snoc (quantity : SimulatorOutput A -> A)
    (states : list (Simulator A)) (last : Simulator A) :
  forall k : Z,
    points quantity k (states ++ [last])
    = points quantity k states
      ++ [(of_Z (k + Z.of_nat (length states)),
           quantity (getLatestOutput last))].
Proof.
  induction states as [|s states IH]; intros k; cbn [points app length].
  - now rewrite Z.add_0_r.
  - rewrite IH.
    replace (k + 1 + Z.of_nat (length states))%Z
      with (k + Z.of_nat (S (length states)))%Z by lia.
    reflexivity.
Qed.

Lemma skipn_succ_tl {T : Type} (l : list T) :
  forall k : nat, skipn (S k) l = tl (skipn k l).
Proof.
  induction l as [|x l IH]; intros k.
  - now destruct k.
  - destruct k as [|k]; [reflexivity|]. cbn [skipn] in *. apply IH.
Qed.

(** Appending a point to the last 100 of a series, and dropping the first
    point when that makes 101, leaves the last 100 of the longer series. *)
Lemma window_full {T : Type} (n : nat) (series : list T) (point : T) :
  length series = n -> (100 <= n)%nat ->
  tl (skipn (n - 100) series ++ [point])
  = skipn (S n - 100) (series ++ [point]).
Proof.
  intros Hn Hfull.
  replace (S n - 100)%nat with (S (n - 100)) by lia.
  rewrite skipn_succ_tl, skipn_app.
  replace (n - 100 - length series)%nat with 0%nat by lia.
  cbn [skipn].
  destruct (skipn (n - 100) series) as [|x rest] eqn:Hwindow; [|reflexivity].
  apply (f_equal (@length T)) in Hwindow. rewrite length_skipn in Hwindow.
  cbn [length] in Hwindow. lia.
Qed.

Lemma window_room {T : Type} (n : nat) (series : list T) (point : T) :
  (n < 100)%nat ->
  skipn (n - 100) series ++ [point] = skipn (S n - 100) (series ++ [point]).
Proof.
  intros Hroom.
  replace (n - 100)%nat with 0%nat by lia.
  replace (S n - 100)%nat with 0%nat by lia.
  reflexivity.
Qed.

(** The chart after the timer fired on [states], all of them running. *)
Lemma sample_chart_window (states : list (Simulator A)) :
  Forall (fun simulator => isRunning_ simulator = true) states ->
  (Z.of_nat (length states) < 2 ^ 31)%Z ->
  dataPointCounter (sample_chart setupChart states)
  = Z.of_nat (length states)
  /\ slippageSeries (sample_chart setupChart states)
     = skipn (length states - 100) (points expectedSlippage 0 states)
  /\ impactSeries (sample_chart setupChart states)
     = skipn (length states - 100) (points expectedMarketImpact 0 states)
  /\ feesSeries (sample_chart setupChart states)
     = skipn (length states - 100) (points expectedFees 0 states)
  /\ totalCostSeries (sample_chart setupChart states)
     = skipn (length states - 100) (points netCost 0 states)
  /\ axisX (sample_chart setupChart states)
     = (of_Z (Z.max 0 (Z.of_nat (length states) - 100)),
        of_Z (Z.max 100 (Z.of_nat (length states)))).
Proof.
  induction states as [|last states IH] using rev_ind; intros Hrun Hsmall.
  - cbn. repeat split; reflexivity.
  - apply Forall_app in Hrun. destruct Hrun as [Hrun Hlast].
    inversion Hlast as [|? ? Hrunning _]; subst.
    rewrite length_app in Hsmall. cbn [length] in Hsmall.
    destruct (IH Hrun ltac:(lia)) as (Ic & Is & Ii & If & It & _).
    unfold sample_chart in *. rewrite fold_left_app.
    cbn [fold_left].
    set (w := fold_left _ states setupChart) in *.
    rewrite !points_snoc, length_app. cbn [length].
    replace (length states + 1)%nat with (S (length states)) by lia.
    unfold updateChart, isRunning. rewrite Hrunning. cbn [negb].
    rewrite Ic, Is, Ii, If, It, wrap32_small by lia.
    rewrite Z.add_0_l.
    rewrite length_app, length_skipn, points_length. cbn [length].
    unfold kMaxDataPoints.
    destruct (Z.ltb_spec 100
                (Z.of_nat (length states - (length states - 100) + 1)))
      as [Hfull|Hroom];
      cbn [slippageSeries impactSeries feesSeries totalCostSeries axisX
           dataPointCounter].
    + split; [lia|].
      do 4 (split; [apply window_full; [apply points_length|lia]|]).
      destruct (Z.ltb_spec 100 (Z.of_nat (length states) + 1)); [|lia].
      f_equal; f_equal; lia.
    + split; [lia|].
      do 4 (split; [apply window_room; lia|]).
      destruct (Z.ltb_spec 100 (Z.of_nat (length states) + 1)); [lia|].
      f_equal; f_equal; lia.
Qed.

(** X27.  The chart shows a sliding window: after the timer has fired [n]
    times on a running simulator, every series holds the values of the last
    [min(n, 100)] latest outputs, in order, at abscissas counted from 0, and
    the X axis spans the 100 ticks that end at [max(n, 100)]. *)
Theorem chart_shows_last_hundred_samples (states : list (Simulator A)) :
  Forall (fun simulator => isRunning_ simulator = true) states ->
  (Z.of_nat (length states) < 2 ^ 31)%Z ->
  totalCostSeries (sample_chart setupChart states)
  = skipn (length states - 100) (points netCost 0 states)
  /\ slippageSeries (sample_chart setupChart states)
     = skipn (length states - 100) (points expectedSlippage 0 states)
  /\ impactSeries (sample_chart setupChart states)
     = skipn (length states - 100) (points expectedMarketImpact 0 states)
  /\ feesSeries (sample_chart setupChart states)
     = skipn (length states - 100) (points expectedFees 0 states)
  /\ length (totalCostSeries (sample_chart setupChart states))
     = Nat.min (length states) 100
  /\ axisX (sample_chart setupChart states)
     = (of_Z (Z.max 0 (Z.of_nat (length states) - 100)),
        of_Z (Z.max 100 (Z.of_nat (length states)))).
Proof.
  intros Hrun Hsmall.
  destruct (sample_chart_window states Hrun Hsmall)
    as (_ & Is & Ii & If & It & Ix).
  repeat split; trivial.
  rewrite It, length_skipn, points_length. lia.
Qed.
End ChartWindow.

Section ChartAxis.
Local Open Scope R_scope.

Lemma maxY_loop (rest : list (R * R)) :
  forall (done : list (R * R)) (maxY : R),
    for_range (length done) (length rest)
      (fun i maxY => std_max maxY (snd (nth i (done ++ rest) no_level))) maxY
    = fold_left (fun maxY point => std_max maxY (snd point)) rest maxY.
Proof.
  induction rest as [|point rest IH]; intros done maxY; [reflexivity|].
  cbn [length for_range fold_left]. rewrite nth_middle.
  specialize (IH (done ++ [point]) (std_max maxY (snd point))).
  rewrite length_app, <- app_assoc in IH. cbn [length app] in IH.
  replace (length done + 1)%nat with (S (length done)) in IH by lia.
  exact IH.
Qed.

Lemma fold_max_bounds (series : list (R * R)) :
  forall maxY : R,
    maxY <= fold_left (fun maxY point => std_max maxY (snd point)) series maxY
    /\ Forall (fun point =>
                 snd point
                 <= fold_left (fun maxY point => std_max maxY (snd point))
                      series maxY) series.
Proof.
  induction series as [|point series IH]; intros maxY; cbn [fold_left].
  - split; [lra|constructor].
  - destruct (IH (std_max maxY (snd point))) as [Hge Hall].
    pose proof (std_max_ge_left maxY (snd point)).
    pose proof (std_max_ge_right maxY (snd point)).
    split; [lra|]. constructor; [lra|exact Hall].
Qed.

Lemma fold_max_nonpositive (series : list (R * R)) :
  Forall (fun point => snd point <= 0) series ->
  fold_left (fun maxY point => std_max maxY (snd point)) series 0 = 0.
Proof.
  induction 1 as [|point series Hpoint _ IH]; cbn [fold_left]; [reflexivity|].
  replace (std_max 0 (snd point)) with 0; [exact IH|].
  unfold std_max. exact_arith. case_Rltb 0 (snd point); lra.
Qed.

Lemma fold_max_attained (series : list (R * R)) :
  forall maxY : R,
    fold_left (fun maxY point => std_max maxY (snd point)) series maxY = maxY
    \/ exists top,
         In top series
         /\ snd top
            = fold_left (fun maxY point => std_max maxY (snd point)) series
                maxY.
Proof.
  induction series as [|point series IH]; intros maxY; cbn [fold_left].
  - left. reflexivity.
  - destruct (IH (std_max maxY (snd point))) as [Hkept | (top & Hin & Htop)].
    + rewrite Hkept. unfold std_max. exact_arith.
      case_Rltb maxY (snd point); [right|left; reflexivity].
      exists point. split; [now left|reflexivity].
    + right. exists top. split; [now right|exact Htop].
Qed.

Lemma axis_for_series (series : list (R * R)) (old : R * R) :
  let maxY :=
    for_range 0 (length series)
      (fun i maxY => std_max maxY (snd (nth i series no_level))) zero in
  let rangeY :=
    if ltb zero maxY then (of_Z 0, mul maxY (dec 11 1)) else old in
  (Forall (fun point => snd point <= 0) series -> rangeY = old)
  /\ (Exists (fun point => 0 < snd point) series ->
      exists top,
        In top series
        /\ Forall (fun point => snd point <= snd top) series
        /\ rangeY = (0, snd top * (11 / 10))
        /\ Forall (fun point => snd point < snd rangeY) series).
Proof.
  intros maxY rangeY. subst rangeY maxY.
  pose proof (maxY_loop series [] zero) as Hloop.
  cbn [app length] in Hloop. rewrite Hloop. clear Hloop.
  destruct (fold_max_bounds series zero) as [Hge Hall].
  destruct (fold_max_attained series zero) as [Hkept | (top & Hin & Htop)];
    decimals; set (maxY := fold_left _ series 0) in *.
  - split.
    + intros _. rewrite Hkept, Rltb_irrefl. reflexivity.
    + intros Hpositive. apply Exists_exists in Hpositive.
      destruct Hpositive as (point & Hpoint & Hsign).
      rewrite Forall_forall in Hall. pose proof (Hall point Hpoint). lra.
  - split.
    + intros Hnonpositive.
      pose proof (fold_max_nonpositive series Hnonpositive) as Hzero.
      fold maxY in Hzero. rewrite Hzero, Rltb_irrefl. reflexivity.
    + intros Hpositive. apply Exists_exists in Hpositive.
      destruct Hpositive as (point & Hpoint & Hsign).
      pose proof Hall as Hevery. rewrite Forall_forall in Hevery.
      pose proof (Hevery point Hpoint) as Hbelow.
      replace (Rltb 0 maxY) with true by (symmetry; apply Rltb_true; lra).
      exists top. rewrite Htop. cbn [fst snd].
      split; [exact Hin|]. split; [exact Hall|]. split; [reflexivity|].
      apply Forall_forall. intros other Hother.
      pose proof (Hevery other Hother). lra.
Qed.

(** X28.  Exact arithmetic: the Y axis follows the net cost only.  When the
    timer fires on a running simulator and some charted net cost is
    positive, the axis is set to [[0, 1.1 * max]], [max] being the largest
    charted net cost, so it lies strictly above every charted net cost; when
    none is positive the axis is left as it was. *)
Theorem chart_axis_covers_net_cost (simulator : Simulator R) (w : Chart R) :
  isRunning_ simulator = true ->
  (Forall (fun point => snd point <= 0)
     (totalCostSeries (updateChart (Some simulator) w)) ->
   axisY (updateChart (Some simulator) w) = axisY w)
  /\ (Exists (fun point => 0 < snd point)
        (totalCostSeries (updateChart (Some simulator) w)) ->
      exists top,
        In top (totalCostSeries (updateChart (Some simulator) w))
        /\ Forall (fun point => snd point <= snd top)
             (totalCostSeries (updateChart (Some simulator) w))
        /\ axisY (updateChart (Some simulator) w)
           = (0, snd top * (11 / 10))
        /\ Forall (fun point =>
                     snd point < snd (axisY (updateChart (Some simulator) w)))
             (totalCostSeries (updateChart (Some simulator) w))).
Proof.
  intros Hrunning. unfold updateChart, isRunning. rewrite Hrunning.
  cbn [negb].
  match goal with
  | |- context [if ?full then (_, _, _, _) else _] => destruct full
  end; cbn [totalCostSeries axisY]; apply axis_for_series.
Qed.

(** With zero volatility the net cost of an output is at least half the
    spread: the impact is 0 and the fee is not negative. *)
Lemma net_cost_at_least_half_spread (L : LibM R) (s : Simulator R)
    (m : TransactionCostModel R) (stats : OrderbookStats R) :
  transactionCostModel_ s = Some m ->
  price_volatility stats = 0 ->
  0 < midprice stats ->
  0 <= sp_quantity (params_ s) ->
  0 <= makerFeeRate (feeModel_ m) ->
  0 <= takerFeeRate (feeModel_ m) ->
  spread stats / 2 <= netCost (latestOutput_ (updateSimulation s stats)).
Proof.
  intros Hmodel Hvol Hmid Hquantity Hmaker Htaker.
  unfold updateSimulation. cbn [latestOutput_]. rewrite Hmodel. exact_arith.
  replace (Rltb 0 (midprice stats)) with true
    by (symmetry; apply Rltb_true; exact Hmid).
  unfold calculateTotalCost. cbn [netCost].
  set (size := sp_quantity (params_ s) / midprice stats).
  pose proof (calculateSlippage_at_least_half_spread m size true stats)
    as Hslippage.
  assert (Himpact :
            match marketImpactModel_ s with
            | Some impact => calculateMarketImpact impact size true stats
            | None => zero
            end = 0).
  { destruct (marketImpactModel_ s) as [impact|]; [|reflexivity].
    unfold calculateMarketImpact, calculatePermanentImpact,
      calculateTemporaryImpact.
    rewrite Hvol. exact_arith. ring. }
  rewrite Himpact.
  assert (Hfees : 0 <= calculateFees m size (midprice stats)
                         (predictMakerProportion m size true stats)).
  { unfold calculateFees.
    pose proof (std_clamp_unit_interval
                  (predictMakerProportion m size true stats)) as Hshare.
    set (share := std_clamp _ zero (of_Z 1)) in *. exact_arith.
    assert (Hnotional : 0 <= size * midprice stats).
    { subst size. unfold Rdiv. rewrite Rmult_assoc, Rinv_l by lra. lra. }
    apply Rplus_le_le_0_compat;
      (apply Rmult_le_pos; [apply Rmult_le_pos; [exact Hnotional|lra]|lra]). }
  exact_arith. lra.
Qed.
End ChartAxis.

(** A running simulator after one statistics value with spread 2 and no
    volatility: its latest net cost is at least 1. *)
Definition priced_state : Simulator R :=
  @updateSimulation R _ real_libm (sim_start (new_simulator 0)) calm_stats.

Lemma chart_axis_witness :
  isRunning_ priced_state = true
  /\ Exists (fun point => 0 < snd point)%R
       (totalCostSeries (updateChart (Some priced_state) setupChart))
  /\ exists top,
       In top (totalCostSeries (updateChart (Some priced_state) setupChart))
       /\ Forall (fun point => snd point <= snd top)%R
            (totalCostSeries (updateChart (Some priced_state) setupChart))
       /\ axisY (updateChart (Some priced_state) setupChart)
          = (0, snd top * (11 / 10))%R
       /\ Forall (fun point =>
                    (snd point
                     < snd (axisY
                              (updateChart (Some priced_state) setupChart)))%R)
            (totalCostSeries (updateChart (Some priced_state) setupChart)).
Proof.
  assert (Hrunning : isRunning_ priced_state = true) by reflexivity.
  assert (Hcost : (0 < netCost (getLatestOutput priced_state))%R).
  { pose proof (net_cost_at_least_half_spread real_libm
                  (sim_start (new_simulator 0))
                  (new_cost_model default_fee_model) calm_stats eq_refl
                  eq_refl) as Hfloor.
    unfold getLatestOutput, priced_state.
    cbn [midprice spread calm_stats] in Hfloor.
    assert (Hmaker : (0 <= makerFeeRate
                            (feeModel_ (@new_cost_model R _
                                          default_fee_model)))%R)
      by (cbn; decimals; lra).
    assert (Htaker : (0 <= takerFeeRate
                            (feeModel_ (@new_cost_model R _
                                          default_fee_model)))%R)
      by (cbn; decimals; lra).
    assert (Hquantity : (0 <= sp_quantity
                               (params_ (sim_start
                                           (@new_simulator R _ 0))))%R)
      by (cbn; exact_arith; lra).
    specialize (Hfloor ltac:(lra) Hquantity Hmaker Htaker). lra. }
  assert (Hpositive :
            Exists (fun point => 0 < snd point)%R
              (totalCostSeries (updateChart (Some priced_state) setupChart))).
  { unfold updateChart, isRunning. rewrite Hrunning.
    cbn [negb setupChart slippageSeries impactSeries feesSeries
         totalCostSeries app length].
    apply Exists_cons_hd. exact Hcost. }
  split; [exact Hrunning|]. split; [exact Hpositive|].
  destruct (chart_axis_covers_net_cost priced_state setupChart Hrunning)
    as [_ Hset].
  exact (Hset Hpositive).
Defined.

(** Three ticks of the timer on a running simulator, in binary64. *)
Definition three_ticks : list (Simulator spec_float) :=
  let s := sim_start (new_simulator 0) in
  [s;
   @on_orderbook_data spec_float _ naive_libm (steady_clock 0) s
     (snapshot_of 5 3);
   @on_orderbook_data spec_float _ naive_libm (steady_clock 1) s
     (snapshot_of 6 4)].

Lemma chart_window_witness :
  Forall (fun simulator => isRunning_ simulator = true) three_ticks
  /\ (Z.of_nat (length three_ticks) < 2 ^ 31)%Z
  /\ totalCostSeries (sample_chart setupChart three_ticks)
     = skipn (length three_ticks - 100) (points netCost 0 three_ticks)
  /\ slippageSeries (sample_chart setupChart three_ticks)
     = skipn (length three_ticks - 100)
         (points expectedSlippage 0 three_ticks)
  /\ impactSeries (sample_chart setupChart three_ticks)
     = skipn (length three_ticks - 100)
         (points expectedMarketImpact 0 three_ticks)
  /\ feesSeries (sample_chart setupChart three_ticks)
     = skipn (length three_ticks - 100) (points expectedFees 0 three_ticks)
  /\ length (totalCostSeries (sample_chart setupChart three_ticks))
     = Nat.min (length three_ticks) 100
  /\ axisX (sample_chart setupChart three_ticks)
     = (of_Z (Z.max 0 (Z.of_nat (length three_ticks) - 100)),
        of_Z (Z.max 100 (Z.of_nat (length three_ticks)))).
Proof.
  assert (Hrun : Forall (fun simulator => isRunning_ simulator = true)
                   three_ticks)
    by (repeat constructor).
  assert (Hsmall : (Z.of_nat (length three_ticks) < 2 ^ 31)%Z)
    by (cbn; lia).
  split; [exact Hrun|]. split; [exact Hsmall|].
  exact (chart_shows_last_hundred_samples three_ticks Hrun Hsmall).
Defined.
